(** * Session, device and lockout core of the authentication backend

    A shallow embedding of [src/config/redis.js], the device methods of
    [src/models/User.js], the auth middleware with its token helper, and
    the login, logout, session-status, extend-session, device and
    refresh-token routes of [src/routes/auth.js], followed by the
    properties established about them.

    Conventions.
    - The key-value store is a finite map from key strings to entries; an
      entry carries its value and an optional absolute expiry instant in
      milliseconds.  Every command takes the current instant [now].
    - [client.status] is an input of [safeRedisOp]: [true] stands for
      ['ready'].  A command that the server refuses (a wrong type, a
      lifetime that is not positive) rejects, and [safeRedisOp] then
      answers with the fallback; what the call wrote before stays.
    - Library functions (md5, bcrypt, jsonwebtoken, ua-parser-js,
      String.prototype.toLowerCase) are fields of the record [Platform]. *)

From Stdlib Require Import ZArith List Permutation Sorted.
From stdpp Require Import base gmap strings list pretty.

Local Open Scope Z_scope.

(** ** Library functions the code calls *)

Record UAResult := {
  ua_browser_name : option string;
  ua_browser_version : option string;
  ua_os_name : option string;
  ua_os_version : option string;
  ua_device_model : option string;
  ua_device_type : option string;
  ua_device_vendor : option string
}.

Record Decoded := { dec_userId : string; dec_sessionId : string }.

Record Platform := {
  (* crypto.createHash('md5').update(s).digest('hex') *)
  md5_hex : string → string;
  (* String.prototype.toLowerCase *)
  toLowerCase : string → string;
  (* bcrypt.compare(candidate, hash) *)
  bcrypt_compare : string → string → bool;
  (* new UAParser(userAgent).getResult() *)
  ua_parse : option string → UAResult;
  (* jwt.sign(payload, JWT_SECRET, ...) at a given instant:
     userId, sessionId, email *)
  jwt_sign_access : Z → string → string → string → string;
  (* jwt.sign({userId, sessionId, type:'refresh'}, refresh secret, ...) *)
  jwt_sign_refresh : Z → string → string → string;
  (* jwt.verify(token, refresh secret): None when it throws *)
  jwt_verify_refresh : Z → string → option Decoded
}.

(** ** process.env *)

Record Env := {
  SESSION_TIMEOUT : option Z;
  SESSION_REFRESH_THROTTLE : option Z;
  REFRESH_TOKEN_EXPIRE : option Z;
  LOCKOUT_TIME : option Z
}.

(** [parseInt(process.env.X) || d]: NaN and 0 are both falsy. *)
Definition parseIntOr (v : option Z) (d : Z) : Z :=
  match v with
  | Some n => if n =? 0 then d else n
  | None => d
  end.

Definition defaultEnv : Env :=
  {| SESSION_TIMEOUT := None; SESSION_REFRESH_THROTTLE := None;
     REFRESH_TOKEN_EXPIRE := None; LOCKOUT_TIME := None |}.

(** ** Records kept in the store *)

Record SessionData := {
  sd_userId : string;
  sd_sessionId : string;
  sd_createdAt : Z;
  sd_email : string;
  sd_firstName : string;
  sd_lastName : string
}.

Record TokenData := {
  td_userId : string;
  td_sessionId : string;
  td_createdAt : Z
}.

(** ** The key-value store *)

Module Redis.

(** What a key holds.  [VNum n] is the string of the decimal integer [n]
    (counters, [Date.now().toString()]); [VSession] and [VToken] are the
    [JSON.stringify] images of the two records. *)
Inductive value :=
| VStr (s : string)
| VNum (n : Z)
| VSession (d : SessionData)
| VToken (t : TokenData)
| VSet (members : gset string).

Record entry := { val : value; expiry : option Z }.

Abbreviation db := (gmap string entry).

Definition live (now : Z) (e : entry) : bool :=
  match expiry e with
  | None => true
  | Some t => now <? t
  end.

Definition lookup_live (now : Z) (k : string) (s : db) : option entry :=
  match s !! k with
  | Some e => if live now e then Some e else None
  | None => None
  end.

(** A command either resolves or rejects; the store it leaves behind is
    returned in both cases. *)
Inductive res (A : Type) :=
| Ok (a : A)
| Rejected.
Arguments Ok {A} a.
Arguments Rejected {A}.

Definition cmd (A : Type) : Type := db → res A * db.

Definition ret {A} (a : A) : cmd A := fun s => (Ok a, s).

Definition bind {A B} (c : cmd A) (f : A → cmd B) : cmd B :=
  fun s =>
    match c s with
    | (Ok a, s') => f a s'
    | (Rejected, s') => (Rejected, s')
    end.

Definition reject {A} : cmd A := fun s => (Rejected, s).

(** A service call that never rejects, awaited inside a command. *)
Definition await {A} (f : db → A * db) : cmd A :=
  fun s => let '(a, s') := f s in (Ok a, s').

Definition seconds (ttl : Z) : Z := ttl * 1000.

(* GET: nil for a missing or expired key, WRONGTYPE on a set *)
Definition get (now : Z) (k : string) : cmd (option value) :=
  fun s =>
    match lookup_live now k s with
    | None => (Ok None, s)
    | Some e =>
        match val e with
        | VSet _ => (Rejected, s)
        | v => (Ok (Some v), s)
        end
    end.

(* SETEX: refused with "invalid expire time" unless the lifetime is
   positive *)
Definition setex (now : Z) (k : string) (ttl : Z) (v : value) : cmd unit :=
  fun s =>
    if 0 <? ttl then
      (Ok tt, <[k := {| val := v; expiry := Some (now + seconds ttl) |}]> s)
    else (Rejected, s).

Definition set (k : string) (v : value) : cmd unit :=
  fun s => (Ok tt, <[k := {| val := v; expiry := None |}]> s).

Definition del (k : string) : cmd unit :=
  fun s => (Ok tt, delete k s).

(* INCR: creates the key at 1, keeps the expiry of a live key *)
Definition incr (now : Z) (k : string) : cmd Z :=
  fun s =>
    match lookup_live now k s with
    | None => (Ok 1, <[k := {| val := VNum 1; expiry := None |}]> s)
    | Some e =>
        match val e with
        | VNum n => (Ok (n + 1), <[k := {| val := VNum (n + 1); expiry := expiry e |}]> s)
        | _ => (Rejected, s)
        end
    end.

(* EXPIRE: no effect on a missing key; a lifetime that is not positive
   deletes the key *)
Definition expire_at (now : Z) (k : string) (ttl : Z) (s : db) : db :=
  match lookup_live now k s with
  | None => s
  | Some e =>
      if 0 <? ttl then <[k := {| val := val e; expiry := Some (now + seconds ttl) |}]> s
      else delete k s
  end.

Definition expire (now : Z) (k : string) (ttl : Z) : cmd unit :=
  fun s => (Ok tt, expire_at now k ttl s).

Definition sadd (now : Z) (k : string) (m : string) : cmd unit :=
  fun s =>
    match lookup_live now k s with
    | None => (Ok tt, <[k := {| val := VSet {[ m ]}; expiry := None |}]> s)
    | Some e =>
        match val e with
        | VSet ms => (Ok tt, <[k := {| val := VSet ({[ m ]} ∪ ms); expiry := expiry e |}]> s)
        | _ => (Rejected, s)
        end
    end.

(* SREM: a set left empty is removed *)
Definition srem (now : Z) (k : string) (m : string) : cmd unit :=
  fun s =>
    match lookup_live now k s with
    | None => (Ok tt, s)
    | Some e =>
        match val e with
        | VSet ms =>
            if decide (ms ∖ {[ m ]} = ∅) then (Ok tt, delete k s)
            else (Ok tt, <[k := {| val := VSet (ms ∖ {[ m ]}); expiry := expiry e |}]> s)
        | _ => (Rejected, s)
        end
    end.

Definition smembers (now : Z) (k : string) : cmd (list string) :=
  fun s =>
    match lookup_live now k s with
    | None => (Ok [], s)
    | Some e =>
        match val e with
        | VSet ms => (Ok (elements ms), s)
        | _ => (Rejected, s)
        end
    end.

(* pipeline().del(k1)...del(kn).exec() *)
Definition pipeline_del (ks : list string) : cmd unit :=
  fun s => (Ok tt, foldl (fun acc k => delete k acc) s ks).

End Redis.

Import Redis.

Global Instance cmd_ret : MRet cmd := @Redis.ret.
Global Instance cmd_bind : MBind cmd := fun A B f c => Redis.bind c f.

(** ** safeRedisOp *)

Definition safeRedisOp {A} (ready : bool) (operation : cmd A) (fallback : A)
  : db → A * db :=
  fun s =>
    if ready then
      match operation s with
      | (Ok a, s') => (a, s')
      | (Rejected, s') => (fallback, s')
      end
    else (fallback, s).

(** ** sessionService (src/config/redis.js) *)

Record CreateResult := {
  cr_sessionId : string;
  cr_previousDeviceInfo : option unit;
  cr_wasLoggedOutFromOtherDevice : bool
}.

Record UserData := {
  ud_email : string;
  ud_firstName : string;
  ud_lastName : string
}.

(** Truthiness of the string a GET resolved with. *)
Definition truthy (v : option value) : bool :=
  match v with
  | None => false
  | Some (VStr s) => negb (String.eqb s "")
  | Some _ => true
  end.

Module sessionService.
Section WithEnv.
Variable env : Env.

Definition sessionTimeout : Z := parseIntOr (SESSION_TIMEOUT env) 300.
Definition throttleWindow : Z := parseIntOr (SESSION_REFRESH_THROTTLE env) 30.
Definition refreshExpire : Z := parseIntOr (REFRESH_TOKEN_EXPIRE env) 604800.

Definition createSession (ready : bool) (now : Z)
    (userId sessionId : string) (userData : UserData) : db → CreateResult * db :=
  let shell := {| cr_sessionId := sessionId; cr_previousDeviceInfo := None;
                  cr_wasLoggedOutFromOtherDevice := false |} in
  safeRedisOp ready
    (let sessionData :=
       {| sd_userId := userId; sd_sessionId := sessionId; sd_createdAt := now;
          sd_email := ud_email userData; sd_firstName := ud_firstName userData;
          sd_lastName := ud_lastName userData |} in
     Redis.setex now ("session:" +:+ sessionId) sessionTimeout (VSession sessionData);;
     Redis.set ("active_session:" +:+ userId) (VStr sessionId);;
     mret shell)
    shell.

Definition getSession (ready : bool) (now : Z) (sessionId : string)
  : db → option SessionData * db :=
  safeRedisOp ready
    (data ← Redis.get now ("session:" +:+ sessionId);
     match data with
     | Some (VSession d) => mret (Some d)
     | Some (VStr s) => if String.eqb s "" then mret None else Redis.reject
     | Some _ => Redis.reject (* no other shape is written under this prefix *)
     | None => mret None
     end)
    None.

Definition deleteSession (ready : bool) (now : Z) (sessionId : string)
  : db → unit * db :=
  safeRedisOp ready
    (sessionData ← Redis.await (getSession ready now sessionId);
     match sessionData with
     | Some d =>
         Redis.del ("session:" +:+ sessionId);;
         Redis.del ("active_session:" +:+ sd_userId d)
     | None => mret tt
     end)
    tt.

Definition storeRefreshToken (ready : bool) (now : Z)
    (refreshToken userId sessionId : string) : db → unit * db :=
  safeRedisOp ready
    (let tokenData :=
       {| td_userId := userId; td_sessionId := sessionId; td_createdAt := now |} in
     let expire := refreshExpire in
     Redis.setex now ("refresh_token:" +:+ refreshToken) expire (VToken tokenData);;
     Redis.sadd now ("user_refresh_tokens:" +:+ userId) refreshToken;;
     Redis.expire now ("user_refresh_tokens:" +:+ userId) expire)
    tt.

Definition getRefreshToken (ready : bool) (now : Z) (refreshToken : string)
  : db → option TokenData * db :=
  safeRedisOp ready
    (data ← Redis.get now ("refresh_token:" +:+ refreshToken);
     match data with
     | Some (VToken t) => mret (Some t)
     | Some (VStr s) => if String.eqb s "" then mret None else Redis.reject
     | Some _ => Redis.reject
     | None => mret None
     end)
    None.

Definition deleteRefreshToken (ready : bool) (now : Z) (refreshToken : string)
  : db → unit * db :=
  safeRedisOp ready
    (tokenData ← Redis.await (getRefreshToken ready now refreshToken);
     Redis.del ("refresh_token:" +:+ refreshToken);;
     match tokenData with
     | Some t =>
         if negb (String.eqb (td_userId t) "") then
           Redis.srem now ("user_refresh_tokens:" +:+ td_userId t) refreshToken
         else mret tt
     | None => mret tt
     end)
    tt.

Definition deleteAllUserSessions (ready : bool) (now : Z) (userId : string)
  : db → unit * db :=
  safeRedisOp ready
    (sessionId ← Redis.get now ("active_session:" +:+ userId);
     (if truthy sessionId then
        match sessionId with
        | Some (VStr sid) => Redis.del ("session:" +:+ sid)
        | _ => Redis.reject
        end
      else mret tt);;
     Redis.del ("active_session:" +:+ userId))
    tt.

Definition refreshSession (ready : bool) (now : Z) (sessionId : string)
    (force : bool) : db → bool * db :=
  safeRedisOp ready
    (let rearm : cmd bool :=
       Redis.expire now ("session:" +:+ sessionId) sessionTimeout;; mret true in
     if negb force then
       let lastRefreshKey := "session_refresh:" +:+ sessionId in
       lastRefresh ← Redis.get now lastRefreshKey;
       let mark_and_rearm : cmd bool :=
         Redis.setex now lastRefreshKey throttleWindow (VNum now);; rearm in
       match lastRefresh with
       | Some (VNum t) =>
           let timeSinceRefresh := now - t in
           if timeSinceRefresh <? throttleWindow * 1000 then mret true
           else mark_and_rearm
       | _ =>
           (* nil, the empty string, or a string parseInt maps to NaN *)
           mark_and_rearm
       end
     else rearm)
    false.

Definition deleteAllUserRefreshTokens (ready : bool) (now : Z) (userId : string)
  : db → unit * db :=
  safeRedisOp ready
    (refreshTokens ← Redis.smembers now ("user_refresh_tokens:" +:+ userId);
     if (0 <? length refreshTokens)%nat then
       Redis.pipeline_del
         (map (fun token => "refresh_token:" +:+ token) refreshTokens
          ++ ["user_refresh_tokens:" +:+ userId])
     else mret tt)
    tt.

End WithEnv.
End sessionService.

(** ** failedAttemptsService (src/config/redis.js) *)

Module failedAttemptsService.
Section WithEnv.
Variable env : Env.

Definition lockoutTime : Z := parseIntOr (LOCKOUT_TIME env) 900.

Definition incrementFailedAttempts (ready : bool) (now : Z) (identifier : string)
  : db → Z * db :=
  safeRedisOp ready
    (attempts ← Redis.incr now ("failed_attempts:" +:+ identifier);
     Redis.expire now ("failed_attempts:" +:+ identifier) lockoutTime;;
     mret attempts)
    1.

Definition getFailedAttempts (ready : bool) (now : Z) (identifier : string)
  : db → Z * db :=
  safeRedisOp ready
    (attempts ← Redis.get now ("failed_attempts:" +:+ identifier);
     match attempts with
     | Some (VNum n) => mret n
     | _ => mret 0
     end)
    0.

Definition clearFailedAttempts (ready : bool) (identifier : string)
  : db → unit * db :=
  safeRedisOp ready (Redis.del ("failed_attempts:" +:+ identifier)) tt.

Definition lockAccount (ready : bool) (now : Z) (identifier : string)
  : db → unit * db :=
  safeRedisOp ready
    (Redis.setex now ("account_lock:" +:+ identifier) lockoutTime (VStr "locked"))
    tt.

Definition isAccountLocked (ready : bool) (now : Z) (identifier : string)
  : db → bool * db :=
  safeRedisOp ready
    (locked ← Redis.get now ("account_lock:" +:+ identifier);
     mret (truthy locked))
    false.

End WithEnv.
End failedAttemptsService.

(** ** The user document and its device methods (src/models/User.js) *)

Record NameVersion := { nv_name : string; nv_version : string }.

Record DeviceDesc := { dd_model : string; dd_type : string; dd_vendor : string }.

(** The [deviceInfo] object the login handler builds. *)
Record DeviceInfo := {
  di_browser : NameVersion;
  di_os : NameVersion;
  di_device : DeviceDesc;
  di_ip : string;
  di_userAgent : option string;
  di_deviceToken : option string
}.

(** One element of [user.devices]; dates are milliseconds since the epoch. *)
Record Device := {
  deviceId : string;
  browser : NameVersion;
  os : NameVersion;
  device : DeviceDesc;
  ip : string;
  userAgent : option string;
  deviceToken : option string;
  firstSeen : Z;
  lastSeen : Z;
  loginCount : Z;
  isActive : bool
}.

Record LastDeviceInfo := {
  ldi_browser : NameVersion;
  ldi_os : NameVersion;
  ldi_device : DeviceDesc;
  ldi_ip : string;
  ldi_userAgent : option string;
  ldi_deviceToken : option string;
  ldi_lastUsed : Z
}.

Record User := {
  u_id : string;
  u_email : string;
  u_password : string;
  u_firstName : string;
  u_lastName : string;
  u_isActive : bool;
  u_isVerified : bool;
  u_lastLogin : option Z;
  u_lastDeviceInfo : option LastDeviceInfo;
  devices : list Device;
  u_createdAt : Z
}.

Definition set_devices (u : User) (ds : list Device) : User :=
  {| u_id := u_id u; u_email := u_email u; u_password := u_password u;
     u_firstName := u_firstName u; u_lastName := u_lastName u;
     u_isActive := u_isActive u; u_isVerified := u_isVerified u;
     u_lastLogin := u_lastLogin u; u_lastDeviceInfo := u_lastDeviceInfo u;
     devices := ds; u_createdAt := u_createdAt u |}.

Definition set_lastDeviceInfo (u : User) (l : LastDeviceInfo) : User :=
  {| u_id := u_id u; u_email := u_email u; u_password := u_password u;
     u_firstName := u_firstName u; u_lastName := u_lastName u;
     u_isActive := u_isActive u; u_isVerified := u_isVerified u;
     u_lastLogin := u_lastLogin u; u_lastDeviceInfo := Some l;
     devices := devices u; u_createdAt := u_createdAt u |}.

Definition set_lastLogin (u : User) (t : Z) : User :=
  {| u_id := u_id u; u_email := u_email u; u_password := u_password u;
     u_firstName := u_firstName u; u_lastName := u_lastName u;
     u_isActive := u_isActive u; u_isVerified := u_isVerified u;
     u_lastLogin := Some t; u_lastDeviceInfo := u_lastDeviceInfo u;
     devices := devices u; u_createdAt := u_createdAt u |}.

Definition set_isActive (d : Device) (b : bool) : Device :=
  {| deviceId := deviceId d; browser := browser d; os := os d;
     device := device d; ip := ip d; userAgent := userAgent d;
     deviceToken := deviceToken d; firstSeen := firstSeen d;
     lastSeen := lastSeen d; loginCount := loginCount d; isActive := b |}.

(** [a || b] on optional strings: null, undefined and the empty string are
    falsy. *)
Definition or_string (a b : option string) : option string :=
  match a with
  | Some s => if String.eqb s "" then b else a
  | None => b
  end.

(** [Array.prototype.findIndex]: [None] stands for -1. *)
Fixpoint findIndex {A} (p : A → bool) (l : list A) : option nat :=
  match l with
  | [] => None
  | x :: t => if p x then Some O else S <$> findIndex p t
  end.

(** [Array.prototype.sort] with a comparator: the sort is stable, so it is
    embedded as the insertion sort that places an element in front of the
    first one it does not have to follow. *)
Fixpoint sort_insert {A} (cmp : A → A → Z) (d : A) (l : list A) : list A :=
  match l with
  | [] => [d]
  | x :: t => if cmp d x <=? 0 then d :: x :: t else x :: sort_insert cmp d t
  end.

Definition js_sort {A} (cmp : A → A → Z) (l : list A) : list A :=
  foldr (sort_insert cmp) [] l.

(** [(a, b) => new Date(b.lastSeen) - new Date(a.lastSeen)] *)
Definition byLastSeenDesc (a b : Device) : Z := lastSeen b - lastSeen a.

(** The order that comparator sorts into: most recent first. *)
Definition newer_first (a b : Device) : Prop := lastSeen b ≤ lastSeen a.

(** [Array.prototype.slice(0, n)] *)
Definition slice0 {A} (n : nat) (l : list A) : list A := firstn n l.

Module UserModel.
Section WithPlatform.
Variable P : Platform.

Definition findByEmail (email : string) (users : list User) : option User :=
  find (fun u => String.eqb (u_email u) (toLowerCase P email)) users.

Definition findById (id : string) (users : list User) : option User :=
  find (fun u => String.eqb (u_id u) id) users.

(** [user.save()] on a document that was loaded from the collection. *)
Definition save (u : User) (users : list User) : list User :=
  map (fun v => if String.eqb (u_id v) (u_id u) then u else v) users.

Definition comparePassword (u : User) (candidatePassword : string) : bool :=
  bcrypt_compare P candidatePassword (u_password u).

Definition generateDeviceId (deviceInfo : DeviceInfo) : string :=
  let deviceString :=
    nv_name (di_browser deviceInfo) +:+ "-" +:+ nv_name (di_os deviceInfo)
    +:+ "-" +:+ dd_type (di_device deviceInfo)
    +:+ "-" +:+ dd_vendor (di_device deviceInfo) in
  md5_hex P deviceString.

Definition updateDeviceInfo (now : Z) (deviceInfo : DeviceInfo) (this : User)
  : string * User :=
  let devId := generateDeviceId deviceInfo in
  let existingDeviceIndex :=
    findIndex (fun d => String.eqb (deviceId d) devId) (devices this) in
  let devices' :=
    match existingDeviceIndex with
    | Some i =>
        match devices this !! i with
        | Some existingDevice =>
            <[ i := {| deviceId := deviceId existingDevice;
                       browser := browser existingDevice;
                       os := os existingDevice;
                       device := device existingDevice;
                       ip := di_ip deviceInfo;
                       userAgent := userAgent existingDevice;
                       deviceToken :=
                         or_string (di_deviceToken deviceInfo) (deviceToken existingDevice);
                       firstSeen := firstSeen existingDevice;
                       lastSeen := now;
                       loginCount := loginCount existingDevice + 1;
                       isActive := true |} ]> (devices this)
        | None => devices this
        end
    | None =>
        let newDevice :=
          {| deviceId := devId;
             browser := di_browser deviceInfo;
             os := di_os deviceInfo;
             device := di_device deviceInfo;
             ip := di_ip deviceInfo;
             userAgent := di_userAgent deviceInfo;
             deviceToken := di_deviceToken deviceInfo;
             firstSeen := now;
             lastSeen := now;
             loginCount := 1;
             isActive := true |} in
        let pushed := devices this ++ [newDevice] in
        if (10 <? length pushed)%nat then slice0 10 (js_sort byLastSeenDesc pushed)
        else pushed
    end in
  let lastDeviceInfo :=
    {| ldi_browser := di_browser deviceInfo; ldi_os := di_os deviceInfo;
       ldi_device := di_device deviceInfo; ldi_ip := di_ip deviceInfo;
       ldi_userAgent := di_userAgent deviceInfo;
       ldi_deviceToken := di_deviceToken deviceInfo; ldi_lastUsed := now |} in
  (devId, set_lastDeviceInfo (set_devices this devices') lastDeviceInfo).

(** [getDeviceHistory] sorts [this.devices] in place and returns it. *)
Definition getDeviceHistory (this : User) : list Device * User :=
  let sorted := js_sort byLastSeenDesc (devices this) in
  (sorted, set_devices this sorted).

(** [find] returns the first matching element, which is then mutated in
    place. *)
Definition deactivateDevice (devId : string) (this : User) : bool * User :=
  match findIndex (fun d => String.eqb (deviceId d) devId) (devices this) with
  | Some i =>
      match devices this !! i with
      | Some d => (true, set_devices this (<[ i := set_isActive d false ]> (devices this)))
      | None => (false, this)
      end
  | None => (false, this)
  end.

End WithPlatform.
End UserModel.

(** ** The token helper of the auth middleware *)

Record Tokens := { accessToken : string; refreshToken : string }.

Definition generateTokens (P : Platform) (now : Z)
    (userId sessionId email : string) : Tokens :=
  {| accessToken := jwt_sign_access P now userId sessionId email;
     refreshToken := jwt_sign_refresh P now userId sessionId |}.

(** ** The handlers of src/routes/auth.js *)

Record World := { store : db; users : list User }.

Inductive AppError :=
| TooManyRequestsError (message : string)
| AuthenticationError (message : string).

Record LoginRequest := {
  req_email : string;
  req_password : string;
  req_deviceToken : option string;
  req_ip : string;
  req_userAgent : option string
}.

Record PublicProfile := {
  pp_id : string;
  pp_email : string;
  pp_firstName : string;
  pp_lastName : string;
  pp_isVerified : bool;
  pp_lastLogin : option Z;
  pp_lastDeviceInfo : option LastDeviceInfo;
  pp_createdAt : Z
}.

Definition getPublicProfile (this : User) : PublicProfile :=
  {| pp_id := u_id this; pp_email := u_email this;
     pp_firstName := u_firstName this; pp_lastName := u_lastName this;
     pp_isVerified := u_isVerified this; pp_lastLogin := u_lastLogin this;
     pp_lastDeviceInfo := u_lastDeviceInfo this; pp_createdAt := u_createdAt this |}.

Record DeviceSummary := {
  ds_deviceId : string;
  ds_isNewDevice : bool;
  ds_totalDevices : nat
}.

Record PreviousDevice := {
  pd_browser : string;
  pd_os : string;
  pd_deviceType : string;
  pd_deviceId : string;
  pd_lastSeen : Z
}.

Record DeviceLogout := {
  dl_wasLoggedOut : bool;
  dl_previousDevice : PreviousDevice;
  dl_message : string
}.

Record LoginResponse := {
  lr_success : bool;
  lr_message : string;
  lr_accessToken : string;
  lr_refreshToken : string;
  lr_user : PublicProfile;
  lr_deviceInfo : DeviceSummary;
  lr_deviceLogout : option DeviceLogout
}.

Inductive LoginOutcome :=
| LoginJson (response : LoginResponse)
| LoginThrows (e : AppError).

(** The [safeRedisOp] calls of the login handler, in source order; the
    handler is given the client status observed at each of them. *)
Inductive LoginSite :=
| AtIsAccountLocked
| AtIncrementFailedAttempts
| AtLockAccount
| AtClearFailedAttempts
| AtDeleteAllUserSessions
| AtDeleteAllUserRefreshTokens
| AtCreateSession
| AtStoreRefreshToken.

(** [s || d] on strings. *)
Definition or_default (s : option string) (d : string) : string :=
  match s with
  | Some v => if String.eqb v "" then d else v
  | None => d
  end.

Definition buildDeviceInfo (P : Platform) (req : LoginRequest) : DeviceInfo :=
  let result := ua_parse P (req_userAgent req) in
  {| di_browser := {| nv_name := or_default (ua_browser_name result) "Unknown";
                      nv_version := or_default (ua_browser_version result) "Unknown" |};
     di_os := {| nv_name := or_default (ua_os_name result) "Unknown";
                 nv_version := or_default (ua_os_version result) "Unknown" |};
     di_device := {| dd_model := or_default (ua_device_model result) "Unknown";
                     dd_type := or_default (ua_device_type result) "desktop";
                     dd_vendor := or_default (ua_device_vendor result) "Unknown" |};
     di_ip := req_ip req;
     di_userAgent := req_userAgent req;
     di_deviceToken := or_string (req_deviceToken req) None |}.

Section Handlers.
Variable P : Platform.
Variable env : Env.

Definition with_store (w : World) (s : db) : World :=
  {| store := s; users := users w |}.

(** POST /login for a body that passed [validators.login].  [now] is the
    instant of the request, [randomUUID] the value [crypto.randomUUID()]
    returns, [status] the client status at each store call. *)
Definition login (status : LoginSite → bool) (now : Z) (randomUUID : string)
    (req : LoginRequest) (w : World) : LoginOutcome * World :=
  let email := req_email req in
  let password := req_password req in
  let identifier := email +:+ ":" +:+ req_ip req in
  let '(isLocked, s1) :=
    failedAttemptsService.isAccountLocked (status AtIsAccountLocked) now identifier (store w) in
  if isLocked then
    (LoginThrows (TooManyRequestsError
       "Account temporarily locked due to multiple failed attempts. Please try again later."),
     with_store w s1)
  else
  match UserModel.findByEmail P email (users w) with
  | None =>
      let '(_, s2) :=
        failedAttemptsService.incrementFailedAttempts env
          (status AtIncrementFailedAttempts) now identifier s1 in
      (LoginThrows (AuthenticationError "Invalid credentials"), with_store w s2)
  | Some user =>
  let isPasswordValid := UserModel.comparePassword P user password in
  if negb isPasswordValid then
    let '(attempts, s2) :=
      failedAttemptsService.incrementFailedAttempts env
        (status AtIncrementFailedAttempts) now identifier s1 in
    if 5 <=? attempts then
      let '(_, s3) :=
        failedAttemptsService.lockAccount env (status AtLockAccount) now identifier s2 in
      (LoginThrows (TooManyRequestsError
         "Account locked due to multiple failed attempts. Please try again in 15 minutes."),
       with_store w s3)
    else
      (LoginThrows (AuthenticationError
         ("Invalid credentials. " +:+ pretty (5 - attempts) +:+ " attempts remaining.")),
       with_store w s2)
  else
  if negb (u_isActive user) then
    (LoginThrows (AuthenticationError "Account is deactivated. Please contact support."),
     with_store w s1)
  else
  let '(_, s2) :=
    failedAttemptsService.clearFailedAttempts (status AtClearFailedAttempts) identifier s1 in
  let deviceInfo := buildDeviceInfo P req in
  let currentDeviceId := UserModel.generateDeviceId P deviceInfo in
  let existingDevice :=
    find (fun d => String.eqb (deviceId d) currentDeviceId) (devices user) in
  let isNewDevice := negb (bool_decide (is_Some existingDevice)) in
  let activeDevices :=
    js_sort byLastSeenDesc
      (filter (fun d => isActive d && negb (String.eqb (deviceId d) currentDeviceId) = true)
              (devices user)) in
  let previousDeviceInfo := head activeDevices in
  let '(_, s3) :=
    sessionService.deleteAllUserSessions (status AtDeleteAllUserSessions) now (u_id user) s2 in
  let '(_, s4) :=
    sessionService.deleteAllUserRefreshTokens
      (status AtDeleteAllUserRefreshTokens) now (u_id user) s3 in
  let user1 :=
    set_devices user
      (map (fun d => if negb (String.eqb (deviceId d) currentDeviceId)
                     then set_isActive d false else d)
           (devices user)) in
  let sessionId := randomUUID in
  let '(_, s5) :=
    sessionService.createSession env (status AtCreateSession) now (u_id user1) sessionId
      {| ud_email := u_email user1; ud_firstName := u_firstName user1;
         ud_lastName := u_lastName user1 |} s4 in
  let tokens := generateTokens P now (u_id user1) sessionId (u_email user1) in
  let '(_, s6) :=
    sessionService.storeRefreshToken env (status AtStoreRefreshToken) now
      (refreshToken tokens) (u_id user1) sessionId s5 in
  let user2 := set_lastLogin user1 now in
  let '(updatedDeviceId, user3) := UserModel.updateDeviceInfo P now deviceInfo user2 in
  let users' := UserModel.save user3 (users w) in
  let response :=
    {| lr_success := true;
       lr_message := "Login successful";
       lr_accessToken := accessToken tokens;
       lr_refreshToken := refreshToken tokens;
       lr_user := getPublicProfile user3;
       lr_deviceInfo :=
         {| ds_deviceId := updatedDeviceId; ds_isNewDevice := isNewDevice;
            ds_totalDevices := length (devices user3) |};
       lr_deviceLogout :=
         match previousDeviceInfo with
         | Some prev =>
             Some {| dl_wasLoggedOut := true;
                     dl_previousDevice :=
                       {| pd_browser := or_default (Some (nv_name (browser prev))) "Unknown Browser";
                          pd_os := or_default (Some (nv_name (os prev))) "Unknown OS";
                          pd_deviceType := or_default (Some (dd_type (device prev))) "desktop";
                          pd_deviceId := deviceId prev;
                          pd_lastSeen := lastSeen prev |};
                     dl_message :=
                       "You have been automatically logged out from your previous device/browser." |}
         | None => None
         end |} in
  (LoginJson response, {| store := s6; users := users' |})
  end.

(** POST /logout, after [authenticateToken] has set [req.user]. *)
Definition logout (ready : bool) (now : Z) (sessionId userId : string)
    (w : World) : World :=
  let '(_, s1) := sessionService.deleteSession ready now sessionId (store w) in
  let '(_, s2) := sessionService.deleteAllUserRefreshTokens ready now userId s1 in
  with_store w s2.

Inductive RefreshSite :=
| AtGetRefreshToken
| AtGetSession
| AtDeleteRefreshToken
| AtRefreshSession.

Inductive RefreshOutcome :=
| RefreshJson (message : string) (accessToken : string)
| RefreshStatus (code : Z) (message : string).

(** POST /refresh-token with a non-empty [refreshToken] in the body. *)
Definition refresh_token (status : RefreshSite → bool) (now : Z)
    (refreshToken : string) (w : World) : RefreshOutcome * World :=
  match jwt_verify_refresh P now refreshToken with
  | None => (RefreshStatus 401 "Invalid or expired refresh token", w)
  | Some decoded =>
  let '(tokenData, s1) :=
    sessionService.getRefreshToken (status AtGetRefreshToken) now refreshToken (store w) in
  match tokenData with
  | None => (RefreshStatus 401 "Refresh token not found or expired", with_store w s1)
  | Some _ =>
  let '(sessionData, s2) :=
    sessionService.getSession (status AtGetSession) now (dec_sessionId decoded) s1 in
  match sessionData with
  | None =>
      let '(_, s3) :=
        sessionService.deleteRefreshToken (status AtDeleteRefreshToken) now refreshToken s2 in
      (RefreshStatus 401 "Session expired", with_store w s3)
  | Some _ =>
  let user := UserModel.findById (dec_userId decoded) (users w) in
  let gone :=
    let '(_, s3) :=
      sessionService.deleteRefreshToken (status AtDeleteRefreshToken) now refreshToken s2 in
    (RefreshStatus 401 "User not found or inactive", with_store w s3) in
  match user with
  | None => gone
  | Some user =>
      if negb (u_isActive user) then gone
      else
        let tokens :=
          generateTokens P now (u_id user) (dec_sessionId decoded) (u_email user) in
        let '(_, s3) :=
          sessionService.refreshSession env (status AtRefreshSession) now
            (dec_sessionId decoded) false s2 in
        (RefreshJson "Token refreshed successfully" (accessToken tokens), with_store w s3)
  end
  end
  end
  end.

End Handlers.

(** GET /session-status.  The handler calls a property of the
    [sessionService] object; the object literal of src/config/redis.js
    defines the properties listed here.  Calling a property that is not
    defined raises a TypeError, which the handler's [catch] turns into a
    500 answer. *)
Definition sessionService_keys : list string :=
  [ "createSession"; "getSession"; "deleteSession"; "storeRefreshToken";
    "getRefreshToken"; "deleteRefreshToken"; "deleteAllUserSessions";
    "refreshSession"; "deleteAllUserRefreshTokens" ].

Inductive MethodCall := Call (method : string) (argument : string).

Inductive StatusOutcome :=
| StatusJson (timeLeft : MethodCall) (sessionId : string)
| StatusError (code : Z) (message : string).

Definition session_status (sessionId : string) : StatusOutcome :=
  if bool_decide ("getSessionTimeLeft" ∈ sessionService_keys) then
    StatusJson (Call "getSessionTimeLeft" sessionId) sessionId
  else
    StatusError 500 "Failed to get session status".

(** ** A concrete platform for the examples *)

Definition examplePlatform : Platform :=
  {| md5_hex := fun s => "md5:" +:+ s;
     toLowerCase := fun s => s;
     bcrypt_compare := fun candidate hash => String.eqb ("bcrypt:" +:+ candidate) hash;
     ua_parse := fun ua =>
       {| ua_browser_name := ua; ua_browser_version := None;
          ua_os_name := None; ua_os_version := None;
          ua_device_model := None; ua_device_type := None;
          ua_device_vendor := None |};
     jwt_sign_access := fun now userId sessionId email =>
       "access." +:+ userId +:+ "." +:+ sessionId;
     jwt_sign_refresh := fun now userId sessionId =>
       "refresh." +:+ userId +:+ "." +:+ sessionId;
     jwt_verify_refresh := fun now token =>
       if String.eqb token "refresh.u1.s1"
       then Some {| dec_userId := "u1"; dec_sessionId := "s1" |}
       else None |}.

Definition exampleDevice (id : string) (seen : Z) (active : bool) : Device :=
  {| deviceId := id;
     browser := {| nv_name := "Chrome"; nv_version := "126" |};
     os := {| nv_name := "Linux"; nv_version := "6" |};
     device := {| dd_model := "Unknown"; dd_type := "desktop"; dd_vendor := "Unknown" |};
     ip := "10.0.0.1"; userAgent := None; deviceToken := None;
     firstSeen := seen; lastSeen := seen; loginCount := 1; isActive := active |}.

Definition exampleUser (ds : list Device) : User :=
  {| u_id := "u1"; u_email := "a@example.com"; u_password := "bcrypt:secret";
     u_firstName := "Ada"; u_lastName := "Byron"; u_isActive := true;
     u_isVerified := true; u_lastLogin := None; u_lastDeviceInfo := None;
     devices := ds; u_createdAt := 0 |}.

(** ** Statements taken from the specification, to be compared with the code *)

(** Two calls of [deactivateDevice] in a row on the same device id: the
    first answers [true], the second [false], and the second leaves the
    device list as it was. *)
Definition deactivate_twice_spec (u : User) (id : string) : Prop :=
  let '(r1, u1) := UserModel.deactivateDevice id u in
  let '(r2, u2) := UserModel.deactivateDevice id u1 in
  r1 = true ∧ r2 = false ∧ devices u2 = devices u1.

Definition exampleInfo (browserName : string) : DeviceInfo :=
  {| di_browser := {| nv_name := browserName; nv_version := "1.0" |};
     di_os := {| nv_name := "Linux"; nv_version := "6" |};
     di_device := {| dd_model := "Unknown"; dd_type := "desktop"; dd_vendor := "Unknown" |};
     di_ip := "10.0.0.9"; di_userAgent := None; di_deviceToken := None |}.

(** Ten devices, last seen at instants 1 to 10. *)
Definition tenDevices : list Device :=
  map (fun n => exampleDevice ("dev-" +:+ pretty n) n true)
      [1; 2; 3; 4; 5; 6; 7; 8; 9; 10].

(** A store that holds the refresh token of session s1 of user u1, but no
    record of that session. *)
Definition orphanTokenStore : db :=
  <[ "refresh_token:refresh.u1.s1" :=
     {| val := VToken {| td_userId := "u1"; td_sessionId := "s1"; td_createdAt := 0 |};
        expiry := Some 604800000 |} ]>
    (<[ "user_refresh_tokens:u1" :=
        {| val := VSet {[ "refresh.u1.s1" ]}; expiry := Some 604800000 |} ]> ∅).


(** ** Session records and the active-session pointer *)

(** Two stores hold the same session records and the same pointers. *)
Definition same_sessions (s s' : db) : Prop :=
  ∀ x, s' !! ("session:" +:+ x) = s !! ("session:" +:+ x)
       ∧ s' !! ("active_session:" +:+ x) = s !! ("active_session:" +:+ x).

(** Every session record in the store is the one its user's pointer names. *)
Definition single_session (s : db) : Prop :=
  ∀ sid e d,
    s !! ("session:" +:+ sid) = Some e → val e = VSession d →
    sid ≠ ""
    ∧ s !! ("active_session:" +:+ sd_userId d)
      = Some {| val := VStr sid; expiry := None |}.

Definition no_session_of (userId : string) (s : db) : Prop :=
  ∀ sid e d,
    s !! ("session:" +:+ sid) = Some e → val e = VSession d → sd_userId d ≠ userId.

(** Client statuses of a login under which it has evicted the previous
    session whenever it creates one: the store is reached at the eviction
    step if it is reached at the creation step. *)
Definition evicts (status : LoginSite → bool) : Prop :=
  status AtCreateSession = true → status AtDeleteAllUserSessions = true.

Definition any_status (status : LoginSite → bool) : Prop := True.

(** The worlds that logins and logouts lead to from an empty store,
    whatever the requests and the instants are.  A session id is never the
    empty string; [ok] says which client statuses the logins may find,
    [any_status] for all of them. *)
Inductive step (P : Platform) (env : Env) (ok : (LoginSite → bool) → Prop)
  : World → World → Prop :=
| step_login status now randomUUID req w :
    randomUUID ≠ "" →
    ok status →
    step P env ok w (snd (login P env status now randomUUID req w))
| step_logout ready now sessionId userId w :
    step P env ok w (logout ready now sessionId userId w).

Inductive reachable (P : Platform) (env : Env) (ok : (LoginSite → bool) → Prop)
  : World → Prop :=
| reachable_init us : reachable P env ok {| store := ∅; users := us |}
| reachable_step w w' :
    reachable P env ok w → step P env ok w w' → reachable P env ok w'.

(** The invariant as the specification states it, for two logins in a row:
    when both succeed for the same user, the pointer of the user holds the
    second session id and [getSession] on the first session id answers
    null. *)
Definition second_login_evicts_first (P : Platform) (env : Env)
    (st1 st2 : LoginSite → bool) (now1 now2 : Z) (sid1 sid2 : string)
    (req1 req2 : LoginRequest) (w0 : World) : Prop :=
  let o1 := login P env st1 now1 sid1 req1 w0 in
  let o2 := login P env st2 now2 sid2 req2 (snd o1) in
  ∀ r1 r2,
    fst o1 = LoginJson r1 → fst o2 = LoginJson r2 →
    pp_id (lr_user r1) = pp_id (lr_user r2) →
    store (snd o2) !! ("active_session:" +:+ pp_id (lr_user r2))
    = Some {| val := VStr sid2; expiry := None |}
    ∧ fst (sessionService.getSession true now2 sid1 (store (snd o2))) = None.

(** ** Example requests and worlds *)

Definition exampleRequest (password : string) (ua : string) : LoginRequest :=
  {| req_email := "a@example.com"; req_password := password;
     req_deviceToken := None; req_ip := "1.2.3.4"; req_userAgent := Some ua |}.

Definition ghostRequest : LoginRequest :=
  {| req_email := "ghost@example.com"; req_password := "whatever";
     req_deviceToken := None; req_ip := "1.2.3.4"; req_userAgent := Some "Chrome" |}.

(** One registered user, a@example.com with password "secret", and an empty
    store. *)
Definition freshWorld : World :=
  {| store := ∅; users := [exampleUser []] |}.

Definition alwaysReady {A} : A → bool := fun _ => true.

(** The store is unreachable when the session is created and when the
    refresh token is stored, and reachable before. *)
Definition downAtIssue (site : LoginSite) : bool :=
  match site with
  | AtCreateSession | AtStoreRefreshToken => false
  | _ => true
  end.

(** [n] login attempts in a row with the same request, one second apart;
    the outcomes come oldest first. *)
Fixpoint attempts (P : Platform) (env : Env) (n : nat) (now : Z)
    (req : LoginRequest) (w : World) : list LoginOutcome * World :=
  match n with
  | O => ([], w)
  | S m =>
      let '(out, w1) := login P env alwaysReady now "sid" req w in
      let '(outs, w2) := attempts P env m (now + 1000) req w1 in
      (out :: outs, w2)
  end.

(** The specification's wording for a login whose credentials verify while
    the store is unreachable at the issuance step: the login fails. *)
Definition login_aborts_when_issue_fails (P : Platform) (env : Env)
    (status : LoginSite → bool) (now : Z) (randomUUID : string)
    (req : LoginRequest) (w : World) : Prop :=
  ∀ user,
    UserModel.findByEmail P (req_email req) (users w) = Some user →
    UserModel.comparePassword P user (req_password req) = true →
    status AtCreateSession = false ∨ status AtStoreRefreshToken = false →
    ∃ e, fst (login P env status now randomUUID req w) = LoginThrows e.

(** The same store and request seen by a collection without the user. *)
Definition emptyWorld : World := {| store := ∅; users := [] |}.

(** The store is unreachable when the previous session is evicted, and
    reachable at every other step. *)
Definition downAtEviction (site : LoginSite) : bool :=
  match site with
  | AtDeleteAllUserSessions => false
  | _ => true
  end.

(** ** The auth middleware and the routes behind it *)

Record AccessPayload := {
  ap_userId : string;
  ap_sessionId : string;
  ap_email : string
}.

(** [jwt.verify(token, JWT_SECRET)]: the payload, or the [name] of the
    error it throws. *)
Inductive VerifyAccess :=
| AccessVerified (decoded : AccessPayload)
| AccessThrows (name : string).

(** [req.user] *)
Record ReqUser := {
  ru_userId : string;
  ru_sessionId : string;
  ru_email : string
}.

Inductive AuthOutcome :=
| AuthNext (user : ReqUser)
| AuthStatus (code : Z) (message : string).

Inductive AuthSite :=
| AtAuthGetSession
| AtAuthRefreshSession.

(** [String.prototype.split(' ')] *)
Fixpoint split_space (s : string) : list string :=
  match s with
  | EmptyString => [ EmptyString ]
  | String c rest =>
      if Ascii.eqb c (Ascii.ascii_of_nat 32) then EmptyString :: split_space rest
      else
        match split_space rest with
        | h :: t => String c h :: t
        | [] => [ String c EmptyString ]
        end
  end.

(** [authHeader && authHeader.split(' ')[1]], with the falsy results
    (undefined, the empty string) mapped to [None]. *)
Definition bearerToken (authorization : option string) : option string :=
  match authorization with
  | None => None
  | Some authHeader =>
      if String.eqb authHeader "" then None
      else
        match split_space authHeader !! 1%nat with
        | Some token => if String.eqb token "" then None else Some token
        | None => None
        end
  end.

(** What GET /devices answers with. *)
Inductive DevicesOutcome :=
| DevicesJson (devices : list Device) (totalDevices : nat)
| DevicesStatus (code : Z) (message : string).

Section Middleware.
Variable env : Env.
Variable jwt_verify_access : Z → string → VerifyAccess.

Definition authenticateToken (status : AuthSite → bool) (now : Z)
    (authorization : option string) (s : db) : AuthOutcome * db :=
  match bearerToken authorization with
  | None => (AuthStatus 401 "Access token required", s)
  | Some token =>
  match jwt_verify_access now token with
  | AccessThrows name =>
      if String.eqb name "TokenExpiredError" then (AuthStatus 401 "Token expired", s)
      else if String.eqb name "JsonWebTokenError" then (AuthStatus 401 "Invalid token", s)
      else (AuthStatus 500 "Authentication error", s)
  | AccessVerified decoded =>
  let '(sessionData, s1) :=
    sessionService.getSession (status AtAuthGetSession) now (ap_sessionId decoded) s in
  match sessionData with
  | None => (AuthStatus 401 "Invalid or expired session", s1)
  | Some sessionData =>
  if negb (String.eqb (sd_userId sessionData) (ap_userId decoded)) then
    (AuthStatus 401 "Session mismatch", s1)
  else
    let '(_, s2) :=
      sessionService.refreshSession env (status AtAuthRefreshSession) now
        (ap_sessionId decoded) false s1 in
    (AuthNext {| ru_userId := ap_userId decoded;
                 ru_sessionId := ap_sessionId decoded;
                 ru_email := if String.eqb (sd_email sessionData) ""
                             then ap_email decoded else sd_email sessionData |},
     s2)
  end
  end
  end.

(** The answer of a route: status code and message. *)
Definition Answer : Type := Z * string.

(** POST /extend-session, behind [authenticateToken]. *)
Definition extend_session (status : AuthSite → bool) (ready : bool) (now : Z)
    (authorization : option string) (s : db) : Answer * db :=
  match authenticateToken status now authorization s with
  | (AuthStatus code message, s1) => ((code, message), s1)
  | (AuthNext user, s1) =>
      let '(extended, s2) :=
        sessionService.refreshSession env ready now (ru_sessionId user) false s1 in
      if extended then ((200, "Session extended successfully"), s2)
      else ((400, "Failed to extend session"), s2)
  end.

(** POST /logout, behind [authenticateToken]. *)
Definition logout_route (status : AuthSite → bool) (ready : bool) (now : Z)
    (authorization : option string) (w : World) : Answer * World :=
  match authenticateToken status now authorization (store w) with
  | (AuthStatus code message, s1) =>
      ((code, message), {| store := s1; users := users w |})
  | (AuthNext user, s1) =>
      ((200, "Logged out successfully"),
       logout ready now (ru_sessionId user) (ru_userId user)
         {| store := s1; users := users w |})
  end.

(** GET /devices, behind [authenticateToken]: the status the middleware
    answered with, or 404, or the device history and its length.  The
    handler sorts the list of the loaded document and does not save it. *)
Definition devices_route (status : AuthSite → bool) (now : Z)
    (authorization : option string) (w : World) : DevicesOutcome * World :=
  match authenticateToken status now authorization (store w) with
  | (AuthStatus code message, s1) =>
      (DevicesStatus code message, {| store := s1; users := users w |})
  | (AuthNext reqUser, s1) =>
      match UserModel.findById (ru_userId reqUser) (users w) with
      | None => (DevicesStatus 404 "User not found", {| store := s1; users := users w |})
      | Some user =>
          let '(deviceHistory, _) := UserModel.getDeviceHistory user in
          (DevicesJson deviceHistory (length deviceHistory),
           {| store := s1; users := users w |})
      end
  end.

(** POST /devices/:deviceId/deactivate, behind [authenticateToken]. *)
Definition deactivate_route (status : AuthSite → bool) (now : Z)
    (authorization : option string) (devId : string) (w : World) : Answer * World :=
  match authenticateToken status now authorization (store w) with
  | (AuthStatus code message, s1) =>
      ((code, message), {| store := s1; users := users w |})
  | (AuthNext reqUser, s1) =>
      match UserModel.findById (ru_userId reqUser) (users w) with
      | None => ((404, "User not found"), {| store := s1; users := users w |})
      | Some user =>
          let '(deactivated, user') := UserModel.deactivateDevice devId user in
          if negb deactivated then
            ((404, "Device not found"), {| store := s1; users := users w |})
          else
            ((200, "Device deactivated successfully"),
             {| store := s1; users := UserModel.save user' (users w) |})
      end
  end.

End Middleware.

(** An access-token verifier for the examples: the tokens of
    [examplePlatform] for user u1 verify, "expired" has expired, anything
    else is malformed. *)
Definition exampleVerify (now : Z) (token : string) : VerifyAccess :=
  if String.eqb token "access.u1.sid-1" then
    AccessVerified {| ap_userId := "u1"; ap_sessionId := "sid-1";
                      ap_email := "a@example.com" |}
  else if String.eqb token "access.u1.sid-2" then
    AccessVerified {| ap_userId := "u1"; ap_sessionId := "sid-2";
                      ap_email := "a@example.com" |}
  else if String.eqb token "expired" then AccessThrows "TokenExpiredError"
  else AccessThrows "JsonWebTokenError".

(** The world after user u1 has logged in with session id sid-1 at instant
    1000. *)
Definition loggedInWorld : World :=
  snd (login examplePlatform defaultEnv alwaysReady 1000 "sid-1"
         (exampleRequest "secret" "Chrome") freshWorld).

Definition authDown (site : AuthSite) : bool := false.

(** A store with the session sid-1 of user u1, live until 301000, and a
    refresh marker written at 50000. *)
Definition markedStore : db :=
  <[ "session:sid-1" :=
     {| val := VSession {| sd_userId := "u1"; sd_sessionId := "sid-1"; sd_createdAt := 1000;
                           sd_email := "a@example.com"; sd_firstName := "Ada";
                           sd_lastName := "Byron" |};
        expiry := Some 301000 |} ]>
    (<[ "session_refresh:sid-1" := {| val := VNum 50000; expiry := Some 80000 |} ]> ∅).


(** The registered user of [freshWorld], deactivated. *)
Definition inactiveWorld : World :=
  {| store := ∅;
     users := [ {| u_id := "u1"; u_email := "a@example.com"; u_password := "bcrypt:secret";
                   u_firstName := "Ada"; u_lastName := "Byron"; u_isActive := false;
                   u_isVerified := true; u_lastLogin := None; u_lastDeviceInfo := None;
                   devices := []; u_createdAt := 0 |} ] |}.

(** Four wrong passwords for a@example.com from 1.2.3.4, at instants 1000
    to 4000. *)
Definition fourFailuresWorld : World :=
  snd (attempts examplePlatform defaultEnv 4 1000 (exampleRequest "wrong" "Chrome") freshWorld).

(** No space in the string. *)
Fixpoint no_space (s : string) : bool :=
  match s with
  | EmptyString => true
  | String c rest => negb (Ascii.eqb c (Ascii.ascii_of_nat 32)) && no_space rest
  end.

(** ** Refresh-token records and the per-user token sets *)

(** Two stores hold the same token records and the same token sets. *)
Definition same_tokens (s s' : db) : Prop :=
  ∀ x, s' !! ("refresh_token:" +:+ x) = s !! ("refresh_token:" +:+ x)
       ∧ s' !! ("user_refresh_tokens:" +:+ x) = s !! ("user_refresh_tokens:" +:+ x).

(** At instant [now]: every token-set key holds a set; no token record
    outlives [now] plus the refresh-token lifetime; and every token record
    is, for as long as it is live, a member of the live token set of the
    user it names. *)
Definition tokens_indexed (env : Env) (now : Z) (s : db) : Prop :=
  (∀ u e, s !! ("user_refresh_tokens:" +:+ u) = Some e → ∃ ms, val e = VSet ms)
  ∧ (∀ t e td, s !! ("refresh_token:" +:+ t) = Some e → val e = VToken td →
       ∃ x, expiry e = Some x
            ∧ x ≤ now + Redis.seconds (sessionService.refreshExpire env))
  ∧ (∀ t e td now', now ≤ now' →
       s !! ("refresh_token:" +:+ t) = Some e → val e = VToken td →
       live now' e = true →
       ∃ es ms, lookup_live now' ("user_refresh_tokens:" +:+ td_userId td) s = Some es
                ∧ val es = VSet ms ∧ t ∈ ms).

(** The requests that write the store, each at an instant no earlier than
    the one before, whatever the client status is at each store call:
    logins, logouts, refresh-token exchanges, the session refresh of
    [authenticateToken] and of /extend-session, the session eviction of
    /change-password and /reset-password, and any change of the user
    collection. *)
Inductive timed_step (P : Platform) (env : Env) : Z → World → Z → World → Prop :=
| timed_login now now1 status randomUUID req w :
    now ≤ now1 →
    timed_step P env now w now1 (snd (login P env status now1 randomUUID req w))
| timed_logout now now1 ready sessionId userId w :
    now ≤ now1 →
    timed_step P env now w now1 (logout ready now1 sessionId userId w)
| timed_refresh now now1 status token w :
    now ≤ now1 →
    timed_step P env now w now1 (snd (refresh_token P env status now1 token w))
| timed_touch now now1 ready sessionId force w :
    now ≤ now1 →
    timed_step P env now w now1
      (with_store w (snd (sessionService.refreshSession env ready now1 sessionId force
                            (store w))))
| timed_evict now now1 ready userId w :
    now ≤ now1 →
    timed_step P env now w now1
      (with_store w (snd (sessionService.deleteAllUserSessions ready now1 userId (store w))))
| timed_users now now1 us w :
    now ≤ now1 →
    timed_step P env now w now1 {| store := store w; users := us |}.

Inductive timed_reachable (P : Platform) (env : Env) : Z → World → Prop :=
| timed_init now us : timed_reachable P env now {| store := ∅; users := us |}
| timed_next now w now1 w1 :
    timed_reachable P env now w → timed_step P env now w now1 w1 →
    timed_reachable P env now1 w1.

(** Two registered users, a@example.com (u1) and b@example.com (u2), after
    u1 has logged in at instant 1000 with session id sid-1 and u2 at
    instant 2000 with session id sid-2. *)
Definition twoUsersWorld : World :=
  snd (login examplePlatform defaultEnv alwaysReady 2000 "sid-2"
         {| req_email := "b@example.com"; req_password := "hunter2";
            req_deviceToken := None; req_ip := "5.6.7.8"; req_userAgent := Some "Firefox" |}
         (snd (login examplePlatform defaultEnv alwaysReady 1000 "sid-1"
                 (exampleRequest "secret" "Chrome")
                 {| store := ∅;
                    users := [ exampleUser [];
                               {| u_id := "u2"; u_email := "b@example.com";
                                  u_password := "bcrypt:hunter2";
                                  u_firstName := "Bob"; u_lastName := "Hope";
                                  u_isActive := true; u_isVerified := true;
                                  u_lastLogin := None; u_lastDeviceInfo := None;
                                  devices := []; u_createdAt := 0 |} ] |}))).

(** The four lifetimes of the configuration are positive, as the defaults
    are.  SETEX refuses a lifetime that is not positive, so that the call
    falls back, and EXPIRE deletes the key. *)
Definition lifetimes_positive (env : Env) : Prop :=
  0 < sessionService.sessionTimeout env
  ∧ 0 < sessionService.throttleWindow env
  ∧ 0 < sessionService.refreshExpire env
  ∧ 0 < failedAttemptsService.lockoutTime env.



(** * Properties *)

(** ** Keys built from distinct prefixes never meet *)

Ltac key_discr :=
  let H := fresh in
  intros H; discriminate H.

Lemma session_key_inj a b : "session:" +:+ a = "session:" +:+ b → a = b.
Proof. intros H. injection H as H. exact H. Qed.

Lemma active_key_inj a b : "active_session:" +:+ a = "active_session:" +:+ b → a = b.
Proof. intros H. injection H as H. exact H. Qed.

Lemma token_key_inj a b : "refresh_token:" +:+ a = "refresh_token:" +:+ b → a = b.
Proof. intros H. injection H as H. exact H. Qed.

Lemma session_ne_active a b : "session:" +:+ a ≠ "active_session:" +:+ b.
Proof. key_discr. Qed.

Lemma session_ne_token a b : "session:" +:+ a ≠ "refresh_token:" +:+ b.
Proof. key_discr. Qed.

Lemma session_ne_tokens a b : "session:" +:+ a ≠ "user_refresh_tokens:" +:+ b.
Proof. key_discr. Qed.

Lemma session_ne_mark a b : "session:" +:+ a ≠ "session_refresh:" +:+ b.
Proof. key_discr. Qed.

Lemma session_ne_failed a b : "session:" +:+ a ≠ "failed_attempts:" +:+ b.
Proof. key_discr. Qed.

Lemma session_ne_lock a b : "session:" +:+ a ≠ "account_lock:" +:+ b.
Proof. key_discr. Qed.

Lemma active_ne_token a b : "active_session:" +:+ a ≠ "refresh_token:" +:+ b.
Proof. key_discr. Qed.

Lemma active_ne_tokens a b : "active_session:" +:+ a ≠ "user_refresh_tokens:" +:+ b.
Proof. key_discr. Qed.

Lemma active_ne_failed a b : "active_session:" +:+ a ≠ "failed_attempts:" +:+ b.
Proof. key_discr. Qed.

Lemma active_ne_lock a b : "active_session:" +:+ a ≠ "account_lock:" +:+ b.
Proof. key_discr. Qed.

Lemma token_ne_tokens a b : "refresh_token:" +:+ a ≠ "user_refresh_tokens:" +:+ b.
Proof. key_discr. Qed.

Lemma failed_ne_lock a b : "failed_attempts:" +:+ a ≠ "account_lock:" +:+ b.
Proof. key_discr. Qed.

(** ** Lists: findIndex *)

Lemma findIndex_Some {A} (p : A → bool) (l : list A) (i : nat) :
  findIndex p l = Some i → ∃ x, l !! i = Some x ∧ p x = true.
Proof.
  revert i. induction l as [|y t IH]; intros i; simpl; [discriminate|].
  destruct (p y) eqn:Hy.
  - intros [= <-]. exists y. by split.
  - destruct (findIndex p t) as [j|]; simpl; [|discriminate].
    intros [= <-]. destruct (IH j eq_refl) as (x & Hx & Hp). by exists x.
Qed.

Lemma findIndex_None {A} (p : A → bool) (l : list A) :
  findIndex p l = None → Forall (fun x => p x = false) l.
Proof.
  induction l as [|y t IH]; simpl; [constructor|].
  destruct (p y) eqn:Hy; [discriminate|].
  destruct (findIndex p t); simpl; [discriminate|].
  intros _. constructor; auto.
Qed.

Lemma findIndex_exists {A} (p : A → bool) (l : list A) (x : A) :
  x ∈ l → p x = true → is_Some (findIndex p l).
Proof.
  intros Hin Hp. destruct (findIndex p l) eqn:E; [eauto|].
  apply findIndex_None in E. rewrite Forall_forall in E.
  rewrite (E x) in Hp; [discriminate|done].
Qed.

(** Overwriting the element found with one that still satisfies the test
    leaves the index found unchanged. *)
Lemma findIndex_insert {A} (p : A → bool) (l : list A) (i : nat) (x : A) :
  findIndex p l = Some i → p x = true → findIndex p (<[ i := x ]> l) = Some i.
Proof.
  revert i. induction l as [|y t IH]; intros i; simpl; [discriminate|].
  destruct (p y) eqn:Hy.
  - intros [= <-] Hp. simpl. by rewrite Hp.
  - destruct (findIndex p t) as [j|] eqn:E; simpl; [|discriminate].
    intros [= <-] Hp. simpl. rewrite Hy. by rewrite (IH j eq_refl Hp).
Qed.

(** ** Device fingerprint *)

(** C8.  The device id is a function of the browser name, the OS name, the
    device type and the device vendor alone: two [deviceInfo] objects that
    agree on these four fields get the same id from [generateDeviceId],
    whatever their versions, IP address, user agent, model and push token
    are, and [updateDeviceInfo] returns that same id for any user and at
    any instant.  The function reads nothing but its argument, so a
    repeated call returns the same id. *)
Theorem generateDeviceId_coarse (P : Platform) (d1 d2 : DeviceInfo) :
  nv_name (di_browser d1) = nv_name (di_browser d2) →
  nv_name (di_os d1) = nv_name (di_os d2) →
  dd_type (di_device d1) = dd_type (di_device d2) →
  dd_vendor (di_device d1) = dd_vendor (di_device d2) →
  UserModel.generateDeviceId P d1 = UserModel.generateDeviceId P d2
  ∧ ∀ now1 now2 (u1 u2 : User),
      fst (UserModel.updateDeviceInfo P now1 d1 u1)
      = fst (UserModel.updateDeviceInfo P now2 d2 u2).
Proof.
  intros Hb Ho Ht Hv.
  assert (UserModel.generateDeviceId P d1 = UserModel.generateDeviceId P d2) as E.
  { unfold UserModel.generateDeviceId. by rewrite Hb, Ho, Ht, Hv. }
  split; [exact E|].
  intros now1 now2 u1 u2. unfold UserModel.updateDeviceInfo. simpl. exact E.
Qed.

Lemma generateDeviceId_coarse_witness :
  let d1 :=
    {| di_browser := {| nv_name := "Chrome"; nv_version := "125.0" |};
       di_os := {| nv_name := "Windows"; nv_version := "10" |};
       di_device := {| dd_model := "Unknown"; dd_type := "desktop"; dd_vendor := "Dell" |};
       di_ip := "1.2.3.4"; di_userAgent := Some "UA one"; di_deviceToken := None |} in
  let d2 :=
    {| di_browser := {| nv_name := "Chrome"; nv_version := "126.1" |};
       di_os := {| nv_name := "Windows"; nv_version := "11" |};
       di_device := {| dd_model := "XPS"; dd_type := "desktop"; dd_vendor := "Dell" |};
       di_ip := "5.6.7.8"; di_userAgent := Some "UA two"; di_deviceToken := Some "push" |} in
  d1 ≠ d2
  ∧ UserModel.generateDeviceId examplePlatform d1
    = UserModel.generateDeviceId examplePlatform d2.
Proof.
  intros d1 d2. split; [discriminate|].
  apply (generateDeviceId_coarse examplePlatform d1 d2); reflexivity.
Defined.

(** ** Deactivating a device *)

Lemma set_isActive_false_idem (d : Device) :
  set_isActive (set_isActive d false) false = set_isActive d false.
Proof. reflexivity. Qed.

Lemma deviceId_set_isActive (d : Device) (b : bool) :
  deviceId (set_isActive d b) = deviceId d.
Proof. reflexivity. Qed.

(** The specification's wording fails on a user with one active device. *)
Lemma deactivate_twice_spec_fails :
  let u := exampleUser [exampleDevice "dev-a" 100 true] in
  (∃ d, d ∈ devices u ∧ deviceId d = "dev-a" ∧ isActive d = true)
  ∧ ¬ deactivate_twice_spec u "dev-a".
Proof.
  intros u. split.
  - exists (exampleDevice "dev-a" 100 true). repeat split. apply list_elem_of_singleton. done.
  - unfold deactivate_twice_spec. vm_compute. intros (_ & H & _). discriminate H.
Qed.

(** C5, amended.  On a user whose device list holds a device with id [id],
    [deactivateDevice id] answers [true] on the first call and [true]
    again on the second call, and the second call changes nothing: the
    user document, and so its device list, is the one the first call
    left. *)
Theorem deactivateDevice_twice (u : User) (id : string) :
  (∃ d, d ∈ devices u ∧ deviceId d = id) →
  let '(r1, u1) := UserModel.deactivateDevice id u in
  let '(r2, u2) := UserModel.deactivateDevice id u1 in
  r1 = true ∧ r2 = true ∧ u2 = u1.
Proof.
  intros (d & Hin & Hid).
  unfold UserModel.deactivateDevice.
  set (p := fun d0 : Device => String.eqb (deviceId d0) id).
  assert (p d = true) as Hp by (unfold p; by apply String.eqb_eq).
  destruct (findIndex_exists p _ d Hin Hp) as [i Hi].
  rewrite Hi. destruct (findIndex_Some p _ i Hi) as (x & Hx & Hpx).
  rewrite Hx. simpl.
  assert (p (set_isActive x false) = true) as Hpx' by exact Hpx.
  rewrite (findIndex_insert p _ i _ Hi Hpx').
  rewrite list_lookup_insert_eq by (by eapply lookup_lt_Some).
  repeat split.
  unfold set_devices. simpl. by rewrite list_insert_insert_eq.
Qed.

Lemma deactivateDevice_twice_witness :
  let u := exampleUser [exampleDevice "dev-b" 50 false; exampleDevice "dev-a" 100 true] in
  let '(r1, u1) := UserModel.deactivateDevice "dev-a" u in
  let '(r2, u2) := UserModel.deactivateDevice "dev-a" u1 in
  r1 = true ∧ r2 = true ∧ u2 = u1.
Proof.
  intros u. apply (deactivateDevice_twice u "dev-a").
  exists (exampleDevice "dev-a" 100 true). split; [|reflexivity].
  apply list_elem_of_In. simpl. right. left. reflexivity.
Defined.

(** ** Session status *)

(** C9, evaluated on the code.  The session-status handler calls
    [sessionService.getSessionTimeLeft]; the service object defines no such
    property, so for every session id the call raises and the handler
    answers 500 instead of the seconds left. *)
Theorem session_status_always_fails (sessionId : string) :
  session_status sessionId = StatusError 500 "Failed to get session status".
Proof. reflexivity. Qed.

(** ** The stable sort *)

Lemma sort_insert_perm {A} (cmp : A → A → Z) (d : A) (l : list A) :
  Permutation (sort_insert cmp d l) (d :: l).
Proof.
  induction l as [|x t IH]; simpl; [done|].
  destruct (cmp d x <=? 0); [done|].
  rewrite IH. apply perm_swap.
Qed.

Lemma js_sort_perm {A} (cmp : A → A → Z) (l : list A) :
  Permutation (js_sort cmp l) l.
Proof.
  induction l as [|x t IH]; simpl; [done|].
  unfold js_sort in *. simpl. rewrite sort_insert_perm. by constructor.
Qed.

Lemma js_sort_length {A} (cmp : A → A → Z) (l : list A) :
  length (js_sort cmp l) = length l.
Proof. apply Permutation_length, js_sort_perm. Qed.

Lemma sort_insert_newer_first (d : Device) (l : list Device) :
  StronglySorted newer_first l →
  StronglySorted newer_first (sort_insert byLastSeenDesc d l).
Proof.
  induction 1 as [|x t Hs IH Hx]; simpl.
  - repeat constructor.
  - unfold byLastSeenDesc at 1. destruct (Z.leb_spec (lastSeen x - lastSeen d) 0) as [Hle|Hgt].
    + constructor; [by constructor|].
      constructor; [unfold newer_first; lia|].
      eapply Forall_impl; [exact Hx|]. unfold newer_first. intros y Hy. simpl in *. lia.
    + constructor; [exact IH|].
      rewrite (sort_insert_perm byLastSeenDesc d t).
      constructor; [unfold newer_first; lia|exact Hx].
Qed.

Lemma js_sort_newer_first (l : list Device) :
  StronglySorted newer_first (js_sort byLastSeenDesc l).
Proof.
  induction l as [|x t IH]; [constructor|].
  unfold js_sort in *. simpl. by apply sort_insert_newer_first.
Qed.

Lemma StronglySorted_app_cross {A} (R : A → A → Prop) (l1 l2 : list A) :
  StronglySorted R (l1 ++ l2) →
  StronglySorted R l1 ∧ Forall (fun x => Forall (R x) l2) l1.
Proof.
  induction l1 as [|x t IH]; simpl; intros Hs.
  - split; constructor.
  - apply StronglySorted_inv in Hs as [Hs Hx].
    destruct (IH Hs) as [Ht Hc]. apply Forall_app in Hx as [Hx1 Hx2].
    split; constructor; auto.
Qed.

(** ** The device list stays bounded *)

Lemma findIndex_fresh (id : string) (l : list Device) :
  (∀ d, d ∈ l → deviceId d ≠ id) →
  findIndex (fun d => String.eqb (deviceId d) id) l = None.
Proof.
  intros Hfresh. destruct (findIndex _ l) as [i|] eqn:E; [|done].
  apply findIndex_Some in E as (x & Hx & Hp).
  apply String.eqb_eq in Hp. exfalso. apply (Hfresh x); [|done].
  apply list_elem_of_lookup. eauto.
Qed.

(** C6.  If the device list has at most 10 entries before
    [updateDeviceInfo], it has at most 10 entries after it.  When the list
    is full and the fingerprint of the login is not in it, the new entry
    (last seen now) is added and exactly one entry is dropped: the 10
    entries kept and the dropped one are together the old list plus the new
    entry, the dropped entry was seen no later than any entry kept, and the
    entries kept are ordered most recent first. *)
Theorem updateDeviceInfo_bound (P : Platform) (now : Z) (info : DeviceInfo) (u : User) :
  (length (devices u) ≤ 10)%nat →
  let u' := snd (UserModel.updateDeviceInfo P now info u) in
  (length (devices u') ≤ 10)%nat
  ∧ (length (devices u) = 10%nat →
     (∀ d, d ∈ devices u → deviceId d ≠ UserModel.generateDeviceId P info) →
     ∃ newDevice evicted,
       deviceId newDevice = UserModel.generateDeviceId P info
       ∧ lastSeen newDevice = now
       ∧ Permutation (devices u ++ [newDevice]) (devices u' ++ [evicted])
       ∧ length (devices u') = 10%nat
       ∧ Forall (fun d => lastSeen evicted ≤ lastSeen d) (devices u')
       ∧ StronglySorted newer_first (devices u')).
Proof.
  intros Hlen u'. subst u'. unfold UserModel.updateDeviceInfo.
  cbn [snd set_lastDeviceInfo set_devices devices].
  set (id := UserModel.generateDeviceId P info).
  set (p := fun d : Device => String.eqb (deviceId d) id).
  split.
  - destruct (findIndex p (devices u)) as [i|] eqn:E.
    + destruct (devices u !! i); [by rewrite length_insert|done].
    + match goal with |- context [devices u ++ [?d]] => set (newDevice := d) end.
      destruct (Nat.ltb_spec 10 (length (devices u ++ [newDevice]))) as [Hgt|Hle];
        cbv beta iota; [|exact Hle].
      unfold slice0. rewrite length_take. lia.
  - intros Hfull Hfresh.
    assert (findIndex p (devices u) = None) as E
      by (apply findIndex_fresh; exact Hfresh).
    rewrite E.
    match goal with |- context [devices u ++ [?d]] => set (newDevice := d) end.
    assert (length (devices u ++ [newDevice]) = 11%nat) as Hpushed
      by (rewrite length_app; simpl; lia).
    rewrite Hpushed. change (10 <? 11)%nat with true. cbv iota.
    set (sorted := js_sort byLastSeenDesc (devices u ++ [newDevice])).
    assert (length sorted = 11%nat) as Hsorted
      by (unfold sorted; by rewrite js_sort_length).
    pose proof (take_drop 10 sorted) as Hsplit.
    assert (length (drop 10 sorted) = 1%nat) as Hdrop by (rewrite length_drop; lia).
    destruct (drop 10 sorted) as [|evicted [|? ?]] eqn:Ed; simpl in Hdrop; try lia.
    exists newDevice, evicted. unfold slice0.
    repeat split.
    + rewrite Hsplit. symmetry. apply js_sort_perm.
    + rewrite length_take. lia.
    + pose proof (js_sort_newer_first (devices u ++ [newDevice])) as Hs.
      fold sorted in Hs. rewrite <- Hsplit in Hs.
      apply StronglySorted_app_cross in Hs as [_ Hc].
      eapply Forall_impl; [exact Hc|]. intros d Hd.
      apply Forall_inv in Hd. exact Hd.
    + pose proof (js_sort_newer_first (devices u ++ [newDevice])) as Hs.
      fold sorted in Hs. rewrite <- Hsplit in Hs.
      by apply StronglySorted_app_cross in Hs as [Hs _].
Qed.

Lemma updateDeviceInfo_bound_witness :
  let u := exampleUser tenDevices in
  let u' := snd (UserModel.updateDeviceInfo examplePlatform 1000 (exampleInfo "Firefox") u) in
  (length (devices u) ≤ 10)%nat ∧ (length (devices u') ≤ 10)%nat.
Proof.
  intros u u'.
  assert (length (devices u) ≤ 10)%nat as H by (vm_compute; lia).
  split; [exact H|].
  exact (proj1 (updateDeviceInfo_bound examplePlatform 1000 (exampleInfo "Firefox") u H)).
Defined.

Example updateDeviceInfo_evicts_oldest :
  map deviceId
    (devices (snd (UserModel.updateDeviceInfo examplePlatform 1000
                     (exampleInfo "Firefox") (exampleUser tenDevices))))
  = [ "md5:Firefox-Linux-desktop-Unknown"; "dev-10"; "dev-9"; "dev-8"; "dev-7";
      "dev-6"; "dev-5"; "dev-4"; "dev-3"; "dev-2" ].
Proof. vm_compute. reflexivity. Qed.

(** ** Unfolding the store monad *)

Ltac redis_unfold :=
  unfold safeRedisOp, mbind, cmd_bind, mret, cmd_ret,
    Redis.bind, Redis.ret, Redis.reject, Redis.await,
    Redis.get, Redis.set, Redis.setex, Redis.del, Redis.incr, Redis.expire,
    Redis.sadd, Redis.srem, Redis.smembers, Redis.pipeline_del in *.

Lemma lookup_live_insert_eq now k e (s : db) :
  lookup_live now k (<[k := e]> s) = if live now e then Some e else None.
Proof. unfold lookup_live. by rewrite lookup_insert_eq. Qed.

Lemma lookup_live_insert_ne now k k' e (s : db) :
  k ≠ k' → lookup_live now k' (<[k := e]> s) = lookup_live now k' s.
Proof. intros H. unfold lookup_live. by rewrite lookup_insert_ne. Qed.


Lemma lookup_live_delete_ne now k k' (s : db) :
  k ≠ k' → lookup_live now k' (delete k s) = lookup_live now k' s.
Proof. intros H. unfold lookup_live. by rewrite lookup_delete_ne. Qed.

Lemma lookup_live_Some now k e (s : db) :
  lookup_live now k s = Some e → s !! k = Some e ∧ live now e = true.
Proof.
  unfold lookup_live. destruct (s !! k) as [e'|]; [|discriminate].
  destruct (live now e') eqn:L; [|discriminate]. by intros [= ->].
Qed.

Lemma ltb_pos (ttl : Z) : 0 < ttl → (0 <? ttl) = true.
Proof. apply Z.ltb_lt. Qed.

Lemma ltb_nonpos (ttl : Z) : ttl ≤ 0 → (0 <? ttl) = false.
Proof. apply Z.ltb_ge. Qed.

Lemma setex_run now k ttl v (s : db) :
  0 < ttl →
  Redis.setex now k ttl v s
  = (Ok tt, <[k := {| val := v; expiry := Some (now + Redis.seconds ttl) |}]> s).
Proof. intros H. unfold Redis.setex. by rewrite ltb_pos. Qed.

Lemma setex_refused now k ttl v (s : db) :
  ttl ≤ 0 → Redis.setex now k ttl v s = (Rejected, s).
Proof. intros H. unfold Redis.setex. by rewrite ltb_nonpos. Qed.

Lemma expire_at_lookup now k ttl (s : db) e :
  0 < ttl →
  lookup_live now k s = Some e →
  Redis.expire_at now k ttl s !! k
  = Some {| val := val e; expiry := Some (now + Redis.seconds ttl) |}.
Proof.
  intros Hpos H. unfold Redis.expire_at. rewrite H, ltb_pos by done.
  apply lookup_insert_eq.
Qed.

Lemma expire_at_lookup_ne now k k' ttl (s : db) :
  k ≠ k' → Redis.expire_at now k ttl s !! k' = s !! k'.
Proof.
  intros H. unfold Redis.expire_at.
  destruct (lookup_live now k s); [|done].
  destruct (0 <? ttl); [by rewrite lookup_insert_ne|by rewrite lookup_delete_ne].
Qed.

Lemma expire_at_absent now k ttl (s : db) :
  lookup_live now k s = None → Redis.expire_at now k ttl s = s.
Proof. intros H. unfold Redis.expire_at. by rewrite H. Qed.

(** ** Throttled session refresh *)

Lemma refreshSession_throttled env now sessionId (s : db) e t :
  lookup_live now ("session_refresh:" +:+ sessionId) s = Some e →
  val e = VNum t →
  now - t < sessionService.throttleWindow env * 1000 →
  sessionService.refreshSession env true now sessionId false s = (true, s).
Proof.
  intros Hm Hv Hlt. unfold sessionService.refreshSession. redis_unfold. simpl.
  rewrite Hm, Hv.
  destruct (Z.ltb_spec (now - t) (sessionService.throttleWindow env * 1000)); [done|lia].
Qed.


Lemma refreshSession_rearm env now sessionId (s : db) :
  0 < sessionService.throttleWindow env →
  lookup_live now ("session_refresh:" +:+ sessionId) s = None
  ∨ (∃ e t, lookup_live now ("session_refresh:" +:+ sessionId) s = Some e
            ∧ val e = VNum t
            ∧ sessionService.throttleWindow env * 1000 ≤ now - t) →
  sessionService.refreshSession env true now sessionId false s
  = (true, Redis.expire_at now ("session:" +:+ sessionId)
             (sessionService.sessionTimeout env)
             (<[ "session_refresh:" +:+ sessionId :=
                 {| val := VNum now;
                    expiry := Some (now + Redis.seconds (sessionService.throttleWindow env)) |} ]> s)).
Proof.
  intros Hpos Hcase. unfold sessionService.refreshSession. redis_unfold. simpl.
  destruct Hcase as [Hnone|(e & t & Hm & Hv & Hge)].
  - by rewrite Hnone, ltb_pos.
  - rewrite Hm, Hv.
    destruct (Z.ltb_spec (now - t) (sessionService.throttleWindow env * 1000)); [lia|].
    by rewrite ltb_pos.
Qed.

(** A window that is not positive: the marker is refused, the call
    answers [false] and the session record keeps its expiry. *)
Lemma refreshSession_refused env now sessionId (s : db) :
  sessionService.throttleWindow env ≤ 0 →
  lookup_live now ("session_refresh:" +:+ sessionId) s = None →
  sessionService.refreshSession env true now sessionId false s = (false, s).
Proof.
  intros Hneg Hnone. unfold sessionService.refreshSession. redis_unfold. simpl.
  by rewrite Hnone, ltb_nonpos.
Qed.



(** The positive window is needed: with SESSION_REFRESH_THROTTLE set to -5
    the marker is refused, the call answers [false] and the session record
    keeps its expiry. *)
Example refreshSession_negative_window :
  let env := {| SESSION_TIMEOUT := None; SESSION_REFRESH_THROTTLE := Some (-5);
                REFRESH_TOKEN_EXPIRE := None; LOCKOUT_TIME := None |} in
  let s : db :=
    <[ "session:s1" :=
       {| val := VSession {| sd_userId := "u1"; sd_sessionId := "s1"; sd_createdAt := 0;
                             sd_email := "a@example.com"; sd_firstName := "Ada";
                             sd_lastName := "Byron" |};
          expiry := Some 100000 |} ]> ∅ in
  sessionService.refreshSession env true 60000 "s1" false s = (false, s).
Proof. intros env s. by apply refreshSession_refused. Qed.

(** ** Reading and deleting refresh tokens and sessions *)

Lemma getSession_store ready now sessionId (s : db) :
  snd (sessionService.getSession ready now sessionId s) = s.
Proof.
  unfold sessionService.getSession. redis_unfold.
  destruct ready; [|done].
  destruct (lookup_live now _ s) as [e|]; [|done].
  destruct (val e) as [str| | | |]; try done.
  simpl. by destruct (String.eqb str "").
Qed.

Lemma getSession_absent ready now sessionId (s : db) :
  lookup_live now ("session:" +:+ sessionId) s = None →
  sessionService.getSession ready now sessionId s = (None, s).
Proof.
  intros H. unfold sessionService.getSession. redis_unfold.
  destruct ready; [|done]. by rewrite H.
Qed.

Lemma getSession_live now sessionId (s : db) e d :
  lookup_live now ("session:" +:+ sessionId) s = Some e → val e = VSession d →
  sessionService.getSession true now sessionId s = (Some d, s).
Proof.
  intros H Hv. unfold sessionService.getSession. redis_unfold. by rewrite H, Hv.
Qed.

Lemma getRefreshToken_store ready now token (s : db) :
  snd (sessionService.getRefreshToken ready now token s) = s.
Proof.
  unfold sessionService.getRefreshToken. redis_unfold.
  destruct ready; [|done].
  destruct (lookup_live now _ s) as [e|]; [|done].
  destruct (val e) as [str| | | |]; try done.
  simpl. by destruct (String.eqb str "").
Qed.

Lemma getRefreshToken_absent ready now token (s : db) :
  lookup_live now ("refresh_token:" +:+ token) s = None →
  sessionService.getRefreshToken ready now token s = (None, s).
Proof.
  intros H. unfold sessionService.getRefreshToken. redis_unfold.
  destruct ready; [|done]. by rewrite H.
Qed.


Lemma live_mono now now' e : now ≤ now' → live now' e = true → live now e = true.
Proof.
  unfold live. destruct (expiry e); [|done].
  intros Hle H. apply Z.ltb_lt in H. apply Z.ltb_lt. lia.
Qed.



Lemma lookup_live_absent now k (s : db) : s !! k = None → lookup_live now k s = None.
Proof. intros H. unfold lookup_live. by rewrite H. Qed.


(** ** Cleanup on a failed token exchange *)




(** ** Which keys each service call writes *)

Lemma isAccountLocked_store ready now identifier (s : db) :
  snd (failedAttemptsService.isAccountLocked ready now identifier s) = s.
Proof.
  unfold failedAttemptsService.isAccountLocked. redis_unfold.
  destruct ready; [|done].
  destruct (lookup_live now _ s) as [e|]; [|done].
  by destruct (val e).
Qed.

Lemma incrementFailedAttempts_frame env ready now identifier (s : db) k :
  k ≠ "failed_attempts:" +:+ identifier →
  snd (failedAttemptsService.incrementFailedAttempts env ready now identifier s) !! k = s !! k.
Proof.
  intros Hk. unfold failedAttemptsService.incrementFailedAttempts. redis_unfold.
  destruct ready; [|done].
  destruct (lookup_live now _ s) as [e|]; cbn [snd].
  - destruct (val e); cbn [snd]; try done.
    rewrite expire_at_lookup_ne by done. by rewrite lookup_insert_ne.
  - rewrite expire_at_lookup_ne by done. by rewrite lookup_insert_ne.
Qed.

Lemma lockAccount_frame env ready now identifier (s : db) k :
  k ≠ "account_lock:" +:+ identifier →
  snd (failedAttemptsService.lockAccount env ready now identifier s) !! k = s !! k.
Proof.
  intros Hk. unfold failedAttemptsService.lockAccount. redis_unfold.
  destruct ready; [|done].
  destruct (0 <? failedAttemptsService.lockoutTime env); cbn [snd]; [|done].
  by rewrite lookup_insert_ne.
Qed.

Lemma clearFailedAttempts_frame ready identifier (s : db) k :
  k ≠ "failed_attempts:" +:+ identifier →
  snd (failedAttemptsService.clearFailedAttempts ready identifier s) !! k = s !! k.
Proof.
  intros Hk. unfold failedAttemptsService.clearFailedAttempts. redis_unfold.
  destruct ready; [|done]. cbn [snd]. by rewrite lookup_delete_ne.
Qed.

Lemma lookup_foldl_delete (ks : list string) (s : db) k :
  k ∉ ks → foldl (fun acc k0 => delete k0 acc) s ks !! k = s !! k.
Proof.
  revert s. induction ks as [|k0 ks IH]; intros s Hk; [done|].
  apply not_elem_of_cons in Hk as [Hne Hk]. simpl.
  rewrite IH by done. by rewrite lookup_delete_ne.
Qed.

Lemma deleteAllUserRefreshTokens_frame ready now userId (s : db) k :
  (∀ t, k ≠ "refresh_token:" +:+ t) →
  k ≠ "user_refresh_tokens:" +:+ userId →
  snd (sessionService.deleteAllUserRefreshTokens ready now userId s) !! k = s !! k.
Proof.
  intros Ht Hu. unfold sessionService.deleteAllUserRefreshTokens. redis_unfold.
  destruct ready; [|done].
  destruct (lookup_live now _ s) as [e|]; cbn [snd]; [|done].
  destruct (val e) as [?|?|?|?|ms]; cbn [snd]; try done.
  destruct (0 <? length (elements ms))%nat; cbn [snd]; [|done].
  apply lookup_foldl_delete. intros Hin.
  apply elem_of_app in Hin as [Hin|Hin].
  - apply list_elem_of_fmap in Hin as (t & -> & _). by apply (Ht t).
  - apply list_elem_of_singleton in Hin. by apply Hu.
Qed.

Lemma storeRefreshToken_frame env ready now token userId sessionId (s : db) k :
  k ≠ "refresh_token:" +:+ token →
  k ≠ "user_refresh_tokens:" +:+ userId →
  snd (sessionService.storeRefreshToken env ready now token userId sessionId s) !! k = s !! k.
Proof.
  intros Ht Hu. unfold sessionService.storeRefreshToken. redis_unfold.
  destruct ready; [|done]. cbv zeta.
  destruct (0 <? sessionService.refreshExpire env); [|done].
  destruct (lookup_live now _ _) as [e|]; cbn [snd].
  - destruct (val e); cbn [snd];
      rewrite ?expire_at_lookup_ne by done; by rewrite !lookup_insert_ne.
  - rewrite expire_at_lookup_ne by done. by rewrite !lookup_insert_ne.
Qed.

(** ** Session records under eviction and creation *)

Lemma same_sessions_refl (s : db) : same_sessions s s.
Proof. by intros x. Qed.

Lemma same_sessions_trans (s1 s2 s3 : db) :
  same_sessions s1 s2 → same_sessions s2 s3 → same_sessions s1 s3.
Proof.
  intros H12 H23 x. destruct (H12 x) as [A B], (H23 x) as [C D].
  split; congruence.
Qed.

Lemma same_sessions_frame (s s' : db) :
  (∀ x, s' !! ("session:" +:+ x) = s !! ("session:" +:+ x)) →
  (∀ x, s' !! ("active_session:" +:+ x) = s !! ("active_session:" +:+ x)) →
  same_sessions s s'.
Proof. intros A B x. by split. Qed.

Lemma single_session_same (s s' : db) :
  same_sessions s s' → single_session s → single_session s'.
Proof.
  intros Hsame Hinv sid e d He Hv.
  destruct (Hsame sid) as [Hs _]. rewrite Hs in He.
  destruct (Hinv sid e d He Hv) as [Hne Hp]. split; [exact Hne|].
  destruct (Hsame (sd_userId d)) as [_ Ha]. by rewrite Ha.
Qed.

Lemma no_session_of_same u (s s' : db) :
  same_sessions s s' → no_session_of u s → no_session_of u s'.
Proof.
  intros Hsame Hno sid e d He Hv.
  destruct (Hsame sid) as [Hs _]. rewrite Hs in He. by eapply Hno.
Qed.

Lemma truthy_VStr sid : sid ≠ "" → truthy (Some (VStr sid)) = true.
Proof. intros H. simpl. by apply negb_true_iff, String.eqb_neq. Qed.

Lemma deleteAllUserSessions_not_ready now userId (s : db) :
  sessionService.deleteAllUserSessions false now userId s = (tt, s).
Proof. reflexivity. Qed.

Lemma deleteAllUserSessions_pointer now userId (s : db) sid :
  s !! ("active_session:" +:+ userId) = Some {| val := VStr sid; expiry := None |} →
  sid ≠ "" →
  sessionService.deleteAllUserSessions true now userId s
  = (tt, delete ("active_session:" +:+ userId) (delete ("session:" +:+ sid) s)).
Proof.
  intros Hp Hne. unfold sessionService.deleteAllUserSessions. redis_unfold.
  unfold lookup_live. rewrite Hp. cbn [live expiry val].
  by rewrite (truthy_VStr sid Hne).
Qed.

(** Eviction only deletes, and it deletes no pointer but the user's. *)
Lemma deleteAllUserSessions_shrinks ready now userId (s : db) :
  let s' := snd (sessionService.deleteAllUserSessions ready now userId s) in
  (∀ k, s' !! k = None ∨ s' !! k = s !! k)
  ∧ (∀ x, x ≠ userId → s' !! ("active_session:" +:+ x) = s !! ("active_session:" +:+ x)).
Proof.
  intros s'. subst s'.
  unfold sessionService.deleteAllUserSessions. redis_unfold.
  destruct ready; [|by split; [right|]].
  assert (∀ k1 (s0 : db),
            (∀ k, (delete ("active_session:" +:+ userId) (delete k1 s0)) !! k = None
                  ∨ (delete ("active_session:" +:+ userId) (delete k1 s0)) !! k = s0 !! k))
    as Hdd.
  { intros k1 s0 k.
    destruct (decide (k = "active_session:" +:+ userId)) as [->|H1];
      [left; apply lookup_delete_eq|].
    rewrite lookup_delete_ne by done.
    destruct (decide (k = k1)) as [->|H2]; [left; apply lookup_delete_eq|].
    right. by rewrite lookup_delete_ne. }
  assert (∀ k, (delete ("active_session:" +:+ userId) s) !! k = None
               ∨ (delete ("active_session:" +:+ userId) s) !! k = s !! k) as Hd.
  { intros k. destruct (decide (k = "active_session:" +:+ userId)) as [->|H1];
      [left; apply lookup_delete_eq|right; by rewrite lookup_delete_ne]. }
  assert (∀ x, x ≠ userId →
               "active_session:" +:+ userId ≠ "active_session:" +:+ x) as Hax.
  { intros x Hx E. apply active_key_inj in E. congruence. }
  destruct (lookup_live now _ s) as [e|]; cbn [truthy snd].
  - destruct (val e) as [sid|?|?|?|?]; cbn [truthy snd];
      try (split; [by right|done]).
    destruct (negb (String.eqb sid "")); cbn [snd].
    + split; [apply Hdd|]. intros x Hx.
      rewrite lookup_delete_ne by (by apply Hax).
      rewrite lookup_delete_ne by apply session_ne_active. done.
    + split; [apply Hd|]. intros x Hx. by rewrite lookup_delete_ne by (by apply Hax).
  - split; [apply Hd|]. intros x Hx. by rewrite lookup_delete_ne by (by apply Hax).
Qed.

Lemma deleteAllUserSessions_single ready now userId (s : db) :
  single_session s →
  let s' := snd (sessionService.deleteAllUserSessions ready now userId s) in
  single_session s' ∧ (ready = true → no_session_of userId s').
Proof.
  intros Hinv s'.
  destruct (deleteAllUserSessions_shrinks ready now userId s) as [Hsub Hother].
  fold s' in Hsub, Hother.
  assert (∀ sid e d, s' !! ("session:" +:+ sid) = Some e → val e = VSession d →
                     sd_userId d = userId → ready = false) as Hevicted.
  { intros sid e d He Hv Hu.
    destruct (Hsub ("session:" +:+ sid)) as [Hn|Hk]; [congruence|].
    rewrite Hk in He. destruct (Hinv sid e d He Hv) as [Hne Hp].
    destruct ready; [|done]. exfalso.
    rewrite Hu in Hp.
    pose proof (deleteAllUserSessions_pointer now userId s sid Hp Hne) as Hrun.
    subst s'. rewrite Hrun in Hk. cbn [snd] in Hk.
    rewrite lookup_delete_ne in Hk by (apply not_eq_sym, session_ne_active).
    rewrite lookup_delete_eq in Hk. congruence. }
  split.
  - intros sid e d He Hv.
    destruct (Hsub ("session:" +:+ sid)) as [Hn|Hk]; [congruence|].
    pose proof He as He0. rewrite Hk in He0.
    destruct (Hinv sid e d He0 Hv) as [Hne Hp]. split; [exact Hne|].
    destruct (decide (sd_userId d = userId)) as [Hu|Hu].
    + pose proof (Hevicted sid e d He Hv Hu) as ->.
      subst s'. by rewrite deleteAllUserSessions_not_ready.
    + by rewrite Hother.
  - intros -> sid e d He Hv Hu.
    by pose proof (Hevicted sid e d He Hv Hu).
Qed.

Lemma createSession_run env now userId sessionId userData (s : db) :
  0 < sessionService.sessionTimeout env →
  snd (sessionService.createSession env true now userId sessionId userData s)
  = <[ "active_session:" +:+ userId := {| val := VStr sessionId; expiry := None |} ]>
      (<[ "session:" +:+ sessionId :=
          {| val := VSession
                      {| sd_userId := userId; sd_sessionId := sessionId;
                         sd_createdAt := now; sd_email := ud_email userData;
                         sd_firstName := ud_firstName userData;
                         sd_lastName := ud_lastName userData |};
             expiry := Some (now + Redis.seconds (sessionService.sessionTimeout env)) |} ]> s).
Proof.
  intros Hpos. unfold sessionService.createSession. redis_unfold.
  by rewrite ltb_pos.
Qed.

Lemma createSession_not_ready env now userId sessionId userData (s : db) :
  snd (sessionService.createSession env false now userId sessionId userData s) = s.
Proof. reflexivity. Qed.

(** A session timeout that is not positive: the record is refused and
    the pointer is not written. *)
Lemma createSession_refused env ready now userId sessionId userData (s : db) :
  sessionService.sessionTimeout env ≤ 0 →
  snd (sessionService.createSession env ready now userId sessionId userData s) = s.
Proof.
  intros Hneg. unfold sessionService.createSession. redis_unfold.
  destruct ready; [|done]. by rewrite ltb_nonpos.
Qed.

Lemma createSession_frame env ready now userId sessionId userData (s : db) k :
  k ≠ "session:" +:+ sessionId → k ≠ "active_session:" +:+ userId →
  snd (sessionService.createSession env ready now userId sessionId userData s) !! k
  = s !! k.
Proof.
  intros Hs Ha. destruct ready; [|by rewrite createSession_not_ready].
  destruct (Z.lt_ge_cases 0 (sessionService.sessionTimeout env)) as [Hpos|Hneg];
    [|by rewrite createSession_refused].
  rewrite createSession_run by done.
  rewrite lookup_insert_ne by done. by rewrite lookup_insert_ne.
Qed.

Lemma createSession_single env ready now userId sessionId userData (s : db) :
  sessionId ≠ "" →
  single_session s →
  (ready = true → no_session_of userId s) →
  single_session (snd (sessionService.createSession env ready now userId sessionId userData s)).
Proof.
  intros Hne Hinv Hno. destruct ready; [|by rewrite createSession_not_ready].
  destruct (Z.lt_ge_cases 0 (sessionService.sessionTimeout env)) as [Hpos|Hneg];
    [|by rewrite createSession_refused].
  rewrite createSession_run by done. specialize (Hno eq_refl).
  intros sid e d He Hv.
  rewrite lookup_insert_ne in He by (apply not_eq_sym, session_ne_active).
  destruct (decide (sid = sessionId)) as [->|Hsid].
  - rewrite lookup_insert_eq in He. injection He as <-. cbn [val] in Hv.
    injection Hv as <-. cbn [sd_userId]. split; [exact Hne|].
    by rewrite lookup_insert_eq.
  - rewrite lookup_insert_ne in He
      by (intros E; apply session_key_inj in E; congruence).
    destruct (Hinv sid e d He Hv) as [Hn Hp]. split; [exact Hn|].
    pose proof (Hno sid e d He Hv) as Hu.
    rewrite lookup_insert_ne
      by (intros E; apply active_key_inj in E; congruence).
    by rewrite lookup_insert_ne by apply session_ne_active.
Qed.

Lemma getSession_Some ready now sessionId (s : db) d :
  fst (sessionService.getSession ready now sessionId s) = Some d →
  ∃ e, s !! ("session:" +:+ sessionId) = Some e ∧ val e = VSession d.
Proof.
  unfold sessionService.getSession. redis_unfold.
  destruct ready; [|discriminate].
  destruct (lookup_live now _ s) as [e|] eqn:El; [|discriminate].
  apply lookup_live_Some in El as [El _].
  destruct (val e) as [str|?|d'|?|?] eqn:Ev; cbn [fst]; try discriminate.
  - destruct (String.eqb str ""); discriminate.
  - intros [= <-]. eauto.
Qed.

Lemma deleteSession_cases ready now sessionId (s : db) :
  snd (sessionService.deleteSession ready now sessionId s) = s
  ∨ ∃ e d, s !! ("session:" +:+ sessionId) = Some e ∧ val e = VSession d
           ∧ snd (sessionService.deleteSession ready now sessionId s)
             = delete ("active_session:" +:+ sd_userId d)
                 (delete ("session:" +:+ sessionId) s).
Proof.
  unfold sessionService.deleteSession, safeRedisOp, mbind, cmd_bind, Redis.bind, Redis.await.
  destruct ready; [|by left].
  pose proof (getSession_store true now sessionId s) as Hst.
  pose proof (getSession_Some true now sessionId s) as Hsome.
  destruct (sessionService.getSession true now sessionId s) as [[d|] s1];
    cbn [fst snd] in *; subst s1; [|by left].
  destruct (Hsome d eq_refl) as (e & He & Hv).
  right. exists e, d. by repeat split.
Qed.

Lemma logout_single ready now sessionId userId (w : World) :
  single_session (store w) → single_session (store (logout ready now sessionId userId w)).
Proof.
  intros Hinv. unfold logout.
  destruct (sessionService.deleteSession ready now sessionId (store w)) as [[] s1] eqn:E1.
  destruct (sessionService.deleteAllUserRefreshTokens ready now userId s1) as [[] s2] eqn:E2.
  cbn [store with_store].
  assert (same_sessions s1 s2) as H12.
  { replace s2 with (snd (sessionService.deleteAllUserRefreshTokens ready now userId s1))
      by (by rewrite E2).
    apply same_sessions_frame; intros x; apply deleteAllUserRefreshTokens_frame;
      first [intros t; apply session_ne_token | apply session_ne_tokens
            | intros t; apply active_ne_token | apply active_ne_tokens]. }
  apply (single_session_same s1 s2 H12).
  destruct (deleteSession_cases ready now sessionId (store w)) as [Hs|(e & d & He & Hv & Hs)];
    rewrite E1 in Hs; cbn [snd] in Hs; subst s1; [exact Hinv|].
  destruct (Hinv sessionId e d He Hv) as [Hne Hp].
  intros sid e' d' He' Hv'.
  rewrite lookup_delete_ne in He' by (apply not_eq_sym, session_ne_active).
  destruct (decide (sid = sessionId)) as [->|Hsid];
    [by rewrite lookup_delete_eq in He'|].
  rewrite lookup_delete_ne in He' by (intros E; apply session_key_inj in E; congruence).
  destruct (Hinv sid e' d' He' Hv') as [Hn' Hp']. split; [exact Hn'|].
  assert (sd_userId d' ≠ sd_userId d) as Hu.
  { intros Hu. rewrite Hu in Hp'. rewrite Hp in Hp'. congruence. }
  rewrite lookup_delete_ne by (intros E; apply active_key_inj in E; congruence).
  by rewrite lookup_delete_ne by apply session_ne_active.
Qed.

(** ** The paths through the login handler *)

Ltac key_ne :=
  first
    [ apply session_ne_failed | apply session_ne_lock | apply session_ne_token
    | apply session_ne_tokens | apply active_ne_failed | apply active_ne_lock
    | apply active_ne_token | apply active_ne_tokens ].

Ltac frame_sessions :=
  apply same_sessions_frame; intros ?;
  first
    [ apply incrementFailedAttempts_frame
    | apply lockAccount_frame
    | apply clearFailedAttempts_frame
    | apply deleteAllUserRefreshTokens_frame
    | apply storeRefreshToken_frame ];
  first [ key_ne | intros ?; key_ne ].

Lemma login_cases P env status now randomUUID req (w : World) :
  let out := login P env status now randomUUID req w in
  let identifier := req_email req +:+ ":" +:+ req_ip req in
  let locked :=
    fst (failedAttemptsService.isAccountLocked (status AtIsAccountLocked) now
           identifier (store w)) in
  let found := UserModel.findByEmail P (req_email req) (users w) in
  (∃ e, fst out = LoginThrows e
        ∧ same_sessions (store w) (store (snd out))
        ∧ (locked = true ∨ found = None
           ∨ ∃ user, found = Some user
                     ∧ (UserModel.comparePassword P user (req_password req) = false
                        ∨ u_isActive user = false)))
  ∨ (∃ user r,
       fst out = LoginJson r
       ∧ locked = false
       ∧ found = Some user
       ∧ UserModel.comparePassword P user (req_password req) = true
       ∧ u_isActive user = true
       ∧ pp_id (lr_user r) = u_id user
       ∧ lr_accessToken r
         = accessToken (generateTokens P now (u_id user) randomUUID (u_email user))
       ∧ lr_refreshToken r
         = refreshToken (generateTokens P now (u_id user) randomUUID (u_email user))
       ∧ ∃ s2 s4,
           same_sessions (store w) s2
           ∧ same_sessions
               (snd (sessionService.deleteAllUserSessions
                       (status AtDeleteAllUserSessions) now (u_id user) s2)) s4
           ∧ same_sessions
               (snd (sessionService.createSession env (status AtCreateSession) now
                       (u_id user) randomUUID
                       {| ud_email := u_email user; ud_firstName := u_firstName user;
                          ud_lastName := u_lastName user |} s4))
               (store (snd out))).
Proof.
  intros out identifier locked found. subst out locked found. unfold login.
  cbv zeta. fold identifier.
  pose proof (isAccountLocked_store (status AtIsAccountLocked) now identifier (store w)) as H1.
  destruct (failedAttemptsService.isAccountLocked _ now identifier (store w))
    as [isLocked s1] eqn:E1.
  cbn [fst snd] in *. subst s1.
  destruct isLocked.
  { left. eexists. split; [reflexivity|]. split; [apply same_sessions_refl|by left]. }
  destruct (UserModel.findByEmail P (req_email req) (users w)) as [user|] eqn:Ef.
  2: { left.
       destruct (failedAttemptsService.incrementFailedAttempts env _ now identifier (store w))
         as [a s2] eqn:E2.
       eexists. split; [reflexivity|]. split; [|right; by left].
       cbn [snd store with_store].
       replace s2 with
         (snd (failedAttemptsService.incrementFailedAttempts env
                 (status AtIncrementFailedAttempts) now identifier (store w)))
         by (by rewrite E2).
       frame_sessions. }
  destruct (UserModel.comparePassword P user (req_password req)) eqn:Ec; cbn [negb].
  2: { left.
       destruct (failedAttemptsService.incrementFailedAttempts env _ now identifier (store w))
         as [attempts s2] eqn:E2.
       assert (same_sessions (store w) s2) as H2.
       { replace s2 with
           (snd (failedAttemptsService.incrementFailedAttempts env
                   (status AtIncrementFailedAttempts) now identifier (store w)))
           by (by rewrite E2).
         frame_sessions. }
       destruct (5 <=? attempts).
       - destruct (failedAttemptsService.lockAccount env _ now identifier s2)
           as [[] s3] eqn:E3.
         eexists. split; [reflexivity|]. split; [|right; right; eauto].
         cbn [snd store with_store].
         apply (same_sessions_trans _ s2); [exact H2|].
         replace s3 with
           (snd (failedAttemptsService.lockAccount env (status AtLockAccount) now identifier s2))
           by (by rewrite E3).
         frame_sessions.
       - eexists. split; [reflexivity|]. split; [exact H2|right; right; eauto]. }
  destruct (u_isActive user) eqn:Ea; cbn [negb].
  2: { left. eexists. split; [reflexivity|].
       split; [apply same_sessions_refl|right; right; eauto]. }
  right.
  destruct (failedAttemptsService.clearFailedAttempts _ identifier (store w))
    as [[] s2] eqn:E2.
  cbn [u_id u_email u_firstName u_lastName set_devices].
  destruct (sessionService.deleteAllUserSessions _ now (u_id user) s2) as [[] s3] eqn:E3.
  destruct (sessionService.deleteAllUserRefreshTokens _ now (u_id user) s3) as [[] s4] eqn:E4.
  destruct (sessionService.createSession env _ now (u_id user) randomUUID _ s4)
    as [cr s5] eqn:E5.
  destruct (sessionService.storeRefreshToken env _ now _ (u_id user) randomUUID s5)
    as [[] s6] eqn:E6.
  destruct (UserModel.updateDeviceInfo P now _ _) as [updatedDeviceId user3] eqn:E7.
  exists user. eexists. split; [reflexivity|].
  cbn [fst snd store lr_user lr_accessToken lr_refreshToken].
  split; [reflexivity|]. split; [reflexivity|]. split; [exact Ec|]. split; [exact Ea|].
  split; [|split; [reflexivity|split; [reflexivity|]]].
  - unfold UserModel.updateDeviceInfo in E7. injection E7 as _ <-. reflexivity.
  - exists s2, s4. split; [|split].
    + replace s2 with
        (snd (failedAttemptsService.clearFailedAttempts (status AtClearFailedAttempts)
                identifier (store w))) by (by rewrite E2).
      frame_sessions.
    + rewrite E3. cbn [snd].
      replace s4 with
        (snd (sessionService.deleteAllUserRefreshTokens
                (status AtDeleteAllUserRefreshTokens) now (u_id user) s3)) by (by rewrite E4).
      frame_sessions.
    + rewrite E5. cbn [snd].
      replace s6 with
        (snd (sessionService.storeRefreshToken env (status AtStoreRefreshToken) now
                (refreshToken (generateTokens P now (u_id user) randomUUID (u_email user)))
                (u_id user) randomUUID s5)) by (by rewrite E6).
      frame_sessions.
Qed.

Lemma login_single P env status now randomUUID req (w : World) :
  randomUUID ≠ "" →
  (status AtCreateSession = true → status AtDeleteAllUserSessions = true) →
  single_session (store w) →
  single_session (store (snd (login P env status now randomUUID req w))).
Proof.
  intros Hne Hst Hinv.
  destruct (login_cases P env status now randomUUID req w)
    as [(e & _ & Hsame & _)|(user & r & _ & _ & _ & _ & _ & _ & _ & _ & s2 & s4 & H2 & H4 & H6)].
  - by apply (single_session_same _ _ Hsame).
  - apply (single_session_same _ _ H6).
    pose proof (single_session_same _ _ H2 Hinv) as Hinv2.
    destruct (deleteAllUserSessions_single (status AtDeleteAllUserSessions) now
                (u_id user) s2 Hinv2) as [Hinv3 Hno3].
    apply createSession_single; [exact Hne|by apply (single_session_same _ _ H4)|].
    intros Hc. apply (no_session_of_same _ _ _ H4). apply Hno3. by apply Hst.
Qed.

Lemma reachable_single P env (w : World) :
  reachable P env evicts w → single_session (store w).
Proof.
  induction 1 as [us|w w' Hreach IH Hstep].
  - intros sid e d He. cbn [store] in He. by rewrite lookup_empty in He.
  - destruct Hstep as [status now randomUUID req w Hne Hst|ready now sessionId userId w].
    + by apply login_single.
    + by apply logout_single.
Qed.

Lemma login_sets_pointer P env status now randomUUID req (w : World) r :
  0 < sessionService.sessionTimeout env →
  status AtCreateSession = true →
  fst (login P env status now randomUUID req w) = LoginJson r →
  store (snd (login P env status now randomUUID req w))
    !! ("active_session:" +:+ pp_id (lr_user r))
  = Some {| val := VStr randomUUID; expiry := None |}.
Proof.
  intros Hpos Hc Hr.
  destruct (login_cases P env status now randomUUID req w)
    as [(e & He & _)|(user & r' & Hr' & _ & _ & _ & _ & Hid & _ & _ & s2 & s4 & _ & _ & H6)].
  - rewrite Hr in He. discriminate.
  - rewrite Hr in Hr'. injection Hr' as <-. rewrite Hid.
    destruct (H6 (u_id user)) as [_ ->].
    rewrite Hc, createSession_run by done. apply lookup_insert_eq.
Qed.

Lemma login_evicts P env status now randomUUID req (w : World) r previous :
  status AtDeleteAllUserSessions = true →
  fst (login P env status now randomUUID req w) = LoginJson r →
  store w !! ("active_session:" +:+ pp_id (lr_user r))
  = Some {| val := VStr previous; expiry := None |} →
  previous ≠ "" → previous ≠ randomUUID →
  store (snd (login P env status now randomUUID req w)) !! ("session:" +:+ previous) = None.
Proof.
  intros Hd Hr Hp Hne Hfresh.
  destruct (login_cases P env status now randomUUID req w)
    as [(e & He & _)|(user & r' & Hr' & _ & _ & _ & _ & Hid & _ & _ & s2 & s4 & H2 & H4 & H6)].
  - rewrite Hr in He. discriminate.
  - rewrite Hr in Hr'. injection Hr' as <-. rewrite Hid in Hp.
    destruct (H6 previous) as [-> _].
    assert (s4 !! ("session:" +:+ previous) = None) as H4p.
    { destruct (H4 previous) as [-> _]. rewrite Hd.
      destruct (H2 (u_id user)) as [_ Ha]. rewrite <- Ha in Hp.
      rewrite (deleteAllUserSessions_pointer now (u_id user) s2 previous Hp Hne).
      cbn [snd]. rewrite lookup_delete_ne by (apply not_eq_sym, session_ne_active).
      apply lookup_delete_eq. }
    destruct (status AtCreateSession); [|by rewrite createSession_not_ready].
    destruct (Z.lt_ge_cases 0 (sessionService.sessionTimeout env)) as [Hpos|Hneg];
      [|by rewrite createSession_refused].
    rewrite createSession_run by done.
    rewrite lookup_insert_ne by (apply not_eq_sym, session_ne_active).
    rewrite lookup_insert_ne by (intros E; apply session_key_inj in E; congruence).
    exact H4p.
Qed.

(** ** One reachable session for each user *)

(** C1.  The first part holds where the store is ready when the first
    login creates its session and when the second login evicts and creates,
    and the session timeout is positive, as SETEX needs it.  After two
    successful logins in a row for the same user, with
    session ids [sid1] and then [sid2] (non-empty and distinct, as random
    UUIDs are), the key [active_session:<userId>] holds [sid2] and
    [getSession sid1] answers null at every later instant.  In every world
    that logouts and evicting logins lead to from an empty store, each
    session record is the one named by the pointer of its user, so two
    session records of the same user are the same record. *)
Theorem single_active_session (P : Platform) (env : Env) :
  (∀ st1 st2 now1 now2 sid1 sid2 req1 req2 (w0 : World) r1 r2,
     let o1 := login P env st1 now1 sid1 req1 w0 in
     let o2 := login P env st2 now2 sid2 req2 (snd o1) in
     0 < sessionService.sessionTimeout env →
     st1 AtCreateSession = true →
     st2 AtDeleteAllUserSessions = true → st2 AtCreateSession = true →
     sid1 ≠ "" → sid1 ≠ sid2 →
     fst o1 = LoginJson r1 → fst o2 = LoginJson r2 →
     pp_id (lr_user r1) = pp_id (lr_user r2) →
     store (snd o2) !! ("active_session:" +:+ pp_id (lr_user r2))
     = Some {| val := VStr sid2; expiry := None |}
     ∧ ∀ ready now3,
         sessionService.getSession ready now3 sid1 (store (snd o2))
         = (None, store (snd o2)))
  ∧ (∀ w, reachable P env evicts w →
       single_session (store w)
       ∧ ∀ sidA sidB eA eB dA dB,
           store w !! ("session:" +:+ sidA) = Some eA → val eA = VSession dA →
           store w !! ("session:" +:+ sidB) = Some eB → val eB = VSession dB →
           sd_userId dA = sd_userId dB → sidA = sidB).
Proof.
  split.
  - intros st1 st2 now1 now2 sid1 sid2 req1 req2 w0 r1 r2 o1 o2
      Hpos Hc1 Hd2 Hc2 Hne Hfresh Hr1 Hr2 Hsame.
    split.
    + by apply login_sets_pointer.
    + intros ready now3. apply getSession_absent, lookup_live_absent.
      apply (login_evicts P env st2 now2 sid2 req2 (snd o1) r2 sid1); try done.
      rewrite <- Hsame. by apply login_sets_pointer.
  - intros w Hreach. pose proof (reachable_single P env w Hreach) as Hinv.
    split; [exact Hinv|].
    intros sidA sidB eA eB dA dB HA HvA HB HvB Hu.
    destruct (Hinv sidA eA dA HA HvA) as [_ HpA].
    destruct (Hinv sidB eB dB HB HvB) as [_ HpB].
    rewrite Hu in HpA. rewrite HpA in HpB. congruence.
Qed.

Lemma single_active_session_witness :
  let o1 := login examplePlatform defaultEnv alwaysReady 1000 "sid-1"
              (exampleRequest "secret" "Chrome") freshWorld in
  let o2 := login examplePlatform defaultEnv alwaysReady 2000 "sid-2"
              (exampleRequest "secret" "Firefox") (snd o1) in
  store (snd o2) !! "active_session:u1" = Some {| val := VStr "sid-2"; expiry := None |}
  ∧ fst (sessionService.getSession true 2000 "sid-1" (store (snd o2))) = None
  ∧ single_session (store (snd o2)).
Proof.
  intros o1 o2.
  destruct (fst o1) as [r1|e1] eqn:E1; [|vm_compute in E1; discriminate E1].
  destruct (fst o2) as [r2|e2] eqn:E2; [|vm_compute in E2; discriminate E2].
  assert (pp_id (lr_user r1) = "u1") as H1
    by (vm_compute in E1; injection E1 as <-; reflexivity).
  assert (pp_id (lr_user r2) = "u1") as H2
    by (vm_compute in E2; injection E2 as <-; reflexivity).
  destruct (single_active_session examplePlatform defaultEnv) as [Htwo Hall].
  destruct (Htwo alwaysReady alwaysReady 1000 2000 "sid-1" "sid-2"
              (exampleRequest "secret" "Chrome") (exampleRequest "secret" "Firefox")
              freshWorld r1 r2) as [Hp Hg];
    [reflexivity|reflexivity|reflexivity|reflexivity|discriminate|discriminate
    |exact E1|exact E2|by rewrite H1, H2|].
  rewrite H2 in Hp. split; [exact Hp|].
  fold o1 o2 in Hg. split; [by rewrite (Hg true 2000)|].
  apply (Hall (snd o2)).
  apply (reachable_step _ _ _ (snd o1)).
  - apply (reachable_step _ _ _ freshWorld).
    + apply reachable_init.
    + apply step_login; [discriminate|by intros _].
  - apply step_login; [discriminate|by intros _].
Defined.

(** The specification's wording fails: the second login cannot reach the
    store when it evicts and reaches it afterwards; it answers with tokens
    all the same, and the record of the first session stays readable. *)
Lemma second_login_evicts_first_fails :
  ¬ second_login_evicts_first examplePlatform defaultEnv alwaysReady downAtEviction
      1000 2000 "sid-1" "sid-2"
      (exampleRequest "secret" "Chrome") (exampleRequest "secret" "Firefox") freshWorld.
Proof.
  unfold second_login_evicts_first. intros H.
  destruct (fst (login examplePlatform defaultEnv alwaysReady 1000 "sid-1"
                   (exampleRequest "secret" "Chrome") freshWorld))
    as [r1|e1] eqn:E1; [|vm_compute in E1; discriminate E1].
  destruct (fst (login examplePlatform defaultEnv downAtEviction 2000 "sid-2"
                   (exampleRequest "secret" "Firefox")
                   (snd (login examplePlatform defaultEnv alwaysReady 1000 "sid-1"
                           (exampleRequest "secret" "Chrome") freshWorld))))
    as [r2|e2] eqn:E2; [|vm_compute in E2; discriminate E2].
  assert (pp_id (lr_user r1) = pp_id (lr_user r2)) as Hsame.
  { vm_compute in E1. injection E1 as <-. vm_compute in E2. injection E2 as <-.
    reflexivity. }
  destruct (H r1 r2 eq_refl eq_refl Hsame) as [_ Hnull].
  vm_compute in Hnull. discriminate Hnull.
Qed.

(** The same two logins lead to a world, reachable when the logins may find
    any client status, in which the record of the first session is not the
    one the pointer of its user names. *)
Example outage_breaks_single_session :
  ∃ w, reachable examplePlatform defaultEnv any_status w ∧ ¬ single_session (store w).
Proof.
  exists (snd (login examplePlatform defaultEnv downAtEviction 2000 "sid-2"
                 (exampleRequest "secret" "Firefox")
                 (snd (login examplePlatform defaultEnv alwaysReady 1000 "sid-1"
                         (exampleRequest "secret" "Chrome") freshWorld)))).
  split.
  - eapply reachable_step; [|apply step_login; [discriminate|exact I]].
    eapply reachable_step; [|apply step_login; [discriminate|exact I]].
    apply reachable_init.
  - intros Hinv.
    destruct (Hinv "sid-1"
                {| val := VSession {| sd_userId := "u1"; sd_sessionId := "sid-1";
                                      sd_createdAt := 1000; sd_email := "a@example.com";
                                      sd_firstName := "Ada"; sd_lastName := "Byron" |};
                   expiry := Some 301000 |}
                {| sd_userId := "u1"; sd_sessionId := "sid-1";
                   sd_createdAt := 1000; sd_email := "a@example.com";
                   sd_firstName := "Ada"; sd_lastName := "Byron" |})
      as [_ Hp]; [vm_compute; reflexivity|reflexivity|].
    vm_compute in Hp. discriminate Hp.
Qed.

(** What the two logins leave, spelled out: the second answers with
    tokens, the pointer holds its session id, and the record of the first
    session is still read. *)
Example eviction_outage_keeps_first_session :
  let o1 := login examplePlatform defaultEnv alwaysReady 1000 "sid-1"
              (exampleRequest "secret" "Chrome") freshWorld in
  let o2 := login examplePlatform defaultEnv downAtEviction 2000 "sid-2"
              (exampleRequest "secret" "Firefox") (snd o1) in
  (∃ r2, fst o2 = LoginJson r2)
  ∧ store (snd o2) !! "active_session:u1" = Some {| val := VStr "sid-2"; expiry := None |}
  ∧ sd_userId <$> fst (sessionService.getSession true 2000 "sid-1" (store (snd o2)))
    = Some "u1".
Proof.
  intros o1 o2. split; [|split].
  - eexists. vm_compute. reflexivity.
  - vm_compute. reflexivity.
  - vm_compute. reflexivity.
Qed.

(** ** Token issuance while the store is unreachable *)

Lemma token_ne_failed a b : "refresh_token:" +:+ a ≠ "failed_attempts:" +:+ b.
Proof. key_discr. Qed.

Lemma lookup_foldl_delete_shrinks (ks : list string) (s : db) k :
  foldl (fun acc k0 => delete k0 acc) s ks !! k = None
  ∨ foldl (fun acc k0 => delete k0 acc) s ks !! k = s !! k.
Proof.
  revert s. induction ks as [|k0 ks IH]; intros s; [by right|].
  simpl. destruct (IH (delete k0 s)) as [H|H]; [by left|].
  rewrite H. destruct (decide (k = k0)) as [->|Hne].
  - left. apply lookup_delete_eq.
  - right. by apply lookup_delete_ne.
Qed.

Lemma deleteAllUserRefreshTokens_shrinks ready now userId (s : db) k :
  snd (sessionService.deleteAllUserRefreshTokens ready now userId s) !! k = None
  ∨ snd (sessionService.deleteAllUserRefreshTokens ready now userId s) !! k = s !! k.
Proof.
  unfold sessionService.deleteAllUserRefreshTokens. redis_unfold.
  destruct ready; [|by right].
  destruct (lookup_live now _ s) as [e|]; cbn [snd]; [|by right].
  destruct (val e) as [?|?|?|?|ms]; cbn [snd]; try (by right).
  destruct (0 <? length (elements ms))%nat; cbn [snd]; [|by right].
  apply lookup_foldl_delete_shrinks.
Qed.

Lemma storeRefreshToken_not_ready env now token userId sessionId (s : db) :
  snd (sessionService.storeRefreshToken env false now token userId sessionId s) = s.
Proof. reflexivity. Qed.

(** The store a login leaves when the credentials verify. *)
Lemma login_success_store P env status now randomUUID req (w : World) user :
  let identifier := req_email req +:+ ":" +:+ req_ip req in
  fst (failedAttemptsService.isAccountLocked (status AtIsAccountLocked) now
         identifier (store w)) = false →
  UserModel.findByEmail P (req_email req) (users w) = Some user →
  UserModel.comparePassword P user (req_password req) = true →
  u_isActive user = true →
  let tokens := generateTokens P now (u_id user) randomUUID (u_email user) in
  let s2 := snd (failedAttemptsService.clearFailedAttempts
                   (status AtClearFailedAttempts) identifier (store w)) in
  let s3 := snd (sessionService.deleteAllUserSessions
                   (status AtDeleteAllUserSessions) now (u_id user) s2) in
  let s4 := snd (sessionService.deleteAllUserRefreshTokens
                   (status AtDeleteAllUserRefreshTokens) now (u_id user) s3) in
  let s5 := snd (sessionService.createSession env (status AtCreateSession) now
                   (u_id user) randomUUID
                   {| ud_email := u_email user; ud_firstName := u_firstName user;
                      ud_lastName := u_lastName user |} s4) in
  let s6 := snd (sessionService.storeRefreshToken env (status AtStoreRefreshToken) now
                   (refreshToken tokens) (u_id user) randomUUID s5) in
  ∃ r, fst (login P env status now randomUUID req w) = LoginJson r
       ∧ lr_accessToken r = accessToken tokens
       ∧ lr_refreshToken r = refreshToken tokens
       ∧ store (snd (login P env status now randomUUID req w)) = s6.
Proof.
  intros identifier Hl Hf Hc Ha tokens s2 s3 s4 s5 s6.
  subst s6 s5 s4 s3 s2 tokens.
  unfold login. cbv zeta. fold identifier.
  pose proof (isAccountLocked_store (status AtIsAccountLocked) now identifier (store w)) as H1.
  destruct (failedAttemptsService.isAccountLocked _ now identifier (store w))
    as [isLocked s1] eqn:E1.
  cbn [fst snd] in *. subst s1 isLocked.
  rewrite Hf, Hc, Ha. cbn [negb].
  destruct (failedAttemptsService.clearFailedAttempts _ identifier (store w))
    as [[] s2] eqn:E2.
  cbn [u_id u_email u_firstName u_lastName set_devices snd].
  destruct (sessionService.deleteAllUserSessions _ now (u_id user) s2) as [[] s3] eqn:E3.
  cbn [snd].
  destruct (sessionService.deleteAllUserRefreshTokens _ now (u_id user) s3) as [[] s4] eqn:E4.
  cbn [snd].
  destruct (sessionService.createSession env _ now (u_id user) randomUUID _ s4)
    as [cr s5] eqn:E5.
  cbn [snd].
  destruct (sessionService.storeRefreshToken env _ now _ (u_id user) randomUUID s5)
    as [[] s6] eqn:E6.
  destruct (UserModel.updateDeviceInfo P now _ _) as [updatedDeviceId user3] eqn:E7.
  eexists. split; [reflexivity|]. by repeat split.
Qed.

(** The specification's wording fails: the user's credentials verify, the
    store is unreachable at the issuance step, and the login answers with
    both tokens; no session record backs them. *)
Lemma login_aborts_when_issue_fails_fails :
  let out := login examplePlatform defaultEnv downAtIssue 1000 "sid-9"
               (exampleRequest "secret" "Chrome") freshWorld in
  ¬ login_aborts_when_issue_fails examplePlatform defaultEnv downAtIssue 1000
      "sid-9" (exampleRequest "secret" "Chrome") freshWorld
  ∧ (∃ r, fst out = LoginJson r
          ∧ lr_accessToken r = "access.u1.sid-9"
          ∧ lr_refreshToken r = "refresh.u1.sid-9")
  ∧ fst (sessionService.getSession true 1000 "sid-9" (store (snd out))) = None.
Proof.
  intros out. split; [|split].
  - intros H.
    destruct (H (exampleUser []) eq_refl eq_refl (or_introl eq_refl)) as [e He].
    vm_compute in He. discriminate He.
  - eexists. split; [vm_compute; reflexivity|]. split; reflexivity.
  - vm_compute. reflexivity.
Qed.

(** C2, amended.  For every login attempt that passes the lock check and
    whose credentials verify on an active account, whatever the store
    status is at each step, the login does not fail: it answers with the
    access token and the refresh token that [generateTokens] made for the
    new session id.  If the store is unreachable when the session is
    created, no session record is written for that id, and if it is
    unreachable when the refresh token is stored, no record is written for
    that token: a key that was absent before the login is absent after
    it. *)
Theorem login_issues_tokens_without_store (P : Platform) (env : Env)
    (status : LoginSite → bool) (now : Z) (randomUUID : string)
    (req : LoginRequest) (w : World) (user : User) :
  fst (failedAttemptsService.isAccountLocked (status AtIsAccountLocked) now
         (req_email req +:+ ":" +:+ req_ip req) (store w)) = false →
  UserModel.findByEmail P (req_email req) (users w) = Some user →
  UserModel.comparePassword P user (req_password req) = true →
  u_isActive user = true →
  let out := login P env status now randomUUID req w in
  let tokens := generateTokens P now (u_id user) randomUUID (u_email user) in
  ∃ r, fst out = LoginJson r
       ∧ lr_accessToken r = accessToken tokens
       ∧ lr_refreshToken r = refreshToken tokens
       ∧ (status AtCreateSession = false →
          store w !! ("session:" +:+ randomUUID) = None →
          store (snd out) !! ("session:" +:+ randomUUID) = None
          ∧ ∀ ready now', fst (sessionService.getSession ready now' randomUUID
                                 (store (snd out))) = None)
       ∧ (status AtStoreRefreshToken = false →
          store w !! ("refresh_token:" +:+ refreshToken tokens) = None →
          store (snd out) !! ("refresh_token:" +:+ refreshToken tokens) = None
          ∧ ∀ ready now', fst (sessionService.getRefreshToken ready now'
                                 (refreshToken tokens) (store (snd out))) = None).
Proof.
  intros Hl Hf Hc Ha out tokens.
  destruct (login_success_store P env status now randomUUID req w user Hl Hf Hc Ha)
    as (r & Hr & Hat & Hrt & Hstore).
  exists r. subst out. fold tokens in Hat, Hrt, Hstore |- *.
  split; [exact Hr|]. split; [exact Hat|]. split; [exact Hrt|].
  rewrite Hstore. clear Hstore.
  set (s2 := snd (failedAttemptsService.clearFailedAttempts _ _ (store w))).
  set (s3 := snd (sessionService.deleteAllUserSessions _ now (u_id user) s2)).
  set (s4 := snd (sessionService.deleteAllUserRefreshTokens _ now (u_id user) s3)).
  assert (∀ k, k ≠ "failed_attempts:" +:+ (req_email req +:+ ":" +:+ req_ip req) →
               store w !! k = None → s4 !! k = None) as Habsent.
  { intros k Hk Hnone.
    assert (s2 !! k = None) as H2
      by (unfold s2; by rewrite clearFailedAttempts_frame).
    assert (s3 !! k = None) as H3.
    { destruct (proj1 (deleteAllUserSessions_shrinks
                         (status AtDeleteAllUserSessions) now (u_id user) s2) k)
        as [H|H]; [exact H|]. fold s3 in H. congruence. }
    destruct (deleteAllUserRefreshTokens_shrinks
                (status AtDeleteAllUserRefreshTokens) now (u_id user) s3 k)
      as [H|H]; [exact H|]. fold s4 in H. congruence. }
  split.
  - intros Hdown Hnone. rewrite Hdown, createSession_not_ready.
    assert (snd (sessionService.storeRefreshToken env (status AtStoreRefreshToken) now
                   (refreshToken tokens) (u_id user) randomUUID s4)
            !! ("session:" +:+ randomUUID) = None) as Hgone.
    { rewrite storeRefreshToken_frame
        by first [apply session_ne_token | apply session_ne_tokens].
      apply Habsent; [apply session_ne_failed|exact Hnone]. }
    split; [exact Hgone|].
    intros ready now'.
    by rewrite (getSession_absent ready now' randomUUID _ (lookup_live_absent now' _ _ Hgone)).
  - intros Hdown Hnone. rewrite Hdown, storeRefreshToken_not_ready.
    assert (snd (sessionService.createSession env (status AtCreateSession) now (u_id user)
                   randomUUID
                   {| ud_email := u_email user; ud_firstName := u_firstName user;
                      ud_lastName := u_lastName user |} s4)
            !! ("refresh_token:" +:+ refreshToken tokens) = None) as Hgone.
    { rewrite createSession_frame
        by first [apply not_eq_sym, session_ne_token | apply not_eq_sym, active_ne_token].
      apply Habsent; [apply token_ne_failed|exact Hnone]. }
    split; [exact Hgone|].
    intros ready now'.
    by rewrite (getRefreshToken_absent ready now' _ _ (lookup_live_absent now' _ _ Hgone)).
Qed.

Lemma login_issues_tokens_without_store_witness :
  ∃ r, fst (login examplePlatform defaultEnv downAtIssue 1000 "sid-9"
              (exampleRequest "secret" "Chrome") freshWorld) = LoginJson r
       ∧ lr_accessToken r = "access.u1.sid-9"
       ∧ lr_refreshToken r = "refresh.u1.sid-9".
Proof.
  destruct (login_issues_tokens_without_store examplePlatform defaultEnv downAtIssue
              1000 "sid-9" (exampleRequest "secret" "Chrome") freshWorld (exampleUser []))
    as (r & Hr & Ha & Ht & _).
  - vm_compute. reflexivity.
  - reflexivity.
  - reflexivity.
  - reflexivity.
  - exists r. split; [exact Hr|]. split; [exact Ha|exact Ht].
Defined.

(** ** Failed attempts and lockout *)

Lemma incrementFailedAttempts_first env now identifier (s : db) :
  lookup_live now ("failed_attempts:" +:+ identifier) s = None →
  failedAttemptsService.incrementFailedAttempts env true now identifier s
  = (1, Redis.expire_at now ("failed_attempts:" +:+ identifier)
          (failedAttemptsService.lockoutTime env)
          (<[ "failed_attempts:" +:+ identifier := {| val := VNum 1; expiry := None |} ]> s)).
Proof.
  intros H. unfold failedAttemptsService.incrementFailedAttempts. redis_unfold.
  by rewrite H.
Qed.

Lemma incrementFailedAttempts_next env now identifier (s : db) e n :
  lookup_live now ("failed_attempts:" +:+ identifier) s = Some e → val e = VNum n →
  failedAttemptsService.incrementFailedAttempts env true now identifier s
  = (n + 1, Redis.expire_at now ("failed_attempts:" +:+ identifier)
              (failedAttemptsService.lockoutTime env)
              (<[ "failed_attempts:" +:+ identifier :=
                  {| val := VNum (n + 1); expiry := expiry e |} ]> s)).
Proof.
  intros H Hv. unfold failedAttemptsService.incrementFailedAttempts. redis_unfold.
  by rewrite H, Hv.
Qed.

Lemma isAccountLocked_after_lock env now now' identifier (s : db) :
  0 < failedAttemptsService.lockoutTime env →
  now' < now + Redis.seconds (failedAttemptsService.lockoutTime env) →
  fst (failedAttemptsService.isAccountLocked true now' identifier
         (snd (failedAttemptsService.lockAccount env true now identifier s))) = true.
Proof.
  intros Hpos Hlt. unfold failedAttemptsService.isAccountLocked,
    failedAttemptsService.lockAccount. redis_unfold. rewrite ltb_pos by done. cbn [snd].
  rewrite lookup_live_insert_eq. unfold live. cbn [expiry val].
  destruct (Z.ltb_spec now' (now + Redis.seconds (failedAttemptsService.lockoutTime env)));
    [reflexivity|lia].
Qed.

(** A locked identifier is turned away before the password is looked at,
    and nothing is written. *)
Lemma login_locked P env status now randomUUID req (w : World) :
  fst (failedAttemptsService.isAccountLocked (status AtIsAccountLocked) now
         (req_email req +:+ ":" +:+ req_ip req) (store w)) = true →
  login P env status now randomUUID req w
  = (LoginThrows (TooManyRequestsError
       "Account temporarily locked due to multiple failed attempts. Please try again later."),
     w).
Proof.
  intros Hl. unfold login. cbv zeta.
  pose proof (isAccountLocked_store (status AtIsAccountLocked) now
                (req_email req +:+ ":" +:+ req_ip req) (store w)) as H1.
  destruct (failedAttemptsService.isAccountLocked _ now _ (store w)) as [isLocked s1].
  cbn [fst snd] in *. subst. by destruct w.
Qed.

(** The wrong-password path: the counter goes from [n] to [n + 1]; at 5
    or more the identifier is locked for the lockout time, below 5 the
    answer reports [5 - (n + 1)] attempts remaining. *)
Lemma login_wrong_password P env status now randomUUID req (w : World) user n :
  let identifier := req_email req +:+ ":" +:+ req_ip req in
  let out := login P env status now randomUUID req w in
  (∀ site, status site = true) →
  0 < failedAttemptsService.lockoutTime env →
  fst (failedAttemptsService.isAccountLocked true now identifier (store w)) = false →
  UserModel.findByEmail P (req_email req) (users w) = Some user →
  UserModel.comparePassword P user (req_password req) = false →
  (lookup_live now ("failed_attempts:" +:+ identifier) (store w) = None ∧ n = 0)
  ∨ (∃ e, lookup_live now ("failed_attempts:" +:+ identifier) (store w) = Some e
          ∧ val e = VNum n) →
  (5 ≤ n + 1 →
   fst out = LoginThrows (TooManyRequestsError
     "Account locked due to multiple failed attempts. Please try again in 15 minutes.")
   ∧ ∀ now', now' < now + Redis.seconds (failedAttemptsService.lockoutTime env) →
       fst (failedAttemptsService.isAccountLocked true now' identifier (store (snd out)))
       = true)
  ∧ (n + 1 < 5 →
     fst out = LoginThrows (AuthenticationError
       ("Invalid credentials. " +:+ pretty (5 - (n + 1)) +:+ " attempts remaining."))).
Proof.
  intros identifier out Hready Hpos Hl Hf Hc Hn. subst out.
  unfold login. cbv zeta. fold identifier. rewrite !Hready.
  pose proof (isAccountLocked_store true now identifier (store w)) as H1.
  destruct (failedAttemptsService.isAccountLocked true now identifier (store w))
    as [isLocked s1].
  cbn [fst snd] in *. subst s1 isLocked.
  rewrite Hf, Hc. cbn [negb].
  assert (∃ s2, failedAttemptsService.incrementFailedAttempts env true now identifier (store w)
                = (n + 1, s2)) as [s2 ->].
  { destruct Hn as [[Hnone ->]|(e & He & Hv)].
    - rewrite (incrementFailedAttempts_first env now identifier _ Hnone). eauto.
    - rewrite (incrementFailedAttempts_next env now identifier _ e n He Hv). eauto. }
  split.
  - intros Hge. destruct (Z.leb_spec 5 (n + 1)); [|lia].
    pose proof (isAccountLocked_after_lock env now) as Hlock.
    destruct (failedAttemptsService.lockAccount env true now identifier s2) as [[] s3] eqn:E3.
    split; [reflexivity|]. intros now' Hlt. cbn [snd store with_store].
    specialize (Hlock now' identifier s2 Hpos Hlt). by rewrite E3 in Hlock.
  - intros Hlt. destruct (Z.leb_spec 5 (n + 1)); [lia|]. reflexivity.
Qed.

(** On the path for an unknown email the counter is incremented and
    nothing else happens: the answer never changes and the lock is never
    set. *)
Lemma login_unknown_email P env status now randomUUID req (w : World) :
  let identifier := req_email req +:+ ":" +:+ req_ip req in
  let out := login P env status now randomUUID req w in
  fst (failedAttemptsService.isAccountLocked (status AtIsAccountLocked) now
         identifier (store w)) = false →
  UserModel.findByEmail P (req_email req) (users w) = None →
  fst out = LoginThrows (AuthenticationError "Invalid credentials")
  ∧ store (snd out) !! ("account_lock:" +:+ identifier)
    = store w !! ("account_lock:" +:+ identifier).
Proof.
  intros identifier out Hl Hf. subst out.
  unfold login. cbv zeta. fold identifier.
  pose proof (isAccountLocked_store (status AtIsAccountLocked) now identifier (store w)) as H1.
  destruct (failedAttemptsService.isAccountLocked _ now identifier (store w))
    as [isLocked s1].
  cbn [fst snd] in *. subst s1 isLocked. rewrite Hf.
  pose proof (incrementFailedAttempts_frame env (status AtIncrementFailedAttempts) now
                identifier (store w) ("account_lock:" +:+ identifier)) as Hframe.
  destruct (failedAttemptsService.incrementFailedAttempts env _ now identifier (store w))
    as [a s2].
  split; [reflexivity|]. cbn [snd store with_store] in *.
  apply Hframe. apply not_eq_sym, failed_ne_lock.
Qed.

(** C3, evaluated on the code.  Six failed logins in a row for an email
    that no user has, from one IP address, with the store ready: every
    answer, the fifth and the sixth included, is the authentication error
    "Invalid credentials"; the counter stands at 6 and the identifier is
    not locked. *)
Theorem login_unknown_email_never_locks :
  let run := attempts examplePlatform defaultEnv 6 1000 ghostRequest freshWorld in
  fst run = replicate 6 (LoginThrows (AuthenticationError "Invalid credentials"))
  ∧ fst (failedAttemptsService.getFailedAttempts true 7000 "ghost@example.com:1.2.3.4"
           (store (snd run))) = 6
  ∧ fst (failedAttemptsService.isAccountLocked true 7000 "ghost@example.com:1.2.3.4"
           (store (snd run))) = false.
Proof. vm_compute. repeat split. Qed.

(** The same six attempts with a wrong password for an email that a user
    has: the fifth answer is the lockout, and so is the sixth. *)
Example login_wrong_password_locks :
  let run := attempts examplePlatform defaultEnv 6 1000
               (exampleRequest "wrong" "Chrome") freshWorld in
  fst run
  = [ LoginThrows (AuthenticationError "Invalid credentials. 4 attempts remaining.");
      LoginThrows (AuthenticationError "Invalid credentials. 3 attempts remaining.");
      LoginThrows (AuthenticationError "Invalid credentials. 2 attempts remaining.");
      LoginThrows (AuthenticationError "Invalid credentials. 1 attempts remaining.");
      LoginThrows (TooManyRequestsError
        "Account locked due to multiple failed attempts. Please try again in 15 minutes.");
      LoginThrows (TooManyRequestsError
        "Account temporarily locked due to multiple failed attempts. Please try again later.") ]
  ∧ fst (login examplePlatform defaultEnv alwaysReady 7000 "sid"
           (exampleRequest "secret" "Chrome") (snd run))
    = LoginThrows (TooManyRequestsError
        "Account temporarily locked due to multiple failed attempts. Please try again later.").
Proof. vm_compute. split; reflexivity. Qed.

(** C4, evaluated on the code.  The same request, identifier and store,
    with no failure recorded: when no user has the email the answer is
    "Invalid credentials", when a user has it and the password is wrong the
    answer is "Invalid credentials. 4 attempts remaining.".  After four
    recorded failures the first is still that authentication error and
    leaves the identifier unlocked, the second is the lockout error and
    leaves it locked. *)
Theorem login_reveals_known_email :
  let req := exampleRequest "wrong" "Chrome" in
  let absent := login examplePlatform defaultEnv alwaysReady 1000 "sid" req emptyWorld in
  let present := login examplePlatform defaultEnv alwaysReady 1000 "sid" req freshWorld in
  let absent5 := attempts examplePlatform defaultEnv 5 1000 req emptyWorld in
  let present5 := attempts examplePlatform defaultEnv 5 1000 req freshWorld in
  store emptyWorld = store freshWorld
  ∧ fst absent = LoginThrows (AuthenticationError "Invalid credentials")
  ∧ fst present
    = LoginThrows (AuthenticationError "Invalid credentials. 4 attempts remaining.")
  ∧ fst absent ≠ fst present
  ∧ last (fst absent5) = Some (LoginThrows (AuthenticationError "Invalid credentials"))
  ∧ last (fst present5)
    = Some (LoginThrows (TooManyRequestsError
        "Account locked due to multiple failed attempts. Please try again in 15 minutes."))
  ∧ fst (failedAttemptsService.isAccountLocked true 6000 "a@example.com:1.2.3.4"
           (store (snd absent5))) = false
  ∧ fst (failedAttemptsService.isAccountLocked true 6000 "a@example.com:1.2.3.4"
           (store (snd present5))) = true.
Proof.
  vm_compute. repeat split; try reflexivity. discriminate.
Qed.

(** * Further properties of the session and token services *)

Lemma active_ne_session_sym a b : "active_session:" +:+ a ≠ "session:" +:+ b.
Proof. key_discr. Qed.

Lemma tokens_ne_token a b : "user_refresh_tokens:" +:+ a ≠ "refresh_token:" +:+ b.
Proof. key_discr. Qed.

Lemma tokens_key_inj a b :
  "user_refresh_tokens:" +:+ a = "user_refresh_tokens:" +:+ b → a = b.
Proof. intros H. injection H as H. exact H. Qed.

Lemma failed_key_inj a b : "failed_attempts:" +:+ a = "failed_attempts:" +:+ b → a = b.
Proof. intros H. injection H as H. exact H. Qed.

(** ** Lifetime of a session record *)

(** X1.  With the store ready and a positive session timeout, the record
    [createSession] writes is read back by [getSession] under the same
    session id, with the user id and the user fields it was created with,
    at every instant before the session timeout has run out, and
    [getSession] answers null from that instant on. *)
Theorem session_lifetime (env : Env) (now now' : Z) (userId sessionId : string)
    (userData : UserData) (s : db) :
  0 < sessionService.sessionTimeout env →
  fst (sessionService.getSession true now' sessionId
         (snd (sessionService.createSession env true now userId sessionId userData s)))
  = if now' <? now + Redis.seconds (sessionService.sessionTimeout env)
    then Some {| sd_userId := userId; sd_sessionId := sessionId; sd_createdAt := now;
                 sd_email := ud_email userData; sd_firstName := ud_firstName userData;
                 sd_lastName := ud_lastName userData |}
    else None.
Proof.
  intros Hpos. rewrite createSession_run by done.
  unfold sessionService.getSession. redis_unfold.
  rewrite lookup_live_insert_ne by apply active_ne_session_sym.
  rewrite lookup_live_insert_eq. unfold live. cbn [expiry val].
  by destruct (now' <? now + Redis.seconds (sessionService.sessionTimeout env)).
Qed.

Lemma session_lifetime_witness :
  let s := snd (sessionService.createSession defaultEnv true 1000 "u1" "s1"
                  {| ud_email := "a@example.com"; ud_firstName := "Ada";
                     ud_lastName := "Byron" |} ∅) in
  sd_userId <$> fst (sessionService.getSession true 300999 "s1" s) = Some "u1"
  ∧ fst (sessionService.getSession true 301000 "s1" s) = None.
Proof.
  intros s. subst s. split.
  - rewrite (session_lifetime defaultEnv 1000 300999 "u1" "s1"); reflexivity.
  - rewrite (session_lifetime defaultEnv 1000 301000 "u1" "s1"); reflexivity.
Defined.

(** ** Lifetime and revocation of refresh tokens *)

Lemma storeRefreshToken_record env now token userId sessionId (s : db) :
  0 < sessionService.refreshExpire env →
  snd (sessionService.storeRefreshToken env true now token userId sessionId s)
    !! ("refresh_token:" +:+ token)
  = Some {| val := VToken {| td_userId := userId; td_sessionId := sessionId;
                             td_createdAt := now |};
            expiry := Some (now + Redis.seconds (sessionService.refreshExpire env)) |}.
Proof.
  intros Hpos. unfold sessionService.storeRefreshToken. redis_unfold.
  cbv zeta. rewrite ltb_pos by done.
  destruct (lookup_live now _ _) as [e|]; cbn [snd].
  - destruct (val e); cbn [snd];
      rewrite ?expire_at_lookup_ne by apply tokens_ne_token;
      rewrite ?lookup_insert_ne by apply tokens_ne_token;
      apply lookup_insert_eq.
  - rewrite expire_at_lookup_ne by apply tokens_ne_token.
    rewrite lookup_insert_ne by apply tokens_ne_token. apply lookup_insert_eq.
Qed.

(** X2.  With the store ready and a positive refresh-token lifetime (7 days
    unless configured), the record [storeRefreshToken] writes is read back
    by [getRefreshToken] under the token, with the user id and session id
    it was stored with, at every instant before that lifetime has run out,
    and [getRefreshToken] answers null from that instant on; this holds
    whatever the store held before. *)
Theorem refresh_token_lifetime (env : Env) (now now' : Z)
    (token userId sessionId : string) (s : db) :
  0 < sessionService.refreshExpire env →
  fst (sessionService.getRefreshToken true now' token
         (snd (sessionService.storeRefreshToken env true now token userId sessionId s)))
  = if now' <? now + Redis.seconds (sessionService.refreshExpire env)
    then Some {| td_userId := userId; td_sessionId := sessionId; td_createdAt := now |}
    else None.
Proof.
  intros Hpos.
  pose proof (storeRefreshToken_record env now token userId sessionId s Hpos) as Hrec.
  unfold sessionService.getRefreshToken. redis_unfold.
  unfold lookup_live. rewrite Hrec. unfold live. cbn [expiry val].
  by destruct (now' <? now + Redis.seconds (sessionService.refreshExpire env)).
Qed.

Lemma refresh_token_lifetime_witness :
  let s := snd (sessionService.storeRefreshToken defaultEnv true 1000
                  "refresh.u1.s1" "u1" "s1" ∅) in
  td_sessionId <$> fst (sessionService.getRefreshToken true 604800999 "refresh.u1.s1" s)
  = Some "s1"
  ∧ fst (sessionService.getRefreshToken true 604801000 "refresh.u1.s1" s) = None.
Proof.
  intros s. subst s. split.
  - rewrite (refresh_token_lifetime defaultEnv 1000 604800999); reflexivity.
  - rewrite (refresh_token_lifetime defaultEnv 1000 604801000); reflexivity.
Defined.

(** The members of the user's token set that are visible at [now]. *)
Lemma storeRefreshToken_run env now token userId sessionId (s : db) ms :
  0 < sessionService.refreshExpire env →
  (lookup_live now ("user_refresh_tokens:" +:+ userId) s = None ∧ ms = ∅)
  ∨ (∃ e, lookup_live now ("user_refresh_tokens:" +:+ userId) s = Some e
          ∧ val e = VSet ms) →
  snd (sessionService.storeRefreshToken env true now token userId sessionId s)
  = <[ "user_refresh_tokens:" +:+ userId :=
       {| val := VSet ({[ token ]} ∪ ms);
          expiry := Some (now + Redis.seconds (sessionService.refreshExpire env)) |} ]>
      (<[ "refresh_token:" +:+ token :=
          {| val := VToken {| td_userId := userId; td_sessionId := sessionId;
                              td_createdAt := now |};
             expiry := Some (now + Redis.seconds (sessionService.refreshExpire env)) |} ]> s).
Proof.
  intros Hpos Hset. unfold sessionService.storeRefreshToken. redis_unfold.
  cbv zeta. rewrite ltb_pos by done.
  rewrite lookup_live_insert_ne by apply token_ne_tokens.
  destruct Hset as [[Hnone ->]|(e & He & Hv)].
  - rewrite Hnone. cbn [snd]. unfold Redis.expire_at.
    rewrite lookup_live_insert_eq. cbn [live expiry val].
    rewrite ltb_pos by done.
    rewrite insert_insert_eq. by rewrite union_empty_r_L.
  - rewrite He, Hv. cbn [snd]. unfold Redis.expire_at.
    rewrite lookup_live_insert_eq.
    apply lookup_live_Some in He as [_ Hlive]. unfold live in *. cbn [expiry val].
    rewrite Hlive, ltb_pos by done. by rewrite insert_insert_eq.
Qed.

(** A refresh-token lifetime that is not positive: the record is refused
    and the token set is not touched. *)
Lemma storeRefreshToken_refused env ready now token userId sessionId (s : db) :
  sessionService.refreshExpire env ≤ 0 →
  snd (sessionService.storeRefreshToken env ready now token userId sessionId s) = s.
Proof.
  intros Hneg. unfold sessionService.storeRefreshToken. redis_unfold.
  destruct ready; [|done]. cbv zeta. by rewrite ltb_nonpos.
Qed.

Lemma lookup_foldl_delete_in (ks : list string) (s : db) k :
  k ∈ ks → foldl (fun acc k0 => delete k0 acc) s ks !! k = None.
Proof.
  revert s. induction ks as [|k0 ks IH]; intros s Hin; [by apply elem_of_nil in Hin|].
  simpl. destruct (decide (k ∈ ks)) as [Hk|Hk]; [by apply IH|].
  apply elem_of_cons in Hin as [->|Hin]; [|done].
  rewrite lookup_foldl_delete by done. apply lookup_delete_eq.
Qed.

Lemma deleteAllUserRefreshTokens_gone (now : Z) (userId : string) (s : db)
    (e : entry) (ms : gset string) (token : string) :
  lookup_live now ("user_refresh_tokens:" +:+ userId) s = Some e →
  val e = VSet ms →
  token ∈ ms →
  let s' := snd (sessionService.deleteAllUserRefreshTokens true now userId s) in
  s' !! ("user_refresh_tokens:" +:+ userId) = None
  ∧ (∀ t, t ∈ ms →
       s' !! ("refresh_token:" +:+ t) = None
       ∧ ∀ ready now', fst (sessionService.getRefreshToken ready now' t s') = None)
  ∧ (∀ k, k ≠ "user_refresh_tokens:" +:+ userId →
          (∀ t, t ∈ ms → k ≠ "refresh_token:" +:+ t) → s' !! k = s !! k).
Proof.
  intros He Hv Hin s'. subst s'.
  unfold sessionService.deleteAllUserRefreshTokens. redis_unfold.
  rewrite He, Hv. cbn [snd].
  assert ((0 <? length (elements ms))%nat = true) as ->.
  { apply Nat.ltb_lt. apply elem_of_elements in Hin.
    destruct (elements ms); [by apply elem_of_nil in Hin|simpl; lia]. }
  cbn [snd].
  set (ks := map (λ t, "refresh_token:" +:+ t) (elements ms)
             ++ ["user_refresh_tokens:" +:+ userId]).
  assert (∀ t, t ∈ ms → foldl (λ acc k0, delete k0 acc) s ks
                          !! ("refresh_token:" +:+ t) = None) as Hgone.
  { intros t Ht. apply lookup_foldl_delete_in. unfold ks.
    apply elem_of_app. left. apply list_elem_of_fmap. exists t.
    split; [done|by apply elem_of_elements]. }
  split; [|split].
  - apply lookup_foldl_delete_in. unfold ks. apply elem_of_app. right.
    by apply list_elem_of_singleton.
  - intros t Ht. split; [by apply Hgone|].
    intros ready now'.
    by rewrite (getRefreshToken_absent ready now' t _
                  (lookup_live_absent now' _ _ (Hgone t Ht))).
  - intros k Hk Hkt. apply lookup_foldl_delete. unfold ks. intros Hin'.
    apply elem_of_app in Hin' as [Hin'|Hin'].
    + apply list_elem_of_fmap in Hin' as (t & -> & Ht).
      apply elem_of_elements in Ht. by apply (Hkt t).
    + by apply list_elem_of_singleton in Hin'.
Qed.

(** X3.  With the store ready, if the token set of a user is live and holds
    a token, then after [deleteAllUserRefreshTokens] the set key is gone and
    so is the record of every token of the set, so [getRefreshToken]
    answers null for each of them at every instant; keys that are neither
    the set nor the record of one of its tokens keep their entries. *)
Theorem deleteAllUserRefreshTokens_revokes (now : Z) (userId : string) (s : db)
    (e : entry) (ms : gset string) (token : string) :
  lookup_live now ("user_refresh_tokens:" +:+ userId) s = Some e →
  val e = VSet ms →
  token ∈ ms →
  let s' := snd (sessionService.deleteAllUserRefreshTokens true now userId s) in
  s' !! ("user_refresh_tokens:" +:+ userId) = None
  ∧ (∀ t, t ∈ ms →
       s' !! ("refresh_token:" +:+ t) = None
       ∧ ∀ ready now', fst (sessionService.getRefreshToken ready now' t s') = None)
  ∧ (∀ k, k ≠ "user_refresh_tokens:" +:+ userId →
          (∀ t, t ∈ ms → k ≠ "refresh_token:" +:+ t) → s' !! k = s !! k).
Proof. exact (deleteAllUserRefreshTokens_gone now userId s e ms token). Qed.

Lemma deleteAllUserRefreshTokens_revokes_witness :
  let s' := snd (sessionService.deleteAllUserRefreshTokens true 1000 "u1" orphanTokenStore) in
  s' !! "user_refresh_tokens:u1" = None
  ∧ fst (sessionService.getRefreshToken true 1000 "refresh.u1.s1" s') = None.
Proof.
  intros s'.
  destruct (deleteAllUserRefreshTokens_revokes 1000 "u1" orphanTokenStore
              {| val := VSet {[ "refresh.u1.s1" ]}; expiry := Some 604800000 |}
              {[ "refresh.u1.s1" ]} "refresh.u1.s1") as (Hset & Htok & _).
  - vm_compute. reflexivity.
  - reflexivity.
  - by apply elem_of_singleton.
  - split; [exact Hset|].
    apply (Htok "refresh.u1.s1"). by apply elem_of_singleton.
Defined.



(** ** The auth middleware *)

Lemma mark_ne_session a b : "session_refresh:" +:+ a ≠ "session:" +:+ b.
Proof. key_discr. Qed.

Lemma mark_ne_active a b : "session_refresh:" +:+ a ≠ "active_session:" +:+ b.
Proof. key_discr. Qed.

Lemma getSession_Some_live ready now sessionId (s : db) d :
  fst (sessionService.getSession ready now sessionId s) = Some d →
  ready = true
  ∧ ∃ e, lookup_live now ("session:" +:+ sessionId) s = Some e ∧ val e = VSession d.
Proof.
  unfold sessionService.getSession. redis_unfold.
  destruct ready; [|discriminate].
  destruct (lookup_live now _ s) as [e|] eqn:El; [|discriminate].
  destruct (val e) as [str|?|d'|?|?] eqn:Ev; cbn [fst]; try discriminate.
  - destruct (String.eqb str ""); discriminate.
  - intros [= <-]. eauto.
Qed.

Lemma refreshSession_cases env ready now sessionId force (s : db) :
  let s' := snd (sessionService.refreshSession env ready now sessionId force s) in
  s' = s
  ∨ s' = Redis.expire_at now ("session:" +:+ sessionId)
           (sessionService.sessionTimeout env) s
  ∨ s' = Redis.expire_at now ("session:" +:+ sessionId)
           (sessionService.sessionTimeout env)
           (<[ "session_refresh:" +:+ sessionId :=
               {| val := VNum now;
                  expiry := Some (now + Redis.seconds (sessionService.throttleWindow env)) |} ]> s).
Proof.
  intros s'. subst s'. unfold sessionService.refreshSession. redis_unfold.
  destruct ready; [|by left].
  destruct force; cbn [negb]; [right; by left|].
  destruct (0 <? sessionService.throttleWindow env).
  - destruct (lookup_live now ("session_refresh:" +:+ sessionId) s) as [e|];
      cbn [snd]; [|right; by right].
    destruct (val e) as [?|t|?|?|?]; cbn [snd]; try (right; by right); [|by left].
    destruct (now - t <? sessionService.throttleWindow env * 1000); cbn [snd];
      [by left|right; by right].
  - destruct (lookup_live now ("session_refresh:" +:+ sessionId) s) as [e|];
      cbn [snd]; [|by left].
    destruct (val e) as [?|t|?|?|?]; cbn [snd]; try (by left).
    by destruct (now - t <? sessionService.throttleWindow env * 1000); left.
Qed.

(** A refresh writes the marker and the session record of its session and
    nothing else, and it keeps what the record holds. *)
Lemma refreshSession_frame env ready now sessionId force (s : db) k :
  k ≠ "session:" +:+ sessionId → k ≠ "session_refresh:" +:+ sessionId →
  snd (sessionService.refreshSession env ready now sessionId force s) !! k = s !! k.
Proof.
  intros Hs Hm.
  destruct (refreshSession_cases env ready now sessionId force s) as [->|[->| ->]];
    [done| |]; rewrite expire_at_lookup_ne by done; [done|].
  by rewrite lookup_insert_ne.
Qed.

Lemma refreshSession_keeps_record env ready now sessionId force (s : db) e :
  0 < sessionService.sessionTimeout env →
  lookup_live now ("session:" +:+ sessionId) s = Some e →
  ∃ x, snd (sessionService.refreshSession env ready now sessionId force s)
         !! ("session:" +:+ sessionId) = Some {| val := val e; expiry := x |}
       ∧ (x = expiry e ∨ x = Some (now + Redis.seconds (sessionService.sessionTimeout env))).
Proof.
  intros Hpos He.
  destruct (refreshSession_cases env ready now sessionId force s) as [->|[->| ->]].
  - apply lookup_live_Some in He as [He _]. exists (expiry e). split; [|by left].
    rewrite He. by destruct e.
  - eexists. split; [by apply expire_at_lookup|by right].
  - eexists. split; [|by right]. apply expire_at_lookup; [done|].
    by rewrite lookup_live_insert_ne by apply mark_ne_session.
Qed.

Lemma authenticateToken_next env verify status now authorization (s : db) user s' :
  authenticateToken env verify status now authorization s = (AuthNext user, s') →
  ∃ token decoded e d,
    bearerToken authorization = Some token
    ∧ verify now token = AccessVerified decoded
    ∧ status AtAuthGetSession = true
    ∧ lookup_live now ("session:" +:+ ap_sessionId decoded) s = Some e
    ∧ val e = VSession d
    ∧ sd_userId d = ap_userId decoded
    ∧ ru_userId user = ap_userId decoded
    ∧ ru_sessionId user = ap_sessionId decoded
    ∧ s' = snd (sessionService.refreshSession env (status AtAuthRefreshSession) now
                  (ap_sessionId decoded) false s).
Proof.
  unfold authenticateToken.
  destruct (bearerToken authorization) as [token|]; [|discriminate].
  destruct (verify now token) as [decoded|name] eqn:Ev.
  2: { destruct (String.eqb name "TokenExpiredError"); [discriminate|].
       destruct (String.eqb name "JsonWebTokenError"); discriminate. }
  pose proof (getSession_store (status AtAuthGetSession) now (ap_sessionId decoded) s) as Hst.
  pose proof (getSession_Some_live (status AtAuthGetSession) now (ap_sessionId decoded) s)
    as Hlive.
  destruct (sessionService.getSession _ now (ap_sessionId decoded) s) as [[d|] s1];
    cbn [fst snd] in *; [|discriminate]. subst s1.
  destruct (Hlive d eq_refl) as (Hready & e & He & Hv).
  destruct (String.eqb (sd_userId d) (ap_userId decoded)) eqn:Eu; cbn [negb];
    [|discriminate].
  apply String.eqb_eq in Eu.
  destruct (sessionService.refreshSession env _ now (ap_sessionId decoded) false s)
    as [b s2] eqn:Er.
  intros [= <- <-]. exists token, decoded, e, d. cbn [ru_userId ru_sessionId snd].
  repeat split; try done. by rewrite Er.
Qed.

(** X5.  While the store is unreachable when the session is read, the
    middleware lets no request through: whatever the header and the token,
    it answers with an error status and leaves the store as it was, and a
    token that verifies gets 401 "Invalid or expired session". *)
Theorem authenticateToken_store_down (env : Env) (verify : Z → string → VerifyAccess)
    (status : AuthSite → bool) (now : Z) (authorization : option string) (s : db) :
  status AtAuthGetSession = false →
  snd (authenticateToken env verify status now authorization s) = s
  ∧ (∀ user, fst (authenticateToken env verify status now authorization s) ≠ AuthNext user)
  ∧ (∀ token decoded,
       bearerToken authorization = Some token →
       verify now token = AccessVerified decoded →
       fst (authenticateToken env verify status now authorization s)
       = AuthStatus 401 "Invalid or expired session").
Proof.
  intros Hdown.
  assert (∀ token decoded,
            bearerToken authorization = Some token →
            verify now token = AccessVerified decoded →
            authenticateToken env verify status now authorization s
            = (AuthStatus 401 "Invalid or expired session", s)) as Hrun.
  { intros token decoded Hb Hv. unfold authenticateToken. by rewrite Hb, Hv, Hdown. }
  split; [|split].
  - unfold authenticateToken.
    destruct (bearerToken authorization) as [token|]; [|done].
    destruct (verify now token) as [decoded|name] eqn:Ev.
    + by rewrite Hdown.
    + destruct (String.eqb name "TokenExpiredError"); [done|].
      by destruct (String.eqb name "JsonWebTokenError").
  - intros user Hnext.
    destruct (authenticateToken env verify status now authorization s) as [out s'] eqn:E.
    cbn [fst] in Hnext. subst out.
    apply authenticateToken_next in E as (? & ? & ? & ? & _ & _ & Hup & _). congruence.
  - intros token decoded Hb Hv. by rewrite (Hrun token decoded Hb Hv).
Qed.

Lemma authenticateToken_store_down_witness :
  authenticateToken defaultEnv exampleVerify authDown 2000
    (Some "Bearer access.u1.sid-1") (store loggedInWorld)
  = (AuthStatus 401 "Invalid or expired session", store loggedInWorld).
Proof.
  destruct (authenticateToken_store_down defaultEnv exampleVerify authDown 2000
              (Some "Bearer access.u1.sid-1") (store loggedInWorld) eq_refl)
    as (Hs & _ & Hout).
  specialize (Hout "access.u1.sid-1" _ eq_refl eq_refl).
  destruct (authenticateToken _ _ _ _ _ _) as [out s'].
  cbn [fst snd] in *. by subst.
Defined.

Lemma login_session_record P env status now randomUUID req (w : World) r :
  0 < sessionService.sessionTimeout env →
  status AtCreateSession = true →
  fst (login P env status now randomUUID req w) = LoginJson r →
  ∃ d, store (snd (login P env status now randomUUID req w)) !! ("session:" +:+ randomUUID)
       = Some {| val := VSession d;
                 expiry := Some (now + Redis.seconds (sessionService.sessionTimeout env)) |}
       ∧ sd_userId d = pp_id (lr_user r).
Proof.
  intros Hpos Hc Hr.
  destruct (login_cases P env status now randomUUID req w)
    as [(e & He & _)|(user & r' & Hr' & _ & _ & _ & _ & Hid & _ & _ & s2 & s4 & _ & _ & H6)].
  - rewrite Hr in He. discriminate.
  - rewrite Hr in Hr'. injection Hr' as <-. rewrite Hid.
    destruct (H6 randomUUID) as [-> _].
    rewrite Hc, createSession_run by done.
    rewrite lookup_insert_ne by apply active_ne_session_sym.
    rewrite lookup_insert_eq. eexists. split; reflexivity.
Qed.

(** X6.  With the store ready and a positive session timeout, the access
    token a successful login answered with is let through by the
    middleware at every instant before the session timeout has run out at
    which [jwt.verify] still accepts that token and returns the user id and
    the session id it was signed with (the token is signed for 5 minutes
    unless configured, whatever the session timeout is): [req.user]
    carries the user id and the session id of the login. *)
Theorem authenticate_after_login (P : Platform) (env : Env)
    (verify : Z → string → VerifyAccess)
    (status : LoginSite → bool) (status' : AuthSite → bool) (now now' : Z)
    (randomUUID : string) (req : LoginRequest) (w : World) (r : LoginResponse)
    (authorization : option string) (decoded : AccessPayload) :
  0 < sessionService.sessionTimeout env →
  status AtCreateSession = true →
  fst (login P env status now randomUUID req w) = LoginJson r →
  bearerToken authorization = Some (lr_accessToken r) →
  verify now' (lr_accessToken r) = AccessVerified decoded →
  ap_userId decoded = pp_id (lr_user r) →
  ap_sessionId decoded = randomUUID →
  status' AtAuthGetSession = true →
  now' < now + Redis.seconds (sessionService.sessionTimeout env) →
  ∃ user,
    fst (authenticateToken env verify status' now' authorization
           (store (snd (login P env status now randomUUID req w)))) = AuthNext user
    ∧ ru_userId user = pp_id (lr_user r)
    ∧ ru_sessionId user = randomUUID.
Proof.
  intros Hpos Hc Hr Hb Hv Hdu Hds Hg Hlt.
  destruct (login_session_record P env status now randomUUID req w r Hpos Hc Hr)
    as (d & Hd & Hu).
  set (s := store (snd (login P env status now randomUUID req w))) in *.
  unfold authenticateToken. rewrite Hb, Hv, Hds, Hdu, Hg.
  assert (lookup_live now' ("session:" +:+ randomUUID) s
          = Some {| val := VSession d;
                    expiry := Some (now + Redis.seconds (sessionService.sessionTimeout env)) |})
    as Hlive.
  { unfold lookup_live. rewrite Hd. unfold live. cbn [expiry].
    by destruct (Z.ltb_spec now' (now + Redis.seconds (sessionService.sessionTimeout env)));
      [|lia]. }
  rewrite (getSession_live now' randomUUID s _ d Hlive eq_refl).
  assert (String.eqb (sd_userId d) (pp_id (lr_user r)) = true) as ->
    by (by apply String.eqb_eq).
  cbn [negb].
  destruct (sessionService.refreshSession env _ now' randomUUID false s) as [b s2].
  eexists. split; [reflexivity|]. by split.
Qed.

Lemma authenticate_after_login_witness :
  ∃ user,
    fst (authenticateToken defaultEnv exampleVerify alwaysReady 2000
           (Some "Bearer access.u1.sid-1") (store loggedInWorld)) = AuthNext user
    ∧ ru_userId user = "u1" ∧ ru_sessionId user = "sid-1".
Proof.
  destruct (fst (login examplePlatform defaultEnv alwaysReady 1000 "sid-1"
                   (exampleRequest "secret" "Chrome") freshWorld)) as [r|e] eqn:E;
    [|vm_compute in E; discriminate E].
  assert (pp_id (lr_user r) = "u1") as Hid
    by (vm_compute in E; injection E as <-; reflexivity).
  assert (lr_accessToken r = "access.u1.sid-1") as Htok
    by (vm_compute in E; injection E as <-; reflexivity).
  destruct (authenticate_after_login examplePlatform defaultEnv exampleVerify
              alwaysReady alwaysReady 1000 2000 "sid-1"
              (exampleRequest "secret" "Chrome") freshWorld r
              (Some "Bearer access.u1.sid-1")
              {| ap_userId := "u1"; ap_sessionId := "sid-1";
                 ap_email := "a@example.com" |})
    as (user & Hn & Hu & Hs);
    [reflexivity|reflexivity|exact E|by rewrite Htok|by rewrite Htok
    |by rewrite Hid|reflexivity|reflexivity|reflexivity|].
  exists user. rewrite Hid in Hu. by repeat split.
Defined.

(** The positive session timeout is needed in what follows: with
    SESSION_TIMEOUT set to -5 no login stores a session record or a
    pointer, so a record that the store holds under the first session id
    is not evicted by the second login, and the token of that session id
    still passes the middleware. *)
Example relogin_negative_timeout :
  let env := {| SESSION_TIMEOUT := Some (-5); SESSION_REFRESH_THROTTLE := None;
                REFRESH_TOKEN_EXPIRE := None; LOCKOUT_TIME := None |} in
  let w0 := {| store :=
                 <[ "session:sid-1" :=
                    {| val := VSession {| sd_userId := "u1"; sd_sessionId := "sid-1";
                                          sd_createdAt := 0; sd_email := "a@example.com";
                                          sd_firstName := "Ada"; sd_lastName := "Byron" |};
                       expiry := None |} ]> ∅;
               users := [exampleUser []] |} in
  let o1 := login examplePlatform env alwaysReady 1000 "sid-1"
              (exampleRequest "secret" "Chrome") w0 in
  let o2 := login examplePlatform env alwaysReady 2000 "sid-2"
              (exampleRequest "secret" "Firefox") (snd o1) in
  (∃ r1, fst o1 = LoginJson r1) ∧ (∃ r2, fst o2 = LoginJson r2)
  ∧ store (snd o2) !! "active_session:u1" = None
  ∧ fst (authenticateToken env exampleVerify alwaysReady 3000
           (Some "Bearer access.u1.sid-1") (store (snd o2)))
    = AuthNext {| ru_userId := "u1"; ru_sessionId := "sid-1"; ru_email := "a@example.com" |}.
Proof.
  intros env w0 o1 o2. split; [|split; [|split]].
  - eexists. vm_compute. reflexivity.
  - eexists. vm_compute. reflexivity.
  - vm_compute. reflexivity.
  - vm_compute. reflexivity.
Qed.

(** X7.  With the store ready where the second login evicts and a positive
    session timeout, after two
    successful logins in a row for the same user the access token of the
    first login (session id non-empty and different from the second) is
    turned away by the middleware with 401 "Invalid or expired session", at
    every instant at which it still verifies and whatever the store status
    is then. *)
Theorem old_token_rejected_after_relogin (P : Platform) (env : Env)
    (verify : Z → string → VerifyAccess)
    (st1 st2 : LoginSite → bool) (status' : AuthSite → bool) (now1 now2 now3 : Z)
    (sid1 sid2 : string) (req1 req2 : LoginRequest) (w0 : World)
    (r1 r2 : LoginResponse) (authorization : option string) (token : string)
    (decoded : AccessPayload) :
  let o1 := login P env st1 now1 sid1 req1 w0 in
  let o2 := login P env st2 now2 sid2 req2 (snd o1) in
  0 < sessionService.sessionTimeout env →
  st1 AtCreateSession = true →
  st2 AtDeleteAllUserSessions = true →
  sid1 ≠ "" → sid1 ≠ sid2 →
  fst o1 = LoginJson r1 → fst o2 = LoginJson r2 →
  pp_id (lr_user r1) = pp_id (lr_user r2) →
  bearerToken authorization = Some token →
  verify now3 token = AccessVerified decoded →
  ap_sessionId decoded = sid1 →
  authenticateToken env verify status' now3 authorization (store (snd o2))
  = (AuthStatus 401 "Invalid or expired session", store (snd o2)).
Proof.
  intros o1 o2 Hpos Hc1 Hd2 Hne Hfresh Hr1 Hr2 Hsame Hb Hv Hsid.
  assert (store (snd o2) !! ("session:" +:+ sid1) = None) as Hgone.
  { apply (login_evicts P env st2 now2 sid2 req2 (snd o1) r2 sid1); try done.
    rewrite <- Hsame. by apply login_sets_pointer. }
  unfold authenticateToken. rewrite Hb, Hv, Hsid.
  by rewrite (getSession_absent _ now3 sid1 _ (lookup_live_absent now3 _ _ Hgone)).
Qed.

Lemma old_token_rejected_after_relogin_witness :
  let o2 := login examplePlatform defaultEnv alwaysReady 2000 "sid-2"
              (exampleRequest "secret" "Firefox") loggedInWorld in
  fst (authenticateToken defaultEnv exampleVerify alwaysReady 3000
         (Some "Bearer access.u1.sid-1") (store (snd o2)))
  = AuthStatus 401 "Invalid or expired session".
Proof.
  intros o2. unfold loggedInWorld in o2.
  destruct (fst (login examplePlatform defaultEnv alwaysReady 1000 "sid-1"
                   (exampleRequest "secret" "Chrome") freshWorld)) as [r1|e1] eqn:E1;
    [|vm_compute in E1; discriminate E1].
  destruct (fst o2) as [r2|e2] eqn:E2; [|vm_compute in E2; discriminate E2].
  assert (pp_id (lr_user r1) = "u1") as H1
    by (vm_compute in E1; injection E1 as <-; reflexivity).
  assert (pp_id (lr_user r2) = "u1") as H2
    by (vm_compute in E2; injection E2 as <-; reflexivity).
  subst o2.
  rewrite (old_token_rejected_after_relogin examplePlatform defaultEnv exampleVerify
             alwaysReady alwaysReady alwaysReady 1000 2000 3000 "sid-1" "sid-2"
             (exampleRequest "secret" "Chrome") (exampleRequest "secret" "Firefox")
             freshWorld r1 r2 (Some "Bearer access.u1.sid-1") "access.u1.sid-1"
             {| ap_userId := "u1"; ap_sessionId := "sid-1"; ap_email := "a@example.com" |});
    [reflexivity|reflexivity|reflexivity|reflexivity|discriminate|discriminate|exact E1|exact E2
    |by rewrite H1, H2|reflexivity|reflexivity|reflexivity].
Defined.

Lemma authenticateToken_status env verify status now authorization (s : db) code message s' :
  authenticateToken env verify status now authorization s = (AuthStatus code message, s') →
  (code = 401 ∨ code = 500) ∧ s' = s.
Proof.
  unfold authenticateToken.
  destruct (bearerToken authorization) as [token|]; [|intros [= <- _ <-]; auto].
  destruct (verify now token) as [decoded|name].
  2: { destruct (String.eqb name "TokenExpiredError"); [intros [= <- _ <-]; auto|].
       destruct (String.eqb name "JsonWebTokenError"); intros [= <- _ <-]; auto. }
  pose proof (getSession_store (status AtAuthGetSession) now (ap_sessionId decoded) s) as Hst.
  destruct (sessionService.getSession _ now (ap_sessionId decoded) s) as [[d|] s1];
    cbn [snd] in Hst; subst s1; [|intros [= <- _ <-]; auto].
  destruct (negb _); [intros [= <- _ <-]; auto|].
  destruct (sessionService.refreshSession env _ now _ false s). discriminate.
Qed.

(** X8.  With the store ready and a positive session timeout, a logout that
    answers 200 came with a token that verifies for a live session, and it
    leaves a store without the record of that session and without the
    active-session pointer of its user; the users are untouched, and the
    same token presented again at that instant is turned away with 401
    "Invalid or expired session". *)
Theorem logout_route_ends_session (env : Env) (verify : Z → string → VerifyAccess)
    (status : AuthSite → bool) (now : Z) (authorization : option string) (w : World) :
  0 < sessionService.sessionTimeout env →
  fst (logout_route env verify status true now authorization w)
  = (200, "Logged out successfully") →
  let w' := snd (logout_route env verify status true now authorization w) in
  ∃ token decoded,
    bearerToken authorization = Some token
    ∧ verify now token = AccessVerified decoded
    ∧ store w' !! ("session:" +:+ ap_sessionId decoded) = None
    ∧ store w' !! ("active_session:" +:+ ap_userId decoded) = None
    ∧ users w' = users w
    ∧ ∀ status', authenticateToken env verify status' now authorization (store w')
                 = (AuthStatus 401 "Invalid or expired session", store w').
Proof.
  intros Hpos Hok w'. subst w'. unfold logout_route in *.
  destruct (authenticateToken env verify status now authorization (store w))
    as [[user|code message] s1] eqn:Ea.
  2: { apply authenticateToken_status in Ea as [[-> | ->] _]; cbn in Hok; congruence. }
  apply authenticateToken_next in Ea
    as (token & decoded & e & d & Hb & Hv & Hg & He & Hd & Hu & Hru & Hrs & Hs1).
  exists token, decoded. split; [exact Hb|]. split; [exact Hv|].
  cbn [snd]. rewrite Hru, Hrs.
  destruct (refreshSession_keeps_record env (status AtAuthRefreshSession) now
              (ap_sessionId decoded) false (store w) e Hpos He) as (x & Hx & Hxe).
  rewrite <- Hs1 in Hx.
  assert (lookup_live now ("session:" +:+ ap_sessionId decoded) s1
          = Some {| val := val e; expiry := x |}) as Hlive.
  { unfold lookup_live. rewrite Hx. unfold live. cbn [expiry].
    destruct Hxe as [-> | ->].
    - apply lookup_live_Some in He as [_ Hl]. unfold live in Hl. by rewrite Hl.
    - destruct (Z.ltb_spec now (now + Redis.seconds (sessionService.sessionTimeout env)));
        [done|]. unfold Redis.seconds in *. lia. }
  unfold logout. cbn [store users].
  assert (sessionService.deleteSession true now (ap_sessionId decoded) s1
          = (tt, delete ("active_session:" +:+ ap_userId decoded)
                   (delete ("session:" +:+ ap_sessionId decoded) s1))) as ->.
  { unfold sessionService.deleteSession, safeRedisOp, mbind, cmd_bind, Redis.bind,
      Redis.await.
    rewrite (getSession_live now (ap_sessionId decoded) s1 _ d Hlive Hd).
    unfold Redis.del. by rewrite Hu. }
  destruct (sessionService.deleteAllUserRefreshTokens true now (ap_userId decoded) _)
    as [[] s3] eqn:E3.
  cbn [store users with_store].
  assert (∀ k, (∀ t, k ≠ "refresh_token:" +:+ t) →
               k ≠ "user_refresh_tokens:" +:+ ap_userId decoded →
               s3 !! k = delete ("active_session:" +:+ ap_userId decoded)
                           (delete ("session:" +:+ ap_sessionId decoded) s1) !! k) as Hframe.
  { intros k H1 H2.
    pose proof (deleteAllUserRefreshTokens_frame true now (ap_userId decoded)
                  (delete ("active_session:" +:+ ap_userId decoded)
                     (delete ("session:" +:+ ap_sessionId decoded) s1)) k H1 H2) as Hf.
    by rewrite E3 in Hf. }
  assert (s3 !! ("session:" +:+ ap_sessionId decoded) = None) as Hgone.
  { rewrite Hframe by first [intros t; apply session_ne_token | apply session_ne_tokens].
    rewrite lookup_delete_ne by apply active_ne_session_sym. apply lookup_delete_eq. }
  split; [exact Hgone|]. split.
  { rewrite Hframe by first [intros t; apply active_ne_token | apply active_ne_tokens].
    apply lookup_delete_eq. }
  split; [reflexivity|].
  intros status'. unfold authenticateToken. rewrite Hb, Hv.
  by rewrite (getSession_absent _ now _ _ (lookup_live_absent now _ _ Hgone)).
Qed.

Lemma logout_route_ends_session_witness :
  let w' := snd (logout_route defaultEnv exampleVerify alwaysReady true 2000
                   (Some "Bearer access.u1.sid-1") loggedInWorld) in
  store w' !! "session:sid-1" = None ∧ store w' !! "active_session:u1" = None.
Proof.
  intros w'.
  destruct (logout_route_ends_session defaultEnv exampleVerify alwaysReady 2000
              (Some "Bearer access.u1.sid-1") loggedInWorld)
    as (token & decoded & Hb & Hv & Hs & Ha & _).
  - reflexivity.
  - vm_compute. reflexivity.
  - injection Hb as <-. vm_compute in Hv. injection Hv as <-.
    split; [exact Hs|exact Ha].
Defined.

(** ** Extending a session *)


(** X10.  With the store ready and positive session timeout and throttle
    window, a POST /extend-session for a live session with no live refresh
    marker answers 200 "Session extended successfully", gives the session
    record the session timeout from now on and writes the marker; the
    re-arming is done by the middleware, the handler's own refresh call is
    throttled by the marker the middleware has just written. *)
Theorem extend_session_rearms (env : Env) (verify : Z → string → VerifyAccess)
    (status : AuthSite → bool) (now : Z) (authorization : option string) (s : db)
    (token : string) (decoded : AccessPayload) (e : entry) (d : SessionData) :
  0 < sessionService.sessionTimeout env →
  0 < sessionService.throttleWindow env →
  (∀ site, status site = true) →
  bearerToken authorization = Some token →
  verify now token = AccessVerified decoded →
  lookup_live now ("session:" +:+ ap_sessionId decoded) s = Some e →
  val e = VSession d →
  sd_userId d = ap_userId decoded →
  lookup_live now ("session_refresh:" +:+ ap_sessionId decoded) s = None →
  let out := extend_session env verify status true now authorization s in
  fst out = (200, "Session extended successfully")
  ∧ snd out = snd (authenticateToken env verify status now authorization s)
  ∧ snd out !! ("session:" +:+ ap_sessionId decoded)
    = Some {| val := val e;
              expiry := Some (now + Redis.seconds (sessionService.sessionTimeout env)) |}
  ∧ snd out !! ("session_refresh:" +:+ ap_sessionId decoded)
    = Some {| val := VNum now;
              expiry := Some (now + Redis.seconds (sessionService.throttleWindow env)) |}.
Proof.
  intros HT HW Hready Hb Hv He Hd Hu Hm out. subst out.
  pose proof (refreshSession_rearm env now (ap_sessionId decoded) s HW (or_introl Hm))
    as Hre.
  unfold extend_session, authenticateToken. rewrite Hb, Hv, !Hready.
  rewrite (getSession_live now _ s e d He Hd).
  assert (String.eqb (sd_userId d) (ap_userId decoded) = true) as ->
    by (by apply String.eqb_eq).
  cbn [negb]. rewrite Hre. cbn [ru_sessionId].
  set (s1 := Redis.expire_at now ("session:" +:+ ap_sessionId decoded)
               (sessionService.sessionTimeout env) _).
  assert (s1 !! ("session_refresh:" +:+ ap_sessionId decoded)
          = Some {| val := VNum now;
                    expiry := Some (now + Redis.seconds (sessionService.throttleWindow env)) |})
    as Hmark.
  { unfold s1. rewrite expire_at_lookup_ne by apply session_ne_mark.
    apply lookup_insert_eq. }
  assert (sessionService.refreshSession env true now (ap_sessionId decoded) false s1
          = (true, s1)) as ->.
  { apply (refreshSession_throttled env now (ap_sessionId decoded) s1
             {| val := VNum now;
                expiry := Some (now + Redis.seconds (sessionService.throttleWindow env)) |}
             now); [|reflexivity|].
    - unfold lookup_live. rewrite Hmark. unfold live. cbn [expiry].
      destruct (Z.ltb_spec now (now + Redis.seconds (sessionService.throttleWindow env)));
        [reflexivity|]. unfold Redis.seconds in *. lia.
    - lia. }
  cbn [fst snd]. split; [reflexivity|]. split; [reflexivity|]. split; [|exact Hmark].
  unfold s1. apply expire_at_lookup; [exact HT|].
  by rewrite lookup_live_insert_ne by apply mark_ne_session.
Qed.


Lemma extend_session_rearms_witness :
  let out := extend_session defaultEnv exampleVerify alwaysReady true 90000
               (Some "Bearer access.u1.sid-1") markedStore in
  fst out = (200, "Session extended successfully")
  ∧ expiry <$> snd out !! "session:sid-1" = Some (Some 390000)
  ∧ snd out !! "session_refresh:sid-1"
    = Some {| val := VNum 90000; expiry := Some 120000 |}.
Proof.
  intros out.
  destruct (extend_session_rearms defaultEnv exampleVerify alwaysReady 90000
              (Some "Bearer access.u1.sid-1") markedStore "access.u1.sid-1"
              {| ap_userId := "u1"; ap_sessionId := "sid-1"; ap_email := "a@example.com" |}
              {| val := VSession {| sd_userId := "u1"; sd_sessionId := "sid-1";
                                    sd_createdAt := 1000; sd_email := "a@example.com";
                                    sd_firstName := "Ada"; sd_lastName := "Byron" |};
                 expiry := Some 301000 |}
              {| sd_userId := "u1"; sd_sessionId := "sid-1"; sd_createdAt := 1000;
                 sd_email := "a@example.com"; sd_firstName := "Ada"; sd_lastName := "Byron" |})
    as (Hout & _ & Hs & Hm);
    [reflexivity|reflexivity|reflexivity|reflexivity|reflexivity|vm_compute; reflexivity
    |reflexivity|reflexivity|vm_compute; reflexivity|].
  fold out in Hout, Hs, Hm. split; [exact Hout|]. split; [|exact Hm].
  cbn [ap_sessionId] in Hs. change ("session:" +:+ "sid-1") with "session:sid-1" in Hs.
  by rewrite Hs.
Defined.

(** ** Exchanging a refresh token *)

Lemma token_ne_mark a b : "refresh_token:" +:+ a ≠ "session_refresh:" +:+ b.
Proof. key_discr. Qed.

Lemma token_ne_session a b : "refresh_token:" +:+ a ≠ "session:" +:+ b.
Proof. key_discr. Qed.



(** ** The failed-attempt counter and the lock over time *)

Lemma failed_ne_token a b : "failed_attempts:" +:+ a ≠ "refresh_token:" +:+ b.
Proof. key_discr. Qed.

Lemma failed_ne_tokens a b : "failed_attempts:" +:+ a ≠ "user_refresh_tokens:" +:+ b.
Proof. key_discr. Qed.

Lemma failed_ne_session a b : "failed_attempts:" +:+ a ≠ "session:" +:+ b.
Proof. key_discr. Qed.

Lemma failed_ne_active a b : "failed_attempts:" +:+ a ≠ "active_session:" +:+ b.
Proof. key_discr. Qed.

Lemma lock_ne_failed a b : "account_lock:" +:+ a ≠ "failed_attempts:" +:+ b.
Proof. key_discr. Qed.

Lemma getFailedAttempts_absent ready now identifier (s : db) :
  lookup_live now ("failed_attempts:" +:+ identifier) s = None →
  fst (failedAttemptsService.getFailedAttempts ready now identifier s) = 0.
Proof.
  intros H. unfold failedAttemptsService.getFailedAttempts. redis_unfold.
  destruct ready; [|done]. by rewrite H.
Qed.

(** X12.  A login that succeeds while the store is reachable at the clearing
    step leaves no failed-attempt counter for its identifier: the count
    read afterwards is 0 at every instant. *)
Theorem login_clears_counter (P : Platform) (env : Env) (status : LoginSite → bool)
    (now : Z) (randomUUID : string) (req : LoginRequest) (w : World) (r : LoginResponse) :
  status AtClearFailedAttempts = true →
  fst (login P env status now randomUUID req w) = LoginJson r →
  let identifier := req_email req +:+ ":" +:+ req_ip req in
  let s' := store (snd (login P env status now randomUUID req w)) in
  s' !! ("failed_attempts:" +:+ identifier) = None
  ∧ ∀ ready now', fst (failedAttemptsService.getFailedAttempts ready now' identifier s') = 0.
Proof.
  intros Hclear Hr identifier s'.
  assert (s' !! ("failed_attempts:" +:+ identifier) = None) as Hgone.
  { destruct (login_cases P env status now randomUUID req w)
      as [(e & He & _)|(user & r' & _ & Hl & Hf & Hc & Ha & _)].
    { rewrite Hr in He. discriminate. }
    destruct (login_success_store P env status now randomUUID req w user Hl Hf Hc Ha)
      as (r0 & _ & _ & _ & Hstore).
    subst s'. rewrite Hstore. fold identifier.
    rewrite storeRefreshToken_frame by first [apply failed_ne_token | apply failed_ne_tokens].
    assert (∀ s0 : db, s0 !! ("failed_attempts:" +:+ identifier) = None →
              snd (sessionService.createSession env (status AtCreateSession) now (u_id user)
                     randomUUID
                     {| ud_email := u_email user; ud_firstName := u_firstName user;
                        ud_lastName := u_lastName user |} s0)
              !! ("failed_attempts:" +:+ identifier) = None) as Hcreate.
    { intros s0 H0.
      by rewrite createSession_frame by first [apply failed_ne_session | apply failed_ne_active]. }
    apply Hcreate.
    match goal with
    | |- snd (sessionService.deleteAllUserRefreshTokens ?a ?b ?c ?s3) !! ?k = None =>
        destruct (deleteAllUserRefreshTokens_shrinks a b c s3 k) as [H|H];
          [exact H|rewrite H]
    end.
    match goal with
    | |- snd (sessionService.deleteAllUserSessions ?a ?b ?c ?s2) !! ?k = None =>
        destruct (proj1 (deleteAllUserSessions_shrinks a b c s2) k) as [H'|H'];
          [exact H'|rewrite H']
    end.
    rewrite Hclear. unfold failedAttemptsService.clearFailedAttempts. redis_unfold.
    cbn [snd]. apply lookup_delete_eq. }
  split; [exact Hgone|]. intros ready now'.
  apply getFailedAttempts_absent. by apply lookup_live_absent.
Qed.

Lemma login_clears_counter_witness :
  let run := attempts examplePlatform defaultEnv 3 1000
               (exampleRequest "wrong" "Chrome") freshWorld in
  fst (failedAttemptsService.getFailedAttempts true 4000 "a@example.com:1.2.3.4"
         (store (snd run))) = 3
  ∧ fst (failedAttemptsService.getFailedAttempts true 4000 "a@example.com:1.2.3.4"
           (store (snd (login examplePlatform defaultEnv alwaysReady 4000 "sid-1"
                          (exampleRequest "secret" "Chrome") (snd run))))) = 0.
Proof.
  intros run. split; [vm_compute; reflexivity|].
  destruct (fst (login examplePlatform defaultEnv alwaysReady 4000 "sid-1"
                   (exampleRequest "secret" "Chrome") (snd run))) as [r|e] eqn:E;
    [|vm_compute in E; discriminate E].
  exact (proj2 (login_clears_counter examplePlatform defaultEnv alwaysReady 4000 "sid-1"
                  (exampleRequest "secret" "Chrome") (snd run) r eq_refl E) true 4000).
Defined.

(** X13.  A login with the right password on a deactivated account is turned
    away with the authentication error "Account is deactivated. Please
    contact support." and changes nothing: no counter is incremented, no
    session or token is touched and the user is not saved. *)
Theorem login_inactive_account (P : Platform) (env : Env) (status : LoginSite → bool)
    (now : Z) (randomUUID : string) (req : LoginRequest) (w : World) (user : User) :
  fst (failedAttemptsService.isAccountLocked (status AtIsAccountLocked) now
         (req_email req +:+ ":" +:+ req_ip req) (store w)) = false →
  UserModel.findByEmail P (req_email req) (users w) = Some user →
  UserModel.comparePassword P user (req_password req) = true →
  u_isActive user = false →
  login P env status now randomUUID req w
  = (LoginThrows (AuthenticationError "Account is deactivated. Please contact support."), w).
Proof.
  intros Hl Hf Hc Ha. unfold login. cbv zeta.
  pose proof (isAccountLocked_store (status AtIsAccountLocked) now
                (req_email req +:+ ":" +:+ req_ip req) (store w)) as H1.
  destruct (failedAttemptsService.isAccountLocked _ now _ (store w)) as [isLocked s1].
  cbn [fst snd] in *. subst. rewrite Hf, Hc, Ha. cbn [negb]. by destruct w.
Qed.

Lemma login_inactive_account_witness :
  login examplePlatform defaultEnv alwaysReady 1000 "sid-1"
    (exampleRequest "secret" "Chrome") inactiveWorld
  = (LoginThrows (AuthenticationError "Account is deactivated. Please contact support."),
     inactiveWorld).
Proof.
  eapply (login_inactive_account examplePlatform defaultEnv alwaysReady 1000 "sid-1"
            (exampleRequest "secret" "Chrome") inactiveWorld); reflexivity.
Defined.

(** What a login with a wrong password leaves under the counter key and
    the lock key. *)
Lemma login_wrong_password_keys P env status now randomUUID req (w : World) user n :
  let identifier := req_email req +:+ ":" +:+ req_ip req in
  let s' := store (snd (login P env status now randomUUID req w)) in
  0 < failedAttemptsService.lockoutTime env →
  (∀ site, status site = true) →
  fst (failedAttemptsService.isAccountLocked true now identifier (store w)) = false →
  UserModel.findByEmail P (req_email req) (users w) = Some user →
  UserModel.comparePassword P user (req_password req) = false →
  (lookup_live now ("failed_attempts:" +:+ identifier) (store w) = None ∧ n = 0)
  ∨ (∃ e, lookup_live now ("failed_attempts:" +:+ identifier) (store w) = Some e
          ∧ val e = VNum n) →
  s' !! ("failed_attempts:" +:+ identifier)
  = Some {| val := VNum (n + 1);
            expiry := Some (now + Redis.seconds (failedAttemptsService.lockoutTime env)) |}
  ∧ (5 ≤ n + 1 →
     s' !! ("account_lock:" +:+ identifier)
     = Some {| val := VStr "locked";
               expiry := Some (now + Redis.seconds (failedAttemptsService.lockoutTime env)) |})
  ∧ (n + 1 < 5 →
     s' !! ("account_lock:" +:+ identifier) = store w !! ("account_lock:" +:+ identifier)).
Proof.
  intros identifier s' Hpos Hready Hl Hf Hc Hn. subst s'.
  unfold login. cbv zeta. fold identifier. rewrite !Hready.
  pose proof (isAccountLocked_store true now identifier (store w)) as H1.
  destruct (failedAttemptsService.isAccountLocked true now identifier (store w))
    as [isLocked s1].
  cbn [fst snd] in *. subst s1 isLocked.
  rewrite Hf, Hc. cbn [negb].
  assert (∃ s2, failedAttemptsService.incrementFailedAttempts env true now identifier (store w)
                = (n + 1, s2)
                ∧ s2 !! ("failed_attempts:" +:+ identifier)
                  = Some {| val := VNum (n + 1);
                            expiry := Some (now + Redis.seconds
                                              (failedAttemptsService.lockoutTime env)) |}
                ∧ s2 !! ("account_lock:" +:+ identifier)
                  = store w !! ("account_lock:" +:+ identifier))
    as (s2 & -> & Hcount & Hlock).
  { destruct Hn as [[Hnone ->]|(e & He & Hv)].
    - rewrite (incrementFailedAttempts_first env now identifier _ Hnone).
      eexists. split; [reflexivity|]. split.
      + apply (expire_at_lookup now _ _ _ {| val := VNum 1; expiry := None |}); [done|].
        by rewrite lookup_live_insert_eq.
      + rewrite expire_at_lookup_ne by apply failed_ne_lock.
        by rewrite lookup_insert_ne by apply failed_ne_lock.
    - rewrite (incrementFailedAttempts_next env now identifier _ e n He Hv).
      eexists. split; [reflexivity|]. split.
      + apply (expire_at_lookup now _ _ _ {| val := VNum (n + 1); expiry := expiry e |});
          [done|].
        rewrite lookup_live_insert_eq.
        apply lookup_live_Some in He as [_ Hlive]. unfold live in *. cbn [expiry].
        by rewrite Hlive.
      + rewrite expire_at_lookup_ne by apply failed_ne_lock.
        by rewrite lookup_insert_ne by apply failed_ne_lock. }
  destruct (Z.leb_spec 5 (n + 1)) as [Hge|Hlt].
  - unfold failedAttemptsService.lockAccount. redis_unfold.
    rewrite ltb_pos by done. cbn [snd store with_store].
    split; [|split; [|lia]].
    + by rewrite lookup_insert_ne by apply lock_ne_failed.
    + intros _. apply lookup_insert_eq.
  - cbn [snd store with_store]. split; [exact Hcount|]. split; [lia|by intros _].
Qed.

(** X14.  With the store ready and a positive lockout time, after the wrong
    password that takes the counter to 5 or more, every login for the same
    email and IP address before the lockout time has run out is turned away
    with the lockout error, whatever its password, and changes nothing. *)
Theorem locked_out_for_window (P : Platform) (env : Env)
    (status status' : LoginSite → bool) (now now' : Z) (randomUUID randomUUID' : string)
    (req req' : LoginRequest) (w : World) (user : User) (n : Z) :
  let identifier := req_email req +:+ ":" +:+ req_ip req in
  let w1 := snd (login P env status now randomUUID req w) in
  0 < failedAttemptsService.lockoutTime env →
  (∀ site, status site = true) →
  fst (failedAttemptsService.isAccountLocked true now identifier (store w)) = false →
  UserModel.findByEmail P (req_email req) (users w) = Some user →
  UserModel.comparePassword P user (req_password req) = false →
  (∃ e, lookup_live now ("failed_attempts:" +:+ identifier) (store w) = Some e
        ∧ val e = VNum n) →
  4 ≤ n →
  req_email req' = req_email req → req_ip req' = req_ip req →
  status' AtIsAccountLocked = true →
  now' < now + Redis.seconds (failedAttemptsService.lockoutTime env) →
  login P env status' now' randomUUID' req' w1
  = (LoginThrows (TooManyRequestsError
       "Account temporarily locked due to multiple failed attempts. Please try again later."),
     w1).
Proof.
  intros identifier w1 Hpos Hready Hl Hf Hc Hn Hge He Hi Hs' Hlt.
  destruct (login_wrong_password_keys P env status now randomUUID req w user n
              Hpos Hready Hl Hf Hc (or_intror Hn)) as (_ & Hlock & _).
  specialize (Hlock ltac:(lia)). fold identifier w1 in Hlock.
  apply login_locked. rewrite He, Hi, Hs'. fold identifier.
  unfold failedAttemptsService.isAccountLocked. redis_unfold.
  unfold lookup_live. rewrite Hlock. unfold live. cbn [expiry val].
  by destruct (Z.ltb_spec now' (now + Redis.seconds (failedAttemptsService.lockoutTime env)));
    [|lia].
Qed.

Lemma locked_out_for_window_witness :
  let w1 := snd (login examplePlatform defaultEnv alwaysReady 5000 "sid"
                   (exampleRequest "wrong" "Chrome") fourFailuresWorld) in
  login examplePlatform defaultEnv alwaysReady 904999 "sid-1"
    (exampleRequest "secret" "Firefox") w1
  = (LoginThrows (TooManyRequestsError
       "Account temporarily locked due to multiple failed attempts. Please try again later."),
     w1).
Proof.
  intros w1.
  apply (locked_out_for_window examplePlatform defaultEnv alwaysReady alwaysReady
           5000 904999 "sid" "sid-1" (exampleRequest "wrong" "Chrome")
           (exampleRequest "secret" "Firefox") fourFailuresWorld (exampleUser []) 4);
    [reflexivity|reflexivity|vm_compute; reflexivity|reflexivity|reflexivity
    | |reflexivity|reflexivity|reflexivity|reflexivity|reflexivity].
  exists {| val := VNum 4; expiry := Some 904000 |}.
  split; [vm_compute; reflexivity|reflexivity].
Defined.



(** * Further properties of the device list *)

Lemma updateDeviceInfo_devices P now info (u : User) :
  let id := UserModel.generateDeviceId P info in
  let p := fun d : Device => String.eqb (deviceId d) id in
  devices (snd (UserModel.updateDeviceInfo P now info u))
  = match findIndex p (devices u) with
    | Some i =>
        match devices u !! i with
        | Some existingDevice =>
            <[ i := {| deviceId := deviceId existingDevice;
                       browser := browser existingDevice;
                       os := os existingDevice;
                       device := device existingDevice;
                       ip := di_ip info;
                       userAgent := userAgent existingDevice;
                       deviceToken := or_string (di_deviceToken info)
                                        (deviceToken existingDevice);
                       firstSeen := firstSeen existingDevice;
                       lastSeen := now;
                       loginCount := loginCount existingDevice + 1;
                       isActive := true |} ]> (devices u)
        | None => devices u
        end
    | None =>
        let pushed :=
          devices u ++ [ {| deviceId := id; browser := di_browser info; os := di_os info;
                            device := di_device info; ip := di_ip info;
                            userAgent := di_userAgent info;
                            deviceToken := di_deviceToken info; firstSeen := now;
                            lastSeen := now; loginCount := 1; isActive := true |} ] in
        if (10 <? length pushed)%nat then slice0 10 (js_sort byLastSeenDesc pushed)
        else pushed
    end.
Proof. reflexivity. Qed.

Lemma updateDeviceInfo_NoDup (P : Platform) (now : Z) (info : DeviceInfo) (u : User) :
  NoDup (map deviceId (devices u)) →
  NoDup (map deviceId (devices (snd (UserModel.updateDeviceInfo P now info u)))).
Proof.
  intros Hnd. rewrite updateDeviceInfo_devices. cbv zeta.
  set (id := UserModel.generateDeviceId P info).
  set (p := fun d : Device => String.eqb (deviceId d) id).
  destruct (findIndex p (devices u)) as [i|] eqn:Ei.
  - destruct (devices u !! i) as [x|] eqn:Ex; [|exact Hnd].
    change (map deviceId ?l) with (deviceId <$> l).
    rewrite list_fmap_insert. cbn [deviceId].
    rewrite list_insert_id; [exact Hnd|].
    by rewrite list_lookup_fmap, Ex.
  - set (new := {| deviceId := id; browser := _ |}).
    assert (NoDup (map deviceId (devices u ++ [new]))) as Hpushed.
    { rewrite map_app. apply NoDup_app. split; [exact Hnd|]. split.
      - intros x Hx Hin. apply list_elem_of_singleton in Hin. subst x.
        apply (list_elem_of_fmap deviceId) in Hx as (d & Hd & Hin).
        apply findIndex_None in Ei. rewrite Forall_forall in Ei.
        specialize (Ei d Hin). unfold p in Ei. apply String.eqb_neq in Ei.
        cbn [deviceId new] in Hd. congruence.
      - apply NoDup_singleton. }
    destruct (10 <? length (devices u ++ [new]))%nat; [|exact Hpushed].
    unfold slice0. change (map deviceId ?l) with (deviceId <$> l).
    rewrite fmap_take.
    apply (sublist_NoDup _ (deviceId <$> js_sort byLastSeenDesc (devices u ++ [new])));
      [|apply sublist_take].
    change (deviceId <$> ?l) with (map deviceId l).
    assert (map deviceId (js_sort byLastSeenDesc (devices u ++ [new]))
            ≡ₚ map deviceId (devices u ++ [new])) as Hperm
      by apply Permutation_map, js_sort_perm.
    by rewrite Hperm.
Qed.

(** X16.  [updateDeviceInfo] keeps the device ids of the list pairwise
    distinct: if no two entries share a device id before the call, no two
    share one after it, whether the login comes from a known device, adds
    a new one, or adds one and drops the oldest. *)
Theorem updateDeviceInfo_unique_ids (P : Platform) (now : Z) (info : DeviceInfo) (u : User) :
  NoDup (map deviceId (devices u)) →
  NoDup (map deviceId (devices (snd (UserModel.updateDeviceInfo P now info u)))).
Proof. exact (updateDeviceInfo_NoDup P now info u). Qed.

Lemma updateDeviceInfo_unique_ids_witness :
  NoDup (map deviceId
           (devices (snd (UserModel.updateDeviceInfo examplePlatform 1000
                            (exampleInfo "Firefox") (exampleUser tenDevices))))).
Proof.
  apply updateDeviceInfo_unique_ids.
  vm_compute. repeat (constructor; [rewrite list_elem_of_In; simpl; intuition congruence|]).
  constructor.
Defined.

Lemma findIndex_unique (id : string) (l : list Device) (i : nat) (d : Device) :
  NoDup (map deviceId l) → l !! i = Some d → deviceId d = id →
  findIndex (fun x => String.eqb (deviceId x) id) l = Some i.
Proof.
  intros Hnd Hi Hd.
  destruct (findIndex_exists (fun x => String.eqb (deviceId x) id) l d) as [j Hj].
  { apply list_elem_of_lookup. eauto. }
  { by apply String.eqb_eq. }
  rewrite Hj. f_equal.
  destruct (findIndex_Some _ _ _ Hj) as (x & Hx & Hp). apply String.eqb_eq in Hp.
  apply (NoDup_lookup (map deviceId l) j i id Hnd).
  - change (map deviceId l) with (deviceId <$> l). by rewrite list_lookup_fmap, Hx, <- Hp.
  - change (map deviceId l) with (deviceId <$> l). by rewrite list_lookup_fmap, Hi, <- Hd.
Qed.

(** X17.  When the fingerprint of the login is the device id of an entry of
    a list with pairwise distinct ids, [updateDeviceInfo] changes that entry
    and nothing else: the list keeps its length, every other position keeps
    its entry, and the entry gets the instant of the login as [lastSeen],
    one more in [loginCount], the IP address of the login, [isActive] set,
    and keeps its id, [firstSeen], browser, OS, device and user agent; its
    push token is replaced only by a non-empty one. *)
Theorem updateDeviceInfo_known_device (P : Platform) (now : Z) (info : DeviceInfo)
    (u : User) (i : nat) (d : Device) :
  NoDup (map deviceId (devices u)) →
  devices u !! i = Some d →
  deviceId d = UserModel.generateDeviceId P info →
  let ds' := devices (snd (UserModel.updateDeviceInfo P now info u)) in
  length ds' = length (devices u)
  ∧ (∀ j, j ≠ i → ds' !! j = devices u !! j)
  ∧ ds' !! i
    = Some {| deviceId := deviceId d; browser := browser d; os := os d; device := device d;
              ip := di_ip info; userAgent := userAgent d;
              deviceToken := or_string (di_deviceToken info) (deviceToken d);
              firstSeen := firstSeen d; lastSeen := now;
              loginCount := loginCount d + 1; isActive := true |}.
Proof.
  intros Hnd Hi Hd ds'. subst ds'. rewrite updateDeviceInfo_devices. cbv zeta.
  rewrite (findIndex_unique _ _ i d Hnd Hi Hd), Hi.
  split; [apply length_insert|]. split.
  - intros j Hj. by apply list_lookup_insert_ne.
  - apply list_lookup_insert_eq. by eapply lookup_lt_Some.
Qed.

Lemma updateDeviceInfo_known_device_witness :
  let u := exampleUser [exampleDevice "md5:Firefox-Linux-desktop-Unknown" 100 false;
                        exampleDevice "dev-b" 200 true] in
  let ds' := devices (snd (UserModel.updateDeviceInfo examplePlatform 1000
                             (exampleInfo "Firefox") u)) in
  length ds' = 2%nat
  ∧ (lastSeen <$> ds' !! 0%nat) = Some 1000
  ∧ (loginCount <$> ds' !! 0%nat) = Some 2
  ∧ ds' !! 1%nat = Some (exampleDevice "dev-b" 200 true).
Proof.
  intros u ds'.
  destruct (updateDeviceInfo_known_device examplePlatform 1000 (exampleInfo "Firefox") u 0
              (exampleDevice "md5:Firefox-Linux-desktop-Unknown" 100 false))
    as (Hlen & Hother & Hthis).
  - vm_compute. repeat (constructor; [rewrite list_elem_of_In; simpl; intuition congruence|]).
    constructor.
  - reflexivity.
  - reflexivity.
  - fold ds' in Hlen, Hother, Hthis. split; [exact Hlen|].
    rewrite Hthis. split; [reflexivity|]. split; [reflexivity|].
    by rewrite (Hother 1%nat).
Defined.

(** ** The device history *)

Lemma js_sort_sorted (l : list Device) :
  StronglySorted newer_first l → js_sort byLastSeenDesc l = l.
Proof.
  induction 1 as [|x t Hs IH Hx]; [reflexivity|].
  unfold js_sort in *. simpl. rewrite IH.
  destruct t as [|y t']; [reflexivity|]. simpl.
  apply Forall_inv in Hx. unfold newer_first in Hx. unfold byLastSeenDesc.
  by destruct (Z.leb_spec (lastSeen y - lastSeen x) 0); [|lia].
Qed.

(** X18.  [getDeviceHistory] returns the devices of the user, each as often
    as it is in the list, ordered most recently seen first; it leaves the
    list of the document in that order, so a second call returns the same
    history. *)
Theorem getDeviceHistory_sorted (u : User) :
  let '(history, u') := UserModel.getDeviceHistory u in
  history ≡ₚ devices u
  ∧ StronglySorted newer_first history
  ∧ devices u' = history
  ∧ UserModel.getDeviceHistory u' = (history, u').
Proof.
  unfold UserModel.getDeviceHistory.
  split; [apply js_sort_perm|]. split; [apply js_sort_newer_first|].
  split; [reflexivity|].
  cbn [devices set_devices].
  rewrite (js_sort_sorted _ (js_sort_newer_first (devices u))). reflexivity.
Qed.

(** ** Reading the token off the Authorization header *)

Lemma split_space_no_space (s : string) :
  no_space s = true → split_space s = [s].
Proof.
  induction s as [|c rest IH]; [reflexivity|]. simpl.
  intros H. apply andb_true_iff in H as [Hc Hrest].
  apply negb_true_iff in Hc. rewrite Hc, (IH Hrest). reflexivity.
Qed.

Lemma split_space_scheme (scheme rest : string) :
  no_space scheme = true →
  split_space (scheme +:+ " " +:+ rest) = scheme :: split_space rest.
Proof.
  induction scheme as [|c scheme IH]; [reflexivity|]. simpl.
  intros H. apply andb_true_iff in H as [Hc Hrest].
  apply negb_true_iff in Hc. rewrite Hc. fold String.append.
  by rewrite (IH Hrest).
Qed.

(** X19.  The middleware takes as token what stands between the first and
    the second space of the Authorization header, whatever the scheme in
    front of it is: for a scheme and a non-empty token without spaces the
    header "scheme token" yields the token; a header without a space
    yields none, and the request is answered 401 "Access token
    required". *)
Theorem bearerToken_any_scheme (scheme token : string) :
  no_space scheme = true → no_space token = true → token ≠ "" →
  bearerToken (Some (scheme +:+ " " +:+ token)) = Some token
  ∧ bearerToken (Some token) = None
  ∧ ∀ env verify status now s,
      authenticateToken env verify status now (Some token) s
      = (AuthStatus 401 "Access token required", s).
Proof.
  intros Hs Ht Hne.
  assert (bearerToken (Some token) = None) as Hnone.
  { unfold bearerToken. destruct (String.eqb token ""); [reflexivity|].
    by rewrite (split_space_no_space token Ht). }
  split; [|split; [exact Hnone|]].
  - unfold bearerToken.
    assert (String.eqb (scheme +:+ " " +:+ token) "" = false) as ->.
    { apply String.eqb_neq. destruct scheme; discriminate. }
    rewrite (split_space_scheme scheme token Hs), (split_space_no_space token Ht).
    cbn [lookup list_lookup]. simpl.
    by apply String.eqb_neq in Hne as ->.
  - intros env verify status now s. unfold authenticateToken. by rewrite Hnone.
Qed.

Lemma bearerToken_any_scheme_witness :
  bearerToken (Some "Basic abc.def") = Some "abc.def"
  ∧ bearerToken (Some "abc.def") = None.
Proof.
  destruct (bearerToken_any_scheme "Basic" "abc.def") as (H1 & H2 & _);
    [reflexivity|reflexivity|discriminate|].
  split; [exact H1|exact H2].
Defined.

(** The bound of the device list, for use by other proofs. *)
Lemma updateDeviceInfo_length_le P now info (u : User) :
  (length (devices u) ≤ 10)%nat →
  (length (devices (snd (UserModel.updateDeviceInfo P now info u))) ≤ 10)%nat.
Proof.
  intros Hlen. rewrite updateDeviceInfo_devices. cbv zeta.
  destruct (findIndex _ (devices u)) as [i|].
  - destruct (devices u !! i); [by rewrite length_insert|done].
  - match goal with |- context [devices u ++ [?n]] => set (new := n) end.
    destruct (Nat.ltb_spec 10 (length (devices u ++ [new]))) as [Hgt|Hle]; [|exact Hle].
    unfold slice0. rewrite length_take. lia.
Qed.

(** ** The device list across a login *)

(** The document a login saves when the credentials verify. *)
Lemma login_success_users P env status now randomUUID req (w : World) user :
  fst (failedAttemptsService.isAccountLocked (status AtIsAccountLocked) now
         (req_email req +:+ ":" +:+ req_ip req) (store w)) = false →
  UserModel.findByEmail P (req_email req) (users w) = Some user →
  UserModel.comparePassword P user (req_password req) = true →
  u_isActive user = true →
  let info := buildDeviceInfo P req in
  let current := UserModel.generateDeviceId P info in
  let others_off :=
    map (fun d => if negb (String.eqb (deviceId d) current) then set_isActive d false else d)
        (devices user) in
  let saved :=
    snd (UserModel.updateDeviceInfo P now info
           (set_lastLogin (set_devices user others_off) now)) in
  users (snd (login P env status now randomUUID req w)) = UserModel.save saved (users w)
  ∧ ∃ r, fst (login P env status now randomUUID req w) = LoginJson r
         ∧ ds_deviceId (lr_deviceInfo r) = current
         ∧ ds_totalDevices (lr_deviceInfo r) = length (devices saved).
Proof.
  intros Hl Hf Hc Ha info current others_off saved.
  subst saved others_off current info.
  unfold login. cbv zeta.
  pose proof (isAccountLocked_store (status AtIsAccountLocked) now
                (req_email req +:+ ":" +:+ req_ip req) (store w)) as H1.
  destruct (failedAttemptsService.isAccountLocked _ now _ (store w)) as [isLocked s1].
  cbn [fst snd] in *. subst s1 isLocked.
  rewrite Hf, Hc, Ha. cbn [negb].
  destruct (failedAttemptsService.clearFailedAttempts _ _ (store w)) as [[] s2].
  destruct (sessionService.deleteAllUserSessions _ now _ s2) as [[] s3].
  destruct (sessionService.deleteAllUserRefreshTokens _ now _ s3) as [[] s4].
  destruct (sessionService.createSession env _ now _ randomUUID _ s4) as [cr s5].
  destruct (sessionService.storeRefreshToken env _ now _ _ randomUUID s5) as [[] s6].
  destruct (UserModel.updateDeviceInfo P now _ _) as [updatedDeviceId user3] eqn:E7.
  cbn [fst snd users]. split; [reflexivity|].
  eexists. split; [reflexivity|]. cbn [lr_deviceInfo ds_deviceId ds_totalDevices].
  split; [|reflexivity].
  unfold UserModel.updateDeviceInfo in E7. by injection E7 as <- _.
Qed.

Lemma save_lookup (saved v : User) (us : list User) :
  v ∈ UserModel.save saved us → u_id v = u_id saved → v = saved.
Proof.
  unfold UserModel.save. intros Hin Hid.
  apply list_elem_of_fmap in Hin as (x & -> & _).
  destruct (String.eqb (u_id x) (u_id saved)) eqn:E; [reflexivity|].
  apply String.eqb_neq in E. congruence.
Qed.

(** X20.  After a login whose credentials verify, every stored document
    with the id of the user has, in its device list, no active device but
    the one with the fingerprint of this login; if the list had at most 10
    entries with pairwise distinct ids before, it has so after, and the
    answer reports that fingerprint and the length of that list. *)
Theorem login_single_active_device (P : Platform) (env : Env) (status : LoginSite → bool)
    (now : Z) (randomUUID : string) (req : LoginRequest) (w : World) (user v : User) :
  fst (failedAttemptsService.isAccountLocked (status AtIsAccountLocked) now
         (req_email req +:+ ":" +:+ req_ip req) (store w)) = false →
  UserModel.findByEmail P (req_email req) (users w) = Some user →
  UserModel.comparePassword P user (req_password req) = true →
  u_isActive user = true →
  v ∈ users (snd (login P env status now randomUUID req w)) →
  u_id v = u_id user →
  let current := UserModel.generateDeviceId P (buildDeviceInfo P req) in
  Forall (fun d => isActive d = true → deviceId d = current) (devices v)
  ∧ ((length (devices user) ≤ 10)%nat → (length (devices v) ≤ 10)%nat)
  ∧ (NoDup (map deviceId (devices user)) → NoDup (map deviceId (devices v)))
  ∧ ∃ r, fst (login P env status now randomUUID req w) = LoginJson r
         ∧ ds_deviceId (lr_deviceInfo r) = current
         ∧ ds_totalDevices (lr_deviceInfo r) = length (devices v).
Proof.
  intros Hl Hf Hc Ha Hin Hid current.
  destruct (login_success_users P env status now randomUUID req w user Hl Hf Hc Ha)
    as (Husers & r & Hr & Hrid & Hrn).
  cbv zeta in Husers, Hrn. fold current in Husers, Hrn, Hrid.
  set (others_off :=
         map (fun d => if negb (String.eqb (deviceId d) current)
                       then set_isActive d false else d) (devices user)) in *.
  set (u1 := set_lastLogin (set_devices user others_off) now) in *.
  rewrite Husers in Hin.
  assert (v = snd (UserModel.updateDeviceInfo P now (buildDeviceInfo P req) u1)) as ->.
  { apply (save_lookup _ _ _ Hin). by rewrite Hid. }
  assert (devices u1 = others_off) as Hu1 by reflexivity.
  assert (map deviceId others_off = map deviceId (devices user)) as Hids.
  { unfold others_off. rewrite map_map. apply map_ext. intros d.
    by destruct (negb _). }
  split; [|split; [|split]].
  - rewrite updateDeviceInfo_devices. cbv zeta. fold current. rewrite Hu1.
    assert (Forall (fun d => isActive d = true → deviceId d = current) others_off) as Hoff.
    { unfold others_off. apply Forall_forall. intros d Hd.
      apply (list_elem_of_fmap _ (devices user)) in Hd as (x & -> & _).
      destruct (String.eqb (deviceId x) current) eqn:E; cbn [negb].
      - intros _. by apply String.eqb_eq.
      - cbn [isActive set_isActive]. discriminate. }
    destruct (findIndex _ others_off) as [i|] eqn:Ei.
    + destruct (others_off !! i) as [x|] eqn:Ex; [|exact Hoff].
      apply Forall_insert; [exact Hoff|]. intros _. cbn [deviceId].
      destruct (findIndex_Some _ _ _ Ei) as (y & Hy & Hp).
      rewrite Ex in Hy. injection Hy as <-. by apply String.eqb_eq.
    + match goal with |- context [others_off ++ [?n]] => set (new := n) end.
      assert (Forall (fun d => isActive d = true → deviceId d = current)
                (others_off ++ [new])) as Hpushed.
      { apply Forall_app. split; [exact Hoff|]. by repeat constructor. }
      destruct (10 <? length (others_off ++ [new]))%nat; [|exact Hpushed].
      unfold slice0. apply Forall_take.
      by rewrite (js_sort_perm byLastSeenDesc (others_off ++ [new])).
  - intros Hlen.
    apply updateDeviceInfo_length_le.
    rewrite Hu1. unfold others_off. by rewrite length_map.
  - intros Hnd. apply updateDeviceInfo_NoDup. rewrite Hu1. by rewrite Hids.
  - exists r. by repeat split.
Qed.

Lemma login_single_active_device_witness :
  let w := {| store := ∅;
              users := [exampleUser [exampleDevice "dev-a" 100 true;
                                     exampleDevice "dev-b" 200 true]] |} in
  ∃ v, users (snd (login examplePlatform defaultEnv alwaysReady 1000 "sid-1"
                     (exampleRequest "secret" "Chrome") w)) = [v]
       ∧ Forall (fun d => isActive d = true
                          → deviceId d = "md5:Chrome-Unknown-desktop-Unknown")
                (devices v).
Proof.
  intros w.
  destruct (users (snd (login examplePlatform defaultEnv alwaysReady 1000 "sid-1"
                          (exampleRequest "secret" "Chrome") w))) as [|v [|v' us]] eqn:E;
    [vm_compute in E; discriminate E| |vm_compute in E; discriminate E].
  exists v. split; [reflexivity|].
  assert (u_id v = "u1") as Hid by (vm_compute in E; injection E as <-; reflexivity).
  apply (proj1 (login_single_active_device examplePlatform defaultEnv alwaysReady 1000
                  "sid-1" (exampleRequest "secret" "Chrome") w
                  (exampleUser [exampleDevice "dev-a" 100 true;
                                exampleDevice "dev-b" 200 true]) v
                  eq_refl eq_refl eq_refl eq_refl
                  ltac:(rewrite E; apply list_elem_of_singleton; reflexivity) Hid)).
Defined.

(** * Every live refresh token is in the token set of its user *)

Lemma tokens_ne_session a b : "user_refresh_tokens:" +:+ a ≠ "session:" +:+ b.
Proof. key_discr. Qed.

Lemma tokens_ne_active a b : "user_refresh_tokens:" +:+ a ≠ "active_session:" +:+ b.
Proof. key_discr. Qed.

Lemma tokens_ne_mark a b : "user_refresh_tokens:" +:+ a ≠ "session_refresh:" +:+ b.
Proof. key_discr. Qed.

Lemma tokens_ne_failed a b : "user_refresh_tokens:" +:+ a ≠ "failed_attempts:" +:+ b.
Proof. key_discr. Qed.

Lemma tokens_ne_lock a b : "user_refresh_tokens:" +:+ a ≠ "account_lock:" +:+ b.
Proof. key_discr. Qed.

Lemma token_ne_lock a b : "refresh_token:" +:+ a ≠ "account_lock:" +:+ b.
Proof. key_discr. Qed.

Lemma token_ne_active a b : "refresh_token:" +:+ a ≠ "active_session:" +:+ b.
Proof. key_discr. Qed.

Lemma same_tokens_refl (s : db) : same_tokens s s.
Proof. by intros x. Qed.

Lemma same_tokens_trans (s1 s2 s3 : db) :
  same_tokens s1 s2 → same_tokens s2 s3 → same_tokens s1 s3.
Proof.
  intros H12 H23 x. destruct (H12 x) as [A B], (H23 x) as [C D]. split; congruence.
Qed.

(** A store that agrees with another on every key that is neither a token
    record nor a token set of the other namespaces. *)
Lemma same_tokens_frame (s s' : db) :
  (∀ k, (∃ x, k = "refresh_token:" +:+ x) ∨ (∃ x, k = "user_refresh_tokens:" +:+ x) →
        s' !! k = s !! k) →
  same_tokens s s'.
Proof. intros H x. split; apply H; eauto. Qed.

Lemma lookup_live_same now k (s s' : db) :
  s' !! k = s !! k → lookup_live now k s' = lookup_live now k s.
Proof. intros H. unfold lookup_live. by rewrite H. Qed.

Lemma tokens_indexed_same env now (s s' : db) :
  same_tokens s s' → tokens_indexed env now s → tokens_indexed env now s'.
Proof.
  intros Hsame (T1 & T2 & T3). split; [|split].
  - intros u e He. rewrite (proj2 (Hsame u)) in He. eauto.
  - intros t e td He Hv. rewrite (proj1 (Hsame t)) in He. eauto.
  - intros t e td now' Hle He Hv Hl. rewrite (proj1 (Hsame t)) in He.
    destruct (T3 t e td now' Hle He Hv Hl) as (es & ms & Hes & Hvs & Hin).
    exists es, ms. split; [|done].
    by rewrite (lookup_live_same now' _ s s' (proj2 (Hsame _))).
Qed.

Lemma tokens_indexed_later env now now1 (s : db) :
  now ≤ now1 → tokens_indexed env now s → tokens_indexed env now1 s.
Proof.
  intros Hle (T1 & T2 & T3). split; [exact T1|]. split.
  - intros t e td He Hv. destruct (T2 t e td He Hv) as (x & Hx & Hb).
    exists x. split; [exact Hx|lia].
  - intros t e td now' Hle'. apply T3. lia.
Qed.

Lemma tokens_indexed_empty env now : tokens_indexed env now ∅.
Proof.
  split; [|split].
  - intros u e He. by rewrite lookup_empty in He.
  - intros t e td He. by rewrite lookup_empty in He.
  - intros t e td now' _ He. by rewrite lookup_empty in He.
Qed.

Lemma storeRefreshToken_indexed env ready now token userId sessionId (s : db) :
  tokens_indexed env now s →
  tokens_indexed env now
    (snd (sessionService.storeRefreshToken env ready now token userId sessionId s)).
Proof.
  intros Hinv. destruct ready; [|by rewrite storeRefreshToken_not_ready].
  destruct (Z.lt_ge_cases 0 (sessionService.refreshExpire env)) as [Hpos|Hneg];
    [|by rewrite storeRefreshToken_refused].
  destruct Hinv as (T1 & T2 & T3).
  assert (∃ ms,
    (lookup_live now ("user_refresh_tokens:" +:+ userId) s = None ∧ ms = ∅)
    ∨ (∃ e, lookup_live now ("user_refresh_tokens:" +:+ userId) s = Some e
            ∧ val e = VSet ms)) as (ms & Hms).
  { destruct (lookup_live now ("user_refresh_tokens:" +:+ userId) s) as [e|] eqn:El.
    - destruct (lookup_live_Some _ _ _ _ El) as [Hraw _].
      destruct (T1 _ _ Hraw) as (ms & Hv). exists ms. right. eauto.
    - exists ∅. by left. }
  rewrite (storeRefreshToken_run env now token userId sessionId s ms Hpos Hms).
  set (E := now + Redis.seconds (sessionService.refreshExpire env)).
  set (td0 := {| td_userId := userId; td_sessionId := sessionId; td_createdAt := now |}).
  split; [|split].
  - intros u e He.
    destruct (decide (u = userId)) as [->|Hu].
    + rewrite lookup_insert_eq in He. injection He as <-. eauto.
    + rewrite lookup_insert_ne in He
        by (intros Hk; apply tokens_key_inj in Hk; congruence).
      rewrite lookup_insert_ne in He by apply token_ne_tokens. eauto.
  - intros t e td He Hv.
    rewrite lookup_insert_ne in He by apply tokens_ne_token.
    destruct (decide (t = token)) as [->|Ht].
    + rewrite lookup_insert_eq in He. injection He as <-. exists E. split; [done|lia].
    + rewrite lookup_insert_ne in He
        by (intros Hk; apply token_key_inj in Hk; congruence).
      eauto.
  - intros t e td now' Hle He Hv Hl.
    rewrite lookup_insert_ne in He by apply tokens_ne_token.
    destruct (decide (t = token)) as [->|Ht].
    + rewrite lookup_insert_eq in He. injection He as <-.
      cbn [val] in Hv. injection Hv as <-. cbn [td_userId td0].
      exists {| val := VSet ({[ token ]} ∪ ms); expiry := Some E |}, ({[ token ]} ∪ ms).
      split; [|split; [reflexivity|]].
      * rewrite lookup_live_insert_eq. unfold live in *. cbn [expiry] in *. by rewrite Hl.
      * apply elem_of_union. left. by apply elem_of_singleton.
    + rewrite lookup_insert_ne in He
        by (intros Hk; apply token_key_inj in Hk; congruence).
      destruct (T3 t e td now' Hle He Hv Hl) as (es & ms' & Hes & Hvs & Hin).
      destruct (decide (td_userId td = userId)) as [Hu|Hu].
      * rewrite Hu in *.
        destruct (lookup_live_Some _ _ _ _ Hes) as [Hraw Hlive'].
        assert (lookup_live now ("user_refresh_tokens:" +:+ userId) s = Some es) as Hnow.
        { unfold lookup_live. rewrite Hraw. by rewrite (live_mono now now' es Hle Hlive'). }
        destruct Hms as [[Hnone _]|(e0 & He0 & Hv0)]; [congruence|].
        assert (e0 = es) as -> by congruence.
        assert (ms = ms') as -> by congruence.
        exists {| val := VSet ({[ token ]} ∪ ms'); expiry := Some E |}, ({[ token ]} ∪ ms').
        split; [|split; [reflexivity|]].
        -- rewrite lookup_live_insert_eq.
           destruct (T2 t e td He Hv) as (x & Hx & Hb).
           unfold live in *. cbn [expiry]. rewrite Hx in Hl.
           apply Z.ltb_lt in Hl.
           destruct (Z.ltb_spec now' E); [done|]. unfold E in *. lia.
        -- apply elem_of_union. by right.
      * exists es, ms'. split; [|done].
        rewrite lookup_live_insert_ne
          by (intros Hk; apply tokens_key_inj in Hk; congruence).
        by rewrite lookup_live_insert_ne by apply token_ne_tokens.
Qed.

Lemma delete_record_indexed env now token (s : db) :
  tokens_indexed env now s →
  tokens_indexed env now (delete ("refresh_token:" +:+ token) s).
Proof.
  intros (T1 & T2 & T3). split; [|split].
  - intros u e He. rewrite lookup_delete_ne in He by apply token_ne_tokens. eauto.
  - intros t e td He Hv. apply lookup_delete_Some in He as [_ He]. eauto.
  - intros t e td now' Hle He Hv Hl. apply lookup_delete_Some in He as [_ He].
    destruct (T3 t e td now' Hle He Hv Hl) as (es & ms & Hes & Hvs & Hin).
    exists es, ms. split; [|done].
    by rewrite lookup_live_delete_ne by apply token_ne_tokens.
Qed.

Lemma srem_indexed env now token userId (s : db) :
  s !! ("refresh_token:" +:+ token) = None →
  tokens_indexed env now s →
  tokens_indexed env now
    (snd (Redis.srem now ("user_refresh_tokens:" +:+ userId) token s)).
Proof.
  intros Habsent Hinv. pose proof Hinv as (T1 & T2 & T3). unfold Redis.srem.
  destruct (lookup_live now ("user_refresh_tokens:" +:+ userId) s) as [es|] eqn:El;
    [|exact Hinv].
  destruct (lookup_live_Some _ _ _ _ El) as [Hraw Hlive].
  destruct (val es) as [?|?|?|?|ms] eqn:Ev; try exact Hinv.
  assert (∀ t e td now', now ≤ now' →
            s !! ("refresh_token:" +:+ t) = Some e → val e = VToken td →
            live now' e = true → td_userId td = userId →
            live now' es = true ∧ t ∈ ms ∖ {[ token ]}) as Hmember.
  { intros t e td now' Hle He Hv Hl Hu.
    destruct (T3 t e td now' Hle He Hv Hl) as (es' & ms' & Hes & Hvs & Hin).
    rewrite Hu in Hes. destruct (lookup_live_Some _ _ _ _ Hes) as [Hraw' Hlive'].
    assert (es' = es) as -> by congruence.
    assert (ms' = ms) as -> by congruence.
    split; [exact Hlive'|]. apply elem_of_difference. split; [exact Hin|].
    intros Ht. apply elem_of_singleton in Ht. subst t. congruence. }
  destruct (decide (ms ∖ {[ token ]} = ∅)) as [Hempty|Hne]; cbn [snd].
  - split; [|split].
    + intros u e He. apply lookup_delete_Some in He as [_ He]. eauto.
    + intros t e td He Hv. rewrite lookup_delete_ne in He by apply tokens_ne_token. eauto.
    + intros t e td now' Hle He Hv Hl.
      rewrite lookup_delete_ne in He by apply tokens_ne_token.
      destruct (decide (td_userId td = userId)) as [Hu|Hu].
      * destruct (Hmember t e td now' Hle He Hv Hl Hu) as [_ Hin].
        rewrite Hempty in Hin. by apply not_elem_of_empty in Hin.
      * destruct (T3 t e td now' Hle He Hv Hl) as (es' & ms' & Hes & Hvs & Hin).
        exists es', ms'. split; [|done].
        by rewrite lookup_live_delete_ne
          by (intros Hk; apply tokens_key_inj in Hk; congruence).
  - split; [|split].
    + intros u e He. destruct (decide (u = userId)) as [->|Hu].
      * rewrite lookup_insert_eq in He. injection He as <-. eauto.
      * rewrite lookup_insert_ne in He
          by (intros Hk; apply tokens_key_inj in Hk; congruence). eauto.
    + intros t e td He Hv. rewrite lookup_insert_ne in He by apply tokens_ne_token. eauto.
    + intros t e td now' Hle He Hv Hl.
      rewrite lookup_insert_ne in He by apply tokens_ne_token.
      destruct (decide (td_userId td = userId)) as [Hu|Hu].
      * destruct (Hmember t e td now' Hle He Hv Hl Hu) as [Hlive' Hin].
        rewrite Hu.
        exists {| val := VSet (ms ∖ {[ token ]}); expiry := expiry es |}, (ms ∖ {[ token ]}).
        split; [|split; [reflexivity|exact Hin]].
        rewrite lookup_live_insert_eq. unfold live in *. cbn [expiry]. by rewrite Hlive'.
      * destruct (T3 t e td now' Hle He Hv Hl) as (es' & ms' & Hes & Hvs & Hin).
        exists es', ms'. split; [|done].
        by rewrite lookup_live_insert_ne
          by (intros Hk; apply tokens_key_inj in Hk; congruence).
Qed.

Lemma deleteRefreshToken_cases ready now token (s : db) :
  let s' := snd (sessionService.deleteRefreshToken ready now token s) in
  s' = s
  ∨ s' = delete ("refresh_token:" +:+ token) s
  ∨ ∃ userId, s' = snd (Redis.srem now ("user_refresh_tokens:" +:+ userId) token
                          (delete ("refresh_token:" +:+ token) s)).
Proof.
  intros s'. subst s'.
  unfold sessionService.deleteRefreshToken, safeRedisOp, mbind, cmd_bind, Redis.bind,
    Redis.await.
  destruct ready; [|by left].
  pose proof (getRefreshToken_store true now token s) as Hst.
  destruct (sessionService.getRefreshToken true now token s) as [tokenData s1].
  cbn [snd] in Hst. subst s1. unfold Redis.del.
  destruct tokenData as [t|]; [|right; by left].
  destruct (negb (String.eqb (td_userId t) "")); [|right; by left].
  right. right. exists (td_userId t).
  by destruct (Redis.srem now _ token _) as [[[]|] s2].
Qed.

Lemma deleteRefreshToken_indexed env ready now token (s : db) :
  tokens_indexed env now s →
  tokens_indexed env now (snd (sessionService.deleteRefreshToken ready now token s)).
Proof.
  intros Hinv.
  destruct (deleteRefreshToken_cases ready now token s) as [->|[->|[userId ->]]].
  - exact Hinv.
  - by apply delete_record_indexed.
  - apply srem_indexed; [apply lookup_delete_eq|by apply delete_record_indexed].
Qed.

Lemma getRefreshToken_Some ready now token (s : db) td :
  fst (sessionService.getRefreshToken ready now token s) = Some td →
  ∃ e, s !! ("refresh_token:" +:+ token) = Some e ∧ val e = VToken td
       ∧ live now e = true.
Proof.
  unfold sessionService.getRefreshToken. redis_unfold.
  destruct ready; [|done].
  destruct (lookup_live now _ s) as [e|] eqn:El; [|done].
  destruct (lookup_live_Some _ _ _ _ El) as [Hraw Hlive].
  destruct (val e) as [str| | |t|] eqn:Ev; cbn [fst]; try done.
  - by destruct (String.eqb str "").
  - intros [= ->]. eauto.
Qed.

Lemma deleteAllUserRefreshTokens_cases ready now userId (s : db) :
  let s' := snd (sessionService.deleteAllUserRefreshTokens ready now userId s) in
  s' = s
  ∨ ∃ es ms, lookup_live now ("user_refresh_tokens:" +:+ userId) s = Some es
             ∧ val es = VSet ms
             ∧ s' = foldl (fun acc k0 => delete k0 acc) s
                      (map (fun t => "refresh_token:" +:+ t) (elements ms)
                       ++ ["user_refresh_tokens:" +:+ userId]).
Proof.
  intros s'. subst s'. unfold sessionService.deleteAllUserRefreshTokens. redis_unfold.
  destruct ready; [|by left].
  destruct (lookup_live now _ s) as [e|] eqn:El; cbn [snd]; [|by left].
  destruct (val e) as [?|?|?|?|ms] eqn:Ev; cbn [snd]; try (by left).
  destruct (0 <? length (elements ms))%nat; cbn [snd]; [|by left].
  right. exists e, ms. by repeat split.
Qed.

(** Bulk revocation leaves no readable record that names the user. *)
Lemma deleteAllUserRefreshTokens_complete env now userId (s : db) :
  tokens_indexed env now s →
  let s' := snd (sessionService.deleteAllUserRefreshTokens true now userId s) in
  ∀ t e td now', now ≤ now' →
    s' !! ("refresh_token:" +:+ t) = Some e → val e = VToken td →
    live now' e = true → td_userId td ≠ userId.
Proof.
  intros (T1 & T2 & T3) s' t e td now' Hle He Hv Hl Hu.
  assert (s !! ("refresh_token:" +:+ t) = Some e) as Hraw.
  { destruct (deleteAllUserRefreshTokens_shrinks true now userId s ("refresh_token:" +:+ t))
      as [H|H]; fold s' in H; congruence. }
  destruct (T3 t e td now' Hle Hraw Hv Hl) as (es & ms & Hes & Hvs & Hin).
  rewrite Hu in Hes. destruct (lookup_live_Some _ _ _ _ Hes) as [Hr Hlive].
  assert (lookup_live now ("user_refresh_tokens:" +:+ userId) s = Some es) as Hnow.
  { unfold lookup_live. rewrite Hr. by rewrite (live_mono now now' es Hle Hlive). }
  subst s'. revert He.
  unfold sessionService.deleteAllUserRefreshTokens. redis_unfold.
  rewrite Hnow, Hvs. cbn [snd].
  assert ((0 <? length (elements ms))%nat = true) as ->.
  { apply Nat.ltb_lt. apply elem_of_elements in Hin.
    destruct (elements ms); [by apply elem_of_nil in Hin|simpl; lia]. }
  cbn [snd]. rewrite lookup_foldl_delete_in; [done|].
  apply elem_of_app. left. apply list_elem_of_fmap. exists t.
  split; [done|by apply elem_of_elements].
Qed.

Lemma deleteAllUserRefreshTokens_indexed env ready now userId (s : db) :
  tokens_indexed env now s →
  tokens_indexed env now
    (snd (sessionService.deleteAllUserRefreshTokens ready now userId s)).
Proof.
  intros Hinv. pose proof Hinv as (T1 & T2 & T3).
  destruct (deleteAllUserRefreshTokens_cases ready now userId s)
    as [->|(es & ms & Hes & Hvs & Hs')]; [exact Hinv|].
  assert (∀ k e, snd (sessionService.deleteAllUserRefreshTokens ready now userId s) !! k
                 = Some e → s !! k = Some e) as Hsub.
  { intros k e He.
    destruct (deleteAllUserRefreshTokens_shrinks ready now userId s k) as [H|H]; congruence. }
  destruct (lookup_live_Some _ _ _ _ Hes) as [Hraw Hlive].
  split; [|split].
  - intros u e He. eauto.
  - intros t e td He Hv. eauto.
  - intros t e td now' Hle He Hv Hl.
    destruct (T3 t e td now' Hle (Hsub _ _ He) Hv Hl) as (es' & ms' & Hes' & Hvs' & Hin).
    exists es', ms'. split; [|done].
    apply lookup_live_Some in Hes' as [Hraw' Hlive'].
    assert (td_userId td ≠ userId) as Hu.
    { intros Hu. rewrite Hu in Hraw'.
      assert (es' = es) as -> by congruence.
      assert (ms' = ms) as -> by congruence.
      rewrite Hs' in He. rewrite lookup_foldl_delete_in in He; [done|].
      apply elem_of_app. left. apply list_elem_of_fmap. exists t.
      split; [done|by apply elem_of_elements]. }
    unfold lookup_live. rewrite Hs'. rewrite lookup_foldl_delete.
    + by rewrite Hraw', Hlive'.
    + intros Hk. apply elem_of_app in Hk as [Hk|Hk].
      * apply list_elem_of_fmap in Hk as (t0 & Hk & _). by apply tokens_ne_token in Hk.
      * apply list_elem_of_singleton in Hk. apply tokens_key_inj in Hk. congruence.
Qed.

(** ** Calls that leave the token keys alone *)

Lemma incrementFailedAttempts_same_tokens env ready now identifier (s : db) :
  same_tokens s (snd (failedAttemptsService.incrementFailedAttempts env ready now identifier s)).
Proof.
  intros x. split; apply incrementFailedAttempts_frame;
    [apply token_ne_failed|apply tokens_ne_failed].
Qed.

Lemma lockAccount_same_tokens env ready now identifier (s : db) :
  same_tokens s (snd (failedAttemptsService.lockAccount env ready now identifier s)).
Proof.
  intros x. split; apply lockAccount_frame; [apply token_ne_lock|apply tokens_ne_lock].
Qed.

Lemma clearFailedAttempts_same_tokens ready identifier (s : db) :
  same_tokens s (snd (failedAttemptsService.clearFailedAttempts ready identifier s)).
Proof.
  intros x. split; apply clearFailedAttempts_frame;
    [apply token_ne_failed|apply tokens_ne_failed].
Qed.

Lemma deleteAllUserSessions_frame ready now userId (s : db) k :
  (∀ x, k ≠ "session:" +:+ x) → k ≠ "active_session:" +:+ userId →
  snd (sessionService.deleteAllUserSessions ready now userId s) !! k = s !! k.
Proof.
  intros Hs Ha. unfold sessionService.deleteAllUserSessions. redis_unfold.
  destruct ready; [|done].
  destruct (lookup_live now _ s) as [e|]; cbn [truthy snd].
  - destruct (val e) as [sid|?|?|?|?]; cbn [truthy snd]; try done.
    destruct (negb (String.eqb sid "")); cbn [snd].
    + rewrite lookup_delete_ne by done. by rewrite lookup_delete_ne by (apply not_eq_sym, Hs).
    + by rewrite lookup_delete_ne.
  - by rewrite lookup_delete_ne.
Qed.

Lemma deleteAllUserSessions_same_tokens ready now userId (s : db) :
  same_tokens s (snd (sessionService.deleteAllUserSessions ready now userId s)).
Proof.
  intros x. split; apply deleteAllUserSessions_frame;
    first [ intros y; apply token_ne_session | apply token_ne_active
          | intros y; apply tokens_ne_session | apply tokens_ne_active ].
Qed.

Lemma createSession_same_tokens env ready now userId sessionId userData (s : db) :
  same_tokens s (snd (sessionService.createSession env ready now userId sessionId userData s)).
Proof.
  intros x. split; apply createSession_frame;
    first [ apply token_ne_session | apply token_ne_active
          | apply tokens_ne_session | apply tokens_ne_active ].
Qed.

Lemma deleteSession_same_tokens ready now sessionId (s : db) :
  same_tokens s (snd (sessionService.deleteSession ready now sessionId s)).
Proof.
  destruct (deleteSession_cases ready now sessionId s) as [->|(e & d & _ & _ & ->)];
    [apply same_tokens_refl|].
  intros x. split.
  - rewrite lookup_delete_ne by (apply not_eq_sym, token_ne_active).
    by rewrite lookup_delete_ne by (apply not_eq_sym, token_ne_session).
  - rewrite lookup_delete_ne by (apply not_eq_sym, tokens_ne_active).
    by rewrite lookup_delete_ne by (apply not_eq_sym, tokens_ne_session).
Qed.

Lemma refreshSession_same_tokens env ready now sessionId force (s : db) :
  same_tokens s (snd (sessionService.refreshSession env ready now sessionId force s)).
Proof.
  intros x. split; apply refreshSession_frame;
    first [ apply token_ne_session | apply token_ne_mark
          | apply tokens_ne_session | apply tokens_ne_mark ].
Qed.

(** ** The three routes keep the token index *)

Lemma login_indexed P env status now randomUUID req (w : World) :
  tokens_indexed env now (store w) →
  tokens_indexed env now (store (snd (login P env status now randomUUID req w))).
Proof.
  intros Hinv. unfold login. cbv zeta.
  set (identifier := req_email req +:+ ":" +:+ req_ip req).
  pose proof (isAccountLocked_store (status AtIsAccountLocked) now identifier (store w)) as H1.
  destruct (failedAttemptsService.isAccountLocked _ now identifier (store w))
    as [isLocked s1] eqn:E1.
  cbn [fst snd] in *. subst s1.
  destruct isLocked; [exact Hinv|].
  pose proof (incrementFailedAttempts_same_tokens env (status AtIncrementFailedAttempts)
                now identifier (store w)) as Hinc.
  destruct (UserModel.findByEmail P (req_email req) (users w)) as [user|] eqn:Ef.
  2: { destruct (failedAttemptsService.incrementFailedAttempts env _ now identifier (store w))
         as [a s2] eqn:E2.
       cbn [snd store with_store] in *. by apply (tokens_indexed_same env now (store w)). }
  destruct (UserModel.comparePassword P user (req_password req)) eqn:Ec; cbn [negb].
  2: { destruct (failedAttemptsService.incrementFailedAttempts env _ now identifier (store w))
         as [a s2] eqn:E2.
       cbn [snd] in Hinc.
       pose proof (tokens_indexed_same env now _ _ Hinc Hinv) as H2.
       destruct (5 <=? a); [|exact H2].
       pose proof (lockAccount_same_tokens env (status AtLockAccount) now identifier s2)
         as Hlock.
       destruct (failedAttemptsService.lockAccount env _ now identifier s2) as [[] s3] eqn:E3.
       cbn [snd store with_store] in *. by apply (tokens_indexed_same env now s2). }
  clear Hinc.
  destruct (u_isActive user) eqn:Ea; cbn [negb]; [|exact Hinv].
  pose proof (clearFailedAttempts_same_tokens (status AtClearFailedAttempts) identifier
                (store w)) as H2.
  destruct (failedAttemptsService.clearFailedAttempts _ identifier (store w))
    as [[] s2] eqn:E2.
  cbn [u_id u_email u_firstName u_lastName set_devices snd] in *.
  pose proof (deleteAllUserSessions_same_tokens (status AtDeleteAllUserSessions) now
                (u_id user) s2) as H3.
  destruct (sessionService.deleteAllUserSessions _ now (u_id user) s2) as [[] s3] eqn:E3.
  cbn [snd] in *.
  pose proof (deleteAllUserRefreshTokens_indexed env (status AtDeleteAllUserRefreshTokens)
                now (u_id user) s3) as H4.
  destruct (sessionService.deleteAllUserRefreshTokens _ now (u_id user) s3) as [[] s4] eqn:E4.
  cbn [snd] in *.
  pose proof (createSession_same_tokens env (status AtCreateSession) now (u_id user)
                randomUUID
                {| ud_email := u_email user; ud_firstName := u_firstName user;
                   ud_lastName := u_lastName user |} s4) as H5.
  destruct (sessionService.createSession env _ now (u_id user) randomUUID _ s4)
    as [cr s5] eqn:E5.
  cbn [snd] in *.
  pose proof (storeRefreshToken_indexed env (status AtStoreRefreshToken) now
                (refreshToken (generateTokens P now (u_id user) randomUUID (u_email user)))
                (u_id user) randomUUID s5) as H6.
  destruct (sessionService.storeRefreshToken env _ now _ (u_id user) randomUUID s5)
    as [[] s6] eqn:E6.
  destruct (UserModel.updateDeviceInfo P now _ _) as [updatedDeviceId user3] eqn:E7.
  cbn [snd store] in *.
  apply H6. apply (tokens_indexed_same env now s4 s5 H5). apply H4.
  apply (tokens_indexed_same env now s2 s3 H3).
  by apply (tokens_indexed_same env now (store w) s2 H2).
Qed.

Lemma logout_indexed env ready now sessionId userId (w : World) :
  tokens_indexed env now (store w) →
  tokens_indexed env now (store (logout ready now sessionId userId w)).
Proof.
  intros Hinv. unfold logout.
  pose proof (deleteSession_same_tokens ready now sessionId (store w)) as H1.
  destruct (sessionService.deleteSession ready now sessionId (store w)) as [[] s1] eqn:E1.
  pose proof (deleteAllUserRefreshTokens_indexed env ready now userId s1) as H2.
  destruct (sessionService.deleteAllUserRefreshTokens ready now userId s1) as [[] s2] eqn:E2.
  cbn [snd store with_store] in *.
  apply H2. by apply (tokens_indexed_same env now (store w) s1).
Qed.

Lemma refresh_token_indexed P env status now token (w : World) :
  tokens_indexed env now (store w) →
  tokens_indexed env now (store (snd (refresh_token P env status now token w))).
Proof.
  intros Hinv. unfold refresh_token.
  destruct (jwt_verify_refresh P now token) as [decoded|]; [|exact Hinv].
  pose proof (getRefreshToken_store (status AtGetRefreshToken) now token (store w)) as H1.
  destruct (sessionService.getRefreshToken _ now token (store w)) as [tokenData s1] eqn:E1.
  cbn [snd] in H1. subst s1.
  destruct tokenData as [td|]; [|exact Hinv].
  pose proof (getSession_store (status AtGetSession) now (dec_sessionId decoded) (store w))
    as H2.
  destruct (sessionService.getSession _ now (dec_sessionId decoded) (store w))
    as [sessionData s2] eqn:E2.
  cbn [snd] in H2. subst s2.
  pose proof (deleteRefreshToken_indexed env (status AtDeleteRefreshToken) now token
                (store w) Hinv) as H3.
  destruct (sessionService.deleteRefreshToken _ now token (store w)) as [[] s3] eqn:E3.
  cbn [snd] in H3.
  destruct sessionData as [sd|]; [|exact H3].
  destruct (UserModel.findById (dec_userId decoded) (users w)) as [user|]; [|exact H3].
  destruct (u_isActive user); cbn [negb]; [|exact H3].
  pose proof (refreshSession_same_tokens env (status AtRefreshSession) now
                (dec_sessionId decoded) false (store w)) as H4.
  destruct (sessionService.refreshSession env _ now (dec_sessionId decoded) false (store w))
    as [b s4] eqn:E4.
  cbn [snd store with_store] in *. by apply (tokens_indexed_same env now (store w)).
Qed.

Lemma timed_reachable_indexed P env now (w : World) :
  timed_reachable P env now w → tokens_indexed env now (store w).
Proof.
  induction 1 as [now us|now w now1 w1 Hreach IH Hstep].
  - apply tokens_indexed_empty.
  - destruct Hstep as [now now1 status randomUUID req w Hle
                      |now now1 ready sessionId userId w Hle
                      |now now1 status token w Hle
                      |now now1 ready sessionId force w Hle
                      |now now1 ready userId w Hle
                      |now now1 us w Hle].
    + apply login_indexed. by apply (tokens_indexed_later env now).
    + apply logout_indexed. by apply (tokens_indexed_later env now).
    + apply refresh_token_indexed. by apply (tokens_indexed_later env now).
    + cbn [store with_store].
      apply (tokens_indexed_same env now1 (store w)); [apply refreshSession_same_tokens|].
      by apply (tokens_indexed_later env now).
    + cbn [store with_store].
      apply (tokens_indexed_same env now1 (store w));
        [apply deleteAllUserSessions_same_tokens|].
      by apply (tokens_indexed_later env now).
    + cbn [store]. by apply (tokens_indexed_later env now).
Qed.

Lemma twoUsersWorld_reachable : timed_reachable examplePlatform defaultEnv 2000 twoUsersWorld.
Proof.
  unfold twoUsersWorld.
  eapply timed_next; [|apply (timed_login _ _ 1000 2000); lia].
  eapply timed_next; [|apply (timed_login _ _ 0 1000); lia].
  apply timed_init.
Qed.

Lemma loggedInWorld_reachable : timed_reachable examplePlatform defaultEnv 1000 loggedInWorld.
Proof.
  unfold loggedInWorld, freshWorld.
  eapply timed_next; [|apply (timed_login _ _ 0 1000); lia].
  apply timed_init.
Qed.

Lemma defaultEnv_lifetimes : lifetimes_positive defaultEnv.
Proof. repeat split. Qed.

(** X21.  Take any world reached from an empty store by requests that come
    one after the other at instants that never go back, each store call
    either skipped because the client is not ready or run to its end, with
    positive lifetimes.  If [getRefreshToken] reads a record under a token
    at an instant from then on, SMEMBERS on the token set of the user the
    record names lists that token at that instant: no readable refresh
    token is missing from the set that bulk revocation walks. *)
Theorem refresh_token_in_user_set (P : Platform) (env : Env) (now now' : Z)
    (w : World) (ready : bool) (token : string) (td : TokenData) :
  lifetimes_positive env →
  timed_reachable P env now w →
  now ≤ now' →
  fst (sessionService.getRefreshToken ready now' token (store w)) = Some td →
  ∃ tokens,
    Redis.smembers now' ("user_refresh_tokens:" +:+ td_userId td) (store w)
    = (Ok tokens, store w)
    ∧ token ∈ tokens.
Proof.
  intros _ Hreach Hle Hget.
  destruct (timed_reachable_indexed P env now w Hreach) as (_ & _ & T3).
  destruct (getRefreshToken_Some ready now' token (store w) td Hget) as (e & He & Hv & Hl).
  destruct (T3 token e td now' Hle He Hv Hl) as (es & ms & Hes & Hvs & Hin).
  exists (elements ms). unfold Redis.smembers. rewrite Hes, Hvs.
  split; [reflexivity|by apply elem_of_elements].
Qed.

Lemma refresh_token_in_user_set_witness :
  ∃ tokens,
    Redis.smembers 5000 "user_refresh_tokens:u2" (store twoUsersWorld)
    = (Ok tokens, store twoUsersWorld)
    ∧ "refresh.u2.sid-2" ∈ tokens.
Proof.
  apply (refresh_token_in_user_set examplePlatform defaultEnv 2000 5000 twoUsersWorld true
           "refresh.u2.sid-2"
           {| td_userId := "u2"; td_sessionId := "sid-2"; td_createdAt := 2000 |}).
  - exact defaultEnv_lifetimes.
  - exact twoUsersWorld_reachable.
  - lia.
  - vm_compute. reflexivity.
Defined.

(** X22.  In such a world, after POST /logout for a user with the store
    ready, no record that [getRefreshToken] reads, under any token and at
    any later instant, names that user: the logout revokes every refresh
    token of the user, not only the one of the session that ends. *)
Theorem logout_revokes_every_token (P : Platform) (env : Env) (now now1 now' : Z)
    (w : World) (sessionId userId : string) (ready' : bool) (token : string)
    (td : TokenData) :
  lifetimes_positive env →
  timed_reachable P env now w →
  now ≤ now1 → now1 ≤ now' →
  fst (sessionService.getRefreshToken ready' now' token
         (store (logout true now1 sessionId userId w))) = Some td →
  td_userId td ≠ userId.
Proof.
  intros _ Hreach Hle Hle' Hget.
  pose proof (tokens_indexed_later env now now1 _ Hle
                (timed_reachable_indexed P env now w Hreach)) as Hinv.
  destruct (getRefreshToken_Some _ _ _ _ _ Hget) as (e & He & Hv & Hl).
  revert He. unfold logout.
  pose proof (deleteSession_same_tokens true now1 sessionId (store w)) as H1.
  destruct (sessionService.deleteSession true now1 sessionId (store w)) as [[] s1] eqn:E1.
  pose proof (deleteAllUserRefreshTokens_complete env now1 userId s1) as H2.
  destruct (sessionService.deleteAllUserRefreshTokens true now1 userId s1) as [[] s2] eqn:E2.
  cbn [snd store with_store] in *. intros He.
  apply (H2 (tokens_indexed_same env now1 _ _ H1 Hinv) token e td now' Hle' He Hv Hl).
Qed.

Lemma logout_revokes_every_token_witness :
  let w := logout true 3000 "sid-1" "u1" twoUsersWorld in
  fst (sessionService.getRefreshToken true 4000 "refresh.u1.sid-1" (store w)) = None
  ∧ fst (sessionService.getRefreshToken true 4000 "refresh.u2.sid-2" (store w))
    = Some {| td_userId := "u2"; td_sessionId := "sid-2"; td_createdAt := 2000 |}
  ∧ "u2" ≠ "u1".
Proof.
  split; [vm_compute; reflexivity|]. split; [vm_compute; reflexivity|].
  apply (logout_revokes_every_token examplePlatform defaultEnv 2000 3000 4000 twoUsersWorld
           "sid-1" "u1" true "refresh.u2.sid-2"
           {| td_userId := "u2"; td_sessionId := "sid-2"; td_createdAt := 2000 |}).
  - exact defaultEnv_lifetimes.
  - exact twoUsersWorld_reachable.
  - lia.
  - lia.
  - vm_compute. reflexivity.
Defined.

(** X23.  In such a world, after a login whose credentials verify, with the
    store ready where the login revokes the refresh tokens of the user, the
    only record naming the user that [getRefreshToken] reads, at any later
    instant, is the one under the refresh token this login answered with,
    and it carries the session id of this login. *)
Theorem login_leaves_one_refresh_token (P : Platform) (env : Env)
    (status : LoginSite → bool) (now now1 now' : Z) (randomUUID : string)
    (req : LoginRequest) (w : World) (user : User) (ready' : bool) (token : string)
    (td : TokenData) :
  lifetimes_positive env →
  timed_reachable P env now w →
  now ≤ now1 → now1 ≤ now' →
  status AtDeleteAllUserRefreshTokens = true →
  fst (failedAttemptsService.isAccountLocked (status AtIsAccountLocked) now1
         (req_email req +:+ ":" +:+ req_ip req) (store w)) = false →
  UserModel.findByEmail P (req_email req) (users w) = Some user →
  UserModel.comparePassword P user (req_password req) = true →
  u_isActive user = true →
  fst (sessionService.getRefreshToken ready' now' token
         (store (snd (login P env status now1 randomUUID req w)))) = Some td →
  td_userId td = u_id user →
  token = refreshToken (generateTokens P now1 (u_id user) randomUUID (u_email user))
  ∧ td_sessionId td = randomUUID.
Proof.
  intros (_ & _ & Hpos & _) Hreach Hle Hle' Hready Hl Hf Hc Ha Hget Hu.
  pose proof (tokens_indexed_later env now now1 _ Hle
                (timed_reachable_indexed P env now w Hreach)) as Hinv.
  destruct (login_success_store P env status now1 randomUUID req w user Hl Hf Hc Ha)
    as (r & _ & _ & _ & Hstore).
  cbv zeta in Hstore. rewrite Hstore in Hget. clear Hstore.
  set (new := refreshToken (generateTokens P now1 (u_id user) randomUUID (u_email user)))
    in *.
  set (s2 := snd (failedAttemptsService.clearFailedAttempts _ _ (store w))) in *.
  set (s3 := snd (sessionService.deleteAllUserSessions _ now1 (u_id user) s2)) in *.
  rewrite Hready in Hget.
  set (s4 := snd (sessionService.deleteAllUserRefreshTokens true now1 (u_id user) s3)) in *.
  set (s5 := snd (sessionService.createSession env _ now1 (u_id user) randomUUID _ s4)) in *.
  assert (tokens_indexed env now1 s3) as H3.
  { apply (tokens_indexed_same env now1 s2); [apply deleteAllUserSessions_same_tokens|].
    apply (tokens_indexed_same env now1 (store w)); [|exact Hinv].
    apply clearFailedAttempts_same_tokens. }
  assert (∀ e, s5 !! ("refresh_token:" +:+ token) = Some e → val e = VToken td →
               live now' e = true → False) as Hold.
  { intros e He Hv Hlive.
    assert (same_tokens s4 s5) as H45 by apply createSession_same_tokens.
    rewrite (proj1 (H45 token)) in He.
    by apply (deleteAllUserRefreshTokens_complete env now1 (u_id user) s3 H3
                token e td now' Hle' He Hv Hlive). }
  destruct (getRefreshToken_Some _ _ _ _ _ Hget) as (e & He & Hv & Hlive).
  destruct (status AtStoreRefreshToken).
  - destruct (decide (token = new)) as [->|Hne].
    + split; [reflexivity|].
      rewrite storeRefreshToken_record in He by done. injection He as <-.
      cbn [val] in Hv. injection Hv as <-. reflexivity.
    + rewrite storeRefreshToken_frame in He.
      * destruct (Hold e He Hv Hlive).
      * intros Hk. apply token_key_inj in Hk. congruence.
      * apply token_ne_tokens.
  - rewrite storeRefreshToken_not_ready in He. destruct (Hold e He Hv Hlive).
Qed.

Lemma login_leaves_one_refresh_token_witness :
  "refresh.u1.sid-2"
  = refreshToken (generateTokens examplePlatform 2000 "u1" "sid-2" "a@example.com")
  ∧ "sid-2" = "sid-2".
Proof.
  apply (login_leaves_one_refresh_token examplePlatform defaultEnv alwaysReady
           1000 2000 3000 "sid-2" (exampleRequest "secret" "Firefox") loggedInWorld
           (snd (UserModel.updateDeviceInfo examplePlatform 1000
                   (buildDeviceInfo examplePlatform (exampleRequest "secret" "Chrome"))
                   (set_lastLogin (exampleUser []) 1000)))
           true "refresh.u1.sid-2"
           {| td_userId := "u1"; td_sessionId := "sid-2"; td_createdAt := 2000 |}).
  - exact defaultEnv_lifetimes.
  - exact loggedInWorld_reachable.
  - lia.
  - lia.
  - reflexivity.
  - vm_compute. reflexivity.
  - vm_compute. reflexivity.
  - vm_compute. reflexivity.
  - vm_compute. reflexivity.
  - vm_compute. reflexivity.
  - vm_compute. reflexivity.
Defined.

(** * The device routes *)

Lemma findById_save userId (user user' : User) (us : list User) :
  UserModel.findById userId us = Some user → u_id user' = u_id user →
  UserModel.findById userId (UserModel.save user' us) = Some user'.
Proof.
  unfold UserModel.findById, UserModel.save. intros Hf Hid.
  assert (u_id user = userId) as Hu.
  { apply find_some in Hf as [_ H]. by apply String.eqb_eq. }
  assert (u_id user' = userId) as Hu' by congruence.
  rewrite Hu'. clear Hid Hu.
  induction us as [|v t IH]; [discriminate|].
  cbn [find map] in *.
  destruct (String.eqb (u_id v) userId) eqn:Ev.
  - by rewrite Hu', String.eqb_refl.
  - rewrite Ev. by apply IH.
Qed.

(** X24.  POST /devices/:deviceId/deactivate with a token the middleware
    lets through, for a stored user and the id of one of the user's
    devices, answers 200, and the store it leaves is the one the middleware
    left: apart from the session record and the refresh marker of the
    session of the request, which the middleware may re-arm, every key of
    the session store is as it was, so the handler ends no session.  A
    GET /devices that follows and passes the middleware for the same user
    lists as many devices as before, with the same ids, one with the given
    id inactive, and the devices with another id as they were. *)
Theorem deactivate_then_devices (env : Env) (verify : Z → string → VerifyAccess)
    (status status2 : AuthSite → bool) (now now2 : Z)
    (authorization authorization2 : option string) (devId : string) (w : World)
    (reqUser reqUser2 : ReqUser) (s1 s2 : db) (user : User) (d : Device) :
  authenticateToken env verify status now authorization (store w) = (AuthNext reqUser, s1) →
  UserModel.findById (ru_userId reqUser) (users w) = Some user →
  d ∈ devices user → deviceId d = devId →
  authenticateToken env verify status2 now2 authorization2 s1 = (AuthNext reqUser2, s2) →
  ru_userId reqUser2 = ru_userId reqUser →
  ∃ w' history,
    deactivate_route env verify status now authorization devId w
    = ((200, "Device deactivated successfully"), w')
    ∧ store w' = s1
    ∧ (∀ k, k ≠ "session:" +:+ ru_sessionId reqUser →
            k ≠ "session_refresh:" +:+ ru_sessionId reqUser →
            store w' !! k = store w !! k)
    ∧ devices_route env verify status2 now2 authorization2 w'
      = (DevicesJson history (length (devices user)),
         {| store := s2; users := users w' |})
    ∧ map deviceId history ≡ₚ map deviceId (devices user)
    ∧ (∃ x, x ∈ history ∧ deviceId x = devId ∧ isActive x = false)
    ∧ (∀ x, x ∈ history → deviceId x ≠ devId → x ∈ devices user).
Proof.
  intros Hauth Hf Hin Hid Hauth2 Hsame.
  set (p := fun d0 : Device => String.eqb (deviceId d0) devId).
  assert (p d = true) as Hp by (unfold p; by apply String.eqb_eq).
  destruct (findIndex_exists p (devices user) d Hin Hp) as [i Hi].
  destruct (findIndex_Some p _ _ Hi) as (d0 & Hd0 & Hp0).
  apply String.eqb_eq in Hp0.
  set (ds := <[ i := set_isActive d0 false ]> (devices user)).
  set (user' := set_devices user ds).
  assert (UserModel.deactivateDevice devId user = (true, user')) as Hde.
  { unfold UserModel.deactivateDevice. fold p. by rewrite Hi, Hd0. }
  assert (i < length (devices user))%nat as Hlt by (by eapply lookup_lt_Some).
  exists {| store := s1; users := UserModel.save user' (users w) |},
         (js_sort byLastSeenDesc ds).
  split; [|split; [reflexivity|split; [|split; [|split; [|split]]]]].
  - unfold deactivate_route. by rewrite Hauth, Hf, Hde.
  - intros k Hk Hm. cbn [store].
    apply authenticateToken_next in Hauth
      as (token & decoded & e & sd & _ & _ & _ & _ & _ & _ & _ & Hrs & ->).
    rewrite Hrs in Hk, Hm. by apply refreshSession_frame.
  - unfold devices_route. cbn [store users]. rewrite Hauth2, Hsame.
    rewrite (findById_save (ru_userId reqUser) user user' (users w) Hf eq_refl).
    unfold UserModel.getDeviceHistory. cbn [devices user' set_devices].
    rewrite js_sort_length. unfold ds. by rewrite length_insert.
  - rewrite (js_sort_perm byLastSeenDesc ds). unfold ds.
    change (map deviceId (<[i:=set_isActive d0 false]> (devices user)))
      with (deviceId <$> <[i:=set_isActive d0 false]> (devices user)).
    rewrite list_fmap_insert. rewrite list_insert_id; [done|].
    rewrite list_lookup_fmap, Hd0. reflexivity.
  - exists (set_isActive d0 false). split; [|by split].
    rewrite (js_sort_perm byLastSeenDesc ds). by apply list_elem_of_insert.
  - intros x Hx Hne. rewrite (js_sort_perm byLastSeenDesc ds) in Hx.
    apply list_elem_of_lookup in Hx as [j Hj].
    apply list_lookup_insert_Some in Hj as [(_ & <- & _)|[_ Hj]].
    + by destruct Hne.
    + apply list_elem_of_lookup. eauto.
Qed.

Lemma deactivate_then_devices_witness :
  let s1 := snd (authenticateToken defaultEnv exampleVerify alwaysReady 2000
                   (Some "Bearer access.u1.sid-1") (store loggedInWorld)) in
  let s2 := snd (authenticateToken defaultEnv exampleVerify alwaysReady 3000
                   (Some "Bearer access.u1.sid-1") s1) in
  ∃ w' history,
    deactivate_route defaultEnv exampleVerify alwaysReady 2000
      (Some "Bearer access.u1.sid-1") "md5:Chrome-Unknown-desktop-Unknown" loggedInWorld
    = ((200, "Device deactivated successfully"), w')
    ∧ devices_route defaultEnv exampleVerify alwaysReady 3000
        (Some "Bearer access.u1.sid-1") w'
      = (DevicesJson history 1, {| store := s2; users := users w' |})
    ∧ (∃ x, x ∈ history ∧ deviceId x = "md5:Chrome-Unknown-desktop-Unknown"
            ∧ isActive x = false).
Proof.
  intros s1 s2.
  destruct (deactivate_then_devices defaultEnv exampleVerify alwaysReady alwaysReady
              2000 3000 (Some "Bearer access.u1.sid-1") (Some "Bearer access.u1.sid-1")
              "md5:Chrome-Unknown-desktop-Unknown" loggedInWorld
              {| ru_userId := "u1"; ru_sessionId := "sid-1"; ru_email := "a@example.com" |}
              {| ru_userId := "u1"; ru_sessionId := "sid-1"; ru_email := "a@example.com" |}
              s1 s2
              (snd (UserModel.updateDeviceInfo examplePlatform 1000
                      (buildDeviceInfo examplePlatform (exampleRequest "secret" "Chrome"))
                      (set_lastLogin (exampleUser []) 1000)))
              {| deviceId := "md5:Chrome-Unknown-desktop-Unknown";
                 browser := {| nv_name := "Chrome"; nv_version := "Unknown" |};
                 os := {| nv_name := "Unknown"; nv_version := "Unknown" |};
                 device := {| dd_model := "Unknown"; dd_type := "desktop";
                              dd_vendor := "Unknown" |};
                 ip := "1.2.3.4"; userAgent := Some "Chrome"; deviceToken := None;
                 firstSeen := 1000; lastSeen := 1000; loginCount := 1;
                 isActive := true |})
    as (w' & history & Hde & _ & _ & Hdev & _ & Hx & _).
  - vm_compute. reflexivity.
  - vm_compute. reflexivity.
  - vm_compute. apply list_elem_of_here.
  - reflexivity.
  - vm_compute. reflexivity.
  - reflexivity.
  - exists w', history. split; [exact Hde|]. split; [exact Hdev|exact Hx].
Defined.
